(** * Tracer configuration aggregation of the CodeQL action

    A shallow embedding of the tracer set-up code of the action
    ([tracerConfig], [concatTracerConfigs] and the tracing part of the
    init action's [run]) and of the finish action's [run], together with
    the properties of the aggregation that the specification states.

    Conventions of the embedding.
    - A JavaScript object used as a dictionary is an association list in
      own-property order: this is the order in which [Object.keys],
      [Object.values], [Object.entries] and [for .. of] visit it.  A
      property that the code adds to an object takes the place that the
      run time gives it: an array index goes before the other names, in
      numeric order.  The names that every object inherits from
      [Object.prototype] are found by [in] and by a property read.
    - A string is the sequence of the bytes of its UTF-8 encoding, so
      encoding to a [Buffer] is [list_byte_of_string].  Reading a file
      as text gives its bytes; this is what the run time does for a file
      that holds well-formed UTF-8 ([validUtf8]).
    - A number is an exact integer or NaN; this agrees with the doubles
      of the run time while magnitudes stay below 2^53 ([safeInteger]).
    - The file system, the process environment and the trace of
      externally visible effects are threaded through a state and
      exception monad. *)

From Stdlib Require Import ZArith Lia List String Ascii Permutation DecimalString.
From Stdlib Require Import DecimalPos DecimalZ.
From Stdlib.Strings Require Import Byte.
From stdpp Require Import gmap strings list.

Open Scope string_scope.
Open Scope Z_scope.

(** ** JavaScript objects used as dictionaries *)

Module Js.

Definition Object (V : Type) : Type := list (string * V).

(** [obj[name]]; [None] stands for [undefined]. *)
Fixpoint get {V} (name : string) (o : Object V) : option V :=
  match o with
  | [] => None
  | (k, v) :: rest => if String.eqb k name then Some v else get name rest
  end.

(** [name] is an own property of [obj]. *)
Definition has {V} (name : string) (o : Object V) : bool :=
  match get name o with Some _ => true | None => false end.

(** The properties of [Object.prototype], which every object inherits. *)
Definition objectPrototypeNames : list string :=
  ["constructor"; "__defineGetter__"; "__defineSetter__"; "hasOwnProperty";
   "__lookupGetter__"; "__lookupSetter__"; "isPrototypeOf";
   "propertyIsEnumerable"; "toString"; "valueOf"; "__proto__"; "toLocaleString"].

Definition inherited (name : string) : bool :=
  existsb (String.eqb name) objectPrototypeNames.

(** [name in obj], and [typeof obj[name] !== 'undefined'] for an object
    whose own properties are all defined: the property is an own one or
    an inherited one. *)
Definition in_ {V} (name : string) (o : Object V) : bool :=
  has name o || inherited name.

(** The text that an inherited property gives when it is joined to a
    string: the prototype itself for [__proto__], a built-in function
    for the other names. *)
Definition inheritedText (name : string) : string :=
  if String.eqb name "__proto__" then "[object Object]"
  else "function " +:+ (if String.eqb name "constructor" then "Object" else name)
       +:+ "() { [native code] }".

(** [process.env[name] = value], and [obj[name] = value] for a name
    that is no array index: an existing property keeps its position, a
    new one is added last. *)
Fixpoint set {V} (name : string) (value : V) (o : Object V) : Object V :=
  match o with
  | [] => [(name, value)]
  | (k, v) :: rest =>
      if String.eqb k name then (k, value) :: rest
      else (k, v) :: set name value rest
  end.

(** [delete obj[name]] *)
Definition remove {V} (name : string) (o : Object V) : Object V :=
  List.filter (fun kv => negb (String.eqb kv.1 name)) o.

Definition keys {V} (o : Object V) : list string := map fst o.
Definition values {V} (o : Object V) : list V := map snd o.
Definition entries {V} (o : Object V) : list (string * V) := o.

(** [array.indexOf(x)]; [None] stands for [-1]. *)
Fixpoint indexOf (x : string) (l : list string) : option nat :=
  match l with
  | [] => None
  | y :: rest =>
      if String.eqb y x then Some 0%nat
      else option_map S (indexOf x rest)
  end.

(** [array[i]] for an index that is in range. *)
Definition at_ (l : list string) (i : nat) : string := nth i l "".

(** Numbers: an integer or NaN.  The sum and the decimal digits are
    those of the run time for safe integers. *)
Inductive Number : Type :=
| NaN
| Int (z : Z).

Definition add (a b : Number) : Number :=
  match a, b with
  | Int x, Int y => Int (x + y)
  | _, _ => NaN
  end.

(** [n.toString(10)] *)
Definition toString (n : Number) : string :=
  match n with
  | NaN => "NaN"
  | Int z => NilZero.string_of_int (Z.to_int z)
  end.

Definition isDigit (c : ascii) : bool :=
  ((48 <=? N_of_ascii c) && (N_of_ascii c <=? 57))%N.

Definition digitValue (c : ascii) : Z := Z.of_N (N_of_ascii c) - 48.

(** The ASCII white space and line ends. *)
Definition isWhiteSpace (c : ascii) : bool :=
  let n := N_of_ascii c in
  ((n =? 9) || (n =? 10) || (n =? 11) || (n =? 12) || (n =? 13) || (n =? 32))%N.

(** The number of bytes of the white space character or line end at the
    start of [s], 0 if there is none: the ASCII ones, and U+00A0,
    U+1680, U+2000 to U+200A, U+2028, U+2029, U+202F, U+205F, U+3000 and
    U+FEFF in UTF-8. *)
Definition wsLength (s : string) : nat :=
  match s with
  | EmptyString => 0%nat
  | String c rest =>
      let b0 := N_of_ascii c in
      if isWhiteSpace c then 1%nat
      else if negb ((b0 =? 194) || (b0 =? 225) || (b0 =? 226) || (b0 =? 227)
                    || (b0 =? 239))%N then 0%nat
      else
        match rest with
        | EmptyString => 0%nat
        | String c1 rest1 =>
            let b1 := N_of_ascii c1 in
            if ((b0 =? 194) && (b1 =? 160))%N then 2%nat
            else
              match rest1 with
              | EmptyString => 0%nat
              | String c2 _ =>
                  let b2 := N_of_ascii c2 in
                  if ((b0 =? 225) && (b1 =? 154) && (b2 =? 128))
                     || ((b0 =? 226) && (b1 =? 128)
                         && (((128 <=? b2) && (b2 <=? 138)) || (b2 =? 168)
                             || (b2 =? 169) || (b2 =? 175)))
                     || ((b0 =? 226) && (b1 =? 129) && (b2 =? 159))
                     || ((b0 =? 227) && (b1 =? 128) && (b2 =? 128))
                     || ((b0 =? 239) && (b1 =? 187) && (b2 =? 191))
                  then 3%nat else 0%nat
              end%N
        end
  end.

Fixpoint dropBytes (n : nat) (s : string) : string :=
  match n, s with
  | S n', String _ rest => dropBytes n' rest
  | _, _ => s
  end.

(** [s] without the white space at its start; [fuel] bounds the number
    of characters that are skipped. *)
Fixpoint skipWs (fuel : nat) (s : string) : string :=
  match fuel with
  | O => s
  | S fuel' =>
      match wsLength s with
      | O => s
      | n => skipWs fuel' (dropBytes n s)
      end
  end.

Definition skipWhiteSpace (s : string) : string := skipWs (String.length s) s.

(** The value of the longest prefix of decimal digits of [s], read after
    the digits [acc]; [seen] tells whether a digit was read. *)
Fixpoint digits (s : string) (seen : bool) (acc : Z) : option Z :=
  match s with
  | String c rest =>
      if isDigit c then digits rest true (10 * acc + digitValue c)
      else if seen then Some acc else None
  | EmptyString => if seen then Some acc else None
  end.

(** An array index: the decimal digits of an integer below 2^32 - 1,
    without a sign and without leading zeros. *)
Definition arrayIndex (s : string) : option Z :=
  match s with
  | EmptyString => None
  | String c rest =>
      if forallb isDigit (list_ascii_of_string s)
         && (negb (Ascii.eqb c "0") || String.eqb rest "")
         && (String.length s <=? 10)%nat
      then
        match digits s false 0 with
        | Some i => if i <? 2 ^ 32 - 1 then Some i else None
        | None => None
        end
      else None
  end.

(** A new property whose name is the array index [i] goes after the
    array indices below it. *)
Fixpoint insertIndex {V} (i : Z) (name : string) (value : V) (o : Object V)
  : Object V :=
  match o with
  | [] => [(name, value)]
  | (k, v) :: rest =>
      match arrayIndex k with
      | Some j =>
          if j <? i then (k, v) :: insertIndex i name value rest
          else (name, value) :: o
      | None => (name, value) :: o
      end
  end.

(** [obj[name] = value] on an ordinary object, for a name that is not
    [__proto__]: an existing property keeps its position, a new array
    index goes among the array indices, any other new name is added
    last. *)
Definition put {V} (name : string) (value : V) (o : Object V) : Object V :=
  match arrayIndex name with
  | Some i => if has name o then set name value o else insertIndex i name value o
  | None => set name value o
  end.

(** A number that the doubles of the run time hold exactly, with exact
    sums. *)
Definition safeInteger (z : Z) : bool := Z.abs z <? 2 ^ 53.

(** [parseInt(s, 10)]; [None] is the argument [undefined], which is
    converted to the string "undefined" and so gives NaN.  The value is
    that of the run time for a safe integer. *)
Definition parseInt (s : option string) : Number :=
  match s with
  | None => NaN
  | Some s =>
      match skipWhiteSpace s with
      | String "-" rest =>
          match digits rest false 0 with Some z => Int (- z) | None => NaN end
      | String "+" rest =>
          match digits rest false 0 with Some z => Int z | None => NaN end
      | t =>
          match digits t false 0 with Some z => Int z | None => NaN end
      end
  end.

(** [s.split(/\r?\n/)] *)
Fixpoint splitLines (s : string) : list string :=
  match s with
  | EmptyString => [""]
  | String c rest =>
      if Ascii.eqb c "010" then "" :: splitLines rest
      else
        match rest with
        | String c' rest' =>
            if Ascii.eqb c "013" && Ascii.eqb c' "010" then "" :: splitLines rest'
            else
              match splitLines rest with
              | line :: more => String c line :: more
              | [] => [String c ""]
              end
        | EmptyString => [String c ""]
        end
  end.

(** [lines.join(sep)] *)
Definition join (sep : string) (lines : list string) : string :=
  String.concat sep lines.

End Js.

(** ** Errors, the world and the effect monad *)

Inductive Error : Type :=
| IncompatibleValues (name current value : string)
    (* Error('Incompatible values in environment parameter ...') *)
| FileError (code : string) (path : string)
    (* thrown by the fs module: ENOENT, EISDIR *)
| InvalidPath
    (* TypeError of the fs module for a path that is undefined *)
| RangeError (value : Z)
    (* thrown by Buffer.writeInt32LE *)
| TypeError (what : string)
    (* reading a property of undefined *)
| External (message : string).
    (* thrown by a collaborator: a child process, JSON.parse, util *)

Inductive Result (A : Type) : Type :=
| Ok (a : A)
| Throw (e : Error).

Arguments Ok {A} a.
Arguments Throw {A} e.

Definition bindR {A B} (r : Result A) (k : A -> Result B) : Result B :=
  match r with
  | Ok a => k a
  | Throw e => Throw e
  end.

Notation "'let?' x ':=' r 'in' k" := (bindR r (fun x => k))
  (at level 10, x pattern, r at level 100, k at level 200).

(** A loop whose body may throw: [for (let x of l) { acc = body(acc, x) }] *)
Fixpoint foldR {A S} (body : S -> A -> Result S) (l : list A) (acc : S) : Result S :=
  match l with
  | [] => Ok acc
  | x :: rest => let? acc' := body acc x in foldR body rest acc'
  end.

(** [error.message] *)
Definition message (e : Error) : string :=
  match e with
  | IncompatibleValues name current value =>
      "Incompatible values in environment parameter " +:+
      name +:+ ": " +:+ current +:+ " and " +:+ value
  | FileError code path => code +:+ ": " +:+ path
  | InvalidPath => "The path argument must be of type string"
  | RangeError _ => "The value is out of range"
  | TypeError what => "Cannot read property of undefined: " +:+ what
  | External msg => msg
  end.

Inductive Node : Type :=
| File (data : list byte)
| Directory.

(** What the action does to its surroundings, in the order it does it. *)
Inductive Effect : Type :=
| FileWritten (path : string) (data : list byte)
| VariableExported (name value : string)
| VariableDeleted (name : string)
| Executed (cmd : string) (args : list string) (env : Js.Object string)
| DirectoryMade (path : string)
| Warned (text : string)
| SetFailed (text : string)
| Reported (action status : string).

Record World : Type := mkWorld {
  files : gmap string Node;
  processEnv : Js.Object string;
  trace : list Effect
}.

Definition M (A : Type) : Type := World -> World * Result A.

Definition ret {A} (a : A) : M A := fun w => (w, Ok a).
Definition throw {A} (e : Error) : M A := fun w => (w, Throw e).

Definition bind {A B} (m : M A) (k : A -> M B) : M B :=
  fun w =>
    match m w with
    | (w', Ok a) => k a w'
    | (w', Throw e) => (w', Throw e)
    end.

Notation "'let*' x ':=' m 'in' k" := (bind m (fun x => k))
  (at level 10, x pattern, m at level 100, k at level 200).
Notation "m ';;' k" := (bind m (fun _ => k))
  (at level 100, k at level 200, right associativity).

Definition lift {A} (r : Result A) : M A := fun w => (w, r).

(** [try { body } catch (error) { handler(error) }] *)
Definition catch {A} (body : M A) (handler : Error -> M A) : M A :=
  fun w =>
    match body w with
    | (w', Ok a) => (w', Ok a)
    | (w', Throw e) => handler e w'
    end.

Fixpoint forEach {A} (l : list A) (body : A -> M unit) : M unit :=
  match l with
  | [] => ret tt
  | x :: rest => body x ;; forEach rest body
  end.

Fixpoint foldM {A S} (body : S -> A -> M S) (l : list A) (acc : S) : M S :=
  match l with
  | [] => ret acc
  | x :: rest => let* acc' := body acc x in foldM body rest acc'
  end.

Definition emit (e : Effect) : M unit :=
  fun w => (mkWorld (files w) (processEnv w) (trace w ++ [e]), Ok tt).

(** [fs.readFileSync(path, 'utf8')] *)
Definition readFileSync (path : option string) : M string :=
  fun w =>
    match path with
    | None => (w, Throw InvalidPath)
    | Some p =>
        match files w !! p with
        | Some (File data) => (w, Ok (string_of_list_byte data))
        | Some Directory => (w, Throw (FileError "EISDIR" p))
        | None => (w, Throw (FileError "ENOENT" p))
        end
    end.

(** The world after the file [path] is written with [data]. *)
Definition written (path : string) (data : list byte) (w : World) : World :=
  mkWorld (<[path := File data]> (files w)) (processEnv w)
          (trace w ++ [FileWritten path data]).

(** [fs.writeFileSync(path, data)] *)
Definition writeFileSync (path : string) (data : list byte) : M unit :=
  fun w =>
    match files w !! path with
    | Some Directory => (w, Throw (FileError "EISDIR" path))
    | _ => (written path data w, Ok tt)
    end.

(** [core.exportVariable(name, value)]: sets the variable for this
    process and for the later steps of the job. *)
Definition exportVariable (name value : string) : M unit :=
  fun w =>
    (mkWorld (files w) (Js.set name value (processEnv w))
             (trace w ++ [VariableExported name value]), Ok tt).

(** [delete process.env[name]] *)
Definition deleteProcessEnv (name : string) : M unit :=
  fun w =>
    (mkWorld (files w) (Js.remove name (processEnv w))
             (trace w ++ [VariableDeleted name]), Ok tt).

(** [path.resolve(dir, name)] and [path.join(dir, name)] for a directory
    [dir] that is absolute and normalized. *)
Definition path_resolve (dir name : string) : string := dir +:+ "/" +:+ name.

(** ** Buffers *)

Definition byteOfZ (z : Z) : byte :=
  byte_of_ascii (ascii_of_N (Z.to_N (Z.land z 255))).

Definition int32LE (value : Z) : list byte :=
  [byteOfZ value; byteOfZ (Z.shiftr value 8);
   byteOfZ (Z.shiftr value 16); byteOfZ (Z.shiftr value 24)].

(** [Buffer.alloc(4)] followed by [writeInt32LE(value, 0)] *)
Definition writeInt32LE (value : Z) : Result (list byte) :=
  if (- 2 ^ 31 <=? value) && (value <=? 2 ^ 31 - 1)
  then Ok (int32LE value)
  else Throw (RangeError value).

(** [new Buffer(s, 'utf8')] *)
Definition utf8 (s : string) : list byte := list_byte_of_string s.

Definition byteIn (lo hi : N) (b : byte) : bool :=
  ((lo <=? Byte.to_N b) && (Byte.to_N b <=? hi))%N.

(** Well-formed UTF-8: the bytes that decoding to a string and encoding
    again leave as they are.  A character is one byte below 128, or a
    lead byte followed by one, two or three bytes from 128 to 191, where
    the first of them is limited further after the lead bytes 224, 237,
    240 and 244. *)
Fixpoint validUtf8 (bytes : list byte) : bool :=
  match bytes with
  | [] => true
  | b0 :: rest0 =>
      if byteIn 0 127 b0 then validUtf8 rest0
      else
        match rest0 with
        | [] => false
        | b1 :: rest1 =>
            if byteIn 194 223 b0 then byteIn 128 191 b1 && validUtf8 rest1
            else
              match rest1 with
              | [] => false
              | b2 :: rest2 =>
                  if byteIn 224 239 b0 then
                    (if byteIn 224 224 b0 then byteIn 160 191 b1
                     else if byteIn 237 237 b0 then byteIn 128 159 b1
                     else byteIn 128 191 b1)
                    && byteIn 128 191 b2 && validUtf8 rest2
                  else
                    match rest2 with
                    | [] => false
                    | b3 :: rest3 =>
                        byteIn 240 244 b0
                        && (if byteIn 240 240 b0 then byteIn 144 191 b1
                            else if byteIn 244 244 b0 then byteIn 128 143 b1
                            else byteIn 128 191 b1)
                        && byteIn 128 191 b2 && byteIn 128 191 b3
                        && validUtf8 rest3
                    end
              end
        end
  end.

(** A string of the run time: its bytes are well-formed UTF-8. *)
Definition validText (s : string) : bool := validUtf8 (utf8 s).

(** ** Tracer configurations *)

Record TracerConfig : Type := mkTracerConfig {
  spec : option string;   (* [None]: the property is undefined *)
  env : Js.Object string
}.

(** The strings of the set [CRITICAL_TRACER_VARS]. *)
Definition CRITICAL_TRACER_VARS : list string :=
  ["SEMMLE_PRELOAD_libtrace"; "SEMMLE_RUNNER"; "SEMMLE_COPY_EXECUTABLES_ROOT";
   "SEMMLE_DEPTRACE_SOCKET"; "SEMMLE_JAVA_TOOL_OPTIONS"].

Definition inList (x : string) (l : list string) : bool :=
  existsb (String.eqb x) l.

(** *** Merging the environments (the first loop of [concatTracerConfigs]) *)

Definition mergeEntry (acc : Js.Object string * Z) (e : string * string)
  : Result (Js.Object string * Z) :=
  let '(env, envSize) := acc in
  let name := e.1 in
  let value := e.2 in
  if Js.in_ name env then
    match Js.get name env with
    | Some current =>
        if negb (String.eqb current value)  (* env[name] !== value *)
        then Throw (IncompatibleValues name current value)
        else Ok (env, envSize)
    | None =>
        (* an inherited property: a function or the prototype, which is
           no string *)
        Throw (IncompatibleValues name (Js.inheritedText name) value)
    end
  else Ok (Js.put name value env, envSize + 1).

Definition mergeConfig (acc : Js.Object string * Z) (v : TracerConfig)
  : Result (Js.Object string * Z) :=
  foldR mergeEntry (Js.entries (env v)) acc.

Definition mergeEnvironments (configs : Js.Object TracerConfig)
  : Result (Js.Object string * Z) :=
  foldR mergeConfig (Js.values configs) ([], 0).

(** *** The concatenation order (the swap of [concatTracerConfigs]) *)

Definition orderLanguages (configs : Js.Object TracerConfig) : list string :=
  let languages := Js.keys configs in
  match Js.indexOf "cpp" languages with
  | Some cppIndex =>
      let lastLang := Js.at_ languages (length languages - 1) in
      let languages1 :=
        <[(length languages - 1)%nat := Js.at_ languages cppIndex]> languages in
      <[cppIndex := lastLang]> languages1
  | None => languages
  end.

(** *** Reading the spec files (the second loop of [concatTracerConfigs]) *)

Definition readSpec (configs : Js.Object TracerConfig)
    (acc : list string * Js.Number) (lang : string)
  : M (list string * Js.Number) :=
  let '(totalLines, totalCount) := acc in
  match Js.get lang configs with
  | None => throw (TypeError lang)
  | Some config =>
      let* text := readFileSync (spec config) in
      let lines := Js.splitLines text in
      let count := Js.parseInt (nth_error lines 1) in
      ret ((totalLines ++ skipn 2 lines)%list, Js.add totalCount count)
  end.

(** *** The environment blob (the third loop of [concatTracerConfigs]) *)

Definition encodeEntry (buffer : list byte) (e : string * string)
  : Result (list byte) :=
  let key := e.1 in
  let value := e.2 in
  let lineBuffer := utf8 (key +:+ "=" +:+ value +:+ String "000" "") in
  let? sizeBuffer := writeInt32LE (Z.of_nat (length lineBuffer)) in
  Ok (buffer ++ sizeBuffer ++ lineBuffer)%list.

Definition encodeEnvironment (env : Js.Object string) (envSize : Z)
  : Result (list byte) :=
  let? buffer := writeInt32LE envSize in
  foldR encodeEntry (Js.entries env) buffer.

Section Aggregator.

(** The value of [util.workspaceFolder()]. *)
Variable workspaceFolder : string.

Definition compoundSpecPath : string := path_resolve workspaceFolder "compound-spec".
Definition compoundLogPath : string :=
  path_resolve workspaceFolder "compound-build-tracer.log".
Definition compoundEnvPath : string := compoundSpecPath +:+ ".environment".

(** The bytes of the compound spec file: the new log file path, the
    total count and the collected lines, joined by line feeds. *)
Definition compoundSpecContent (totalLines : list string) (totalCount : Js.Number)
  : list byte :=
  let newLogFilePath := compoundLogPath in
  let newSpecContent := ([newLogFilePath; Js.toString totalCount] ++ totalLines)%list in
  utf8 (Js.join (String "010" "") newSpecContent).

Definition concatTracerConfigs (configs : Js.Object TracerConfig) : M TracerConfig :=
  (* Merge the environments *)
  let* (env, envSize) := lift (mergeEnvironments configs) in
  (* Concatenate spec files into a new spec file *)
  let languages := orderLanguages configs in
  let* (totalLines, totalCount) :=
    foldM (readSpec configs) languages ([], Js.Int 0) in
  let spec := compoundSpecPath in
  writeFileSync spec (compoundSpecContent totalLines totalCount) ;;
  (* Prepare the content of the compound environment file *)
  let* buffer := lift (encodeEnvironment env envSize) in
  (* Write the compound environment *)
  let envPath := compoundEnvPath in
  writeFileSync envPath buffer ;;
  ret (mkTracerConfig (Some spec) env).

End Aggregator.

(** ** The collaborators of the actions

    Everything the actions call that is not part of the modelled files:
    child processes, the [util], [setup-tools], [upload-lib] and
    [shared-environment] modules, [JSON.parse], and the values of the
    run time. *)

Record CodeQLSetup : Type := mkCodeQLSetup {
  cmd : string;
  tools : string
}.

Record Config : Type := mkConfig {
  name : string;
  queries : list string;
  pathsIgnore : list string;
  paths : list string;
  inRepoQueries : option (list string)   (* [None]: the property is undefined *)
}.

Record Host : Type := mkHost {
  (** a child process: from the command, its arguments, its environment
      and the files, the files it leaves and what it prints, or the
      error of a failed run *)
  spawn : string -> list string -> Js.Object string -> gmap string Node
          -> gmap string Node * Result string;
  JSON_parse_env : string -> Result (Js.Object (option string));
  JSON_parse_config : string -> Result Config;
  JSON_parse_string : string -> Result string;
  should_abort : string -> bool;
  reportActionStarting : string -> bool;
  getLanguages : Result (list string);
  setupCodeQL : Result CodeQLSetup;
  get_required_env_param : Js.Object string -> string -> Result string;
  getInput : string -> string;
  readdirSync : gmap string Node -> string -> Result (list string);
  upload : string -> Result unit;
  workspaceFolder : string;                    (* util.workspaceFolder() *)
  platform : string;                           (* process.platform *)
  execPath : string;                           (* process.execPath *)
  dirname : string;                            (* __dirname *)
  cwd : string;                                (* path.resolve() *)
  CODEQL_ACTION_CMD : string;                  (* the names of sharedEnv *)
  CODEQL_ACTION_DATABASE_DIR : string;
  CODEQL_ACTION_LANGUAGES : string;
  CODEQL_ACTION_SCANNED_LANGUAGES : string;
  sharedEnv_ODASA_TRACER_CONFIGURATION : string
}.

Definition getProcessEnv : M (Js.Object string) :=
  fun w => (w, Ok (processEnv w)).

(** [exec.exec(cmd, args, { env })]: the child inherits the environment
    of the process unless one is given.  The result is what the child
    wrote to its standard output. *)
Definition exec (host : Host) (cmd : string) (args : list string)
    (env : option (Js.Object string)) : M string :=
  fun w =>
    let childEnv := match env with Some e => e | None => processEnv w end in
    let '(files', out) := spawn host cmd args childEnv (files w) in
    (mkWorld files' (processEnv w) (trace w ++ [Executed cmd args childEnv]), out).

(** [io.mkdirP(path)] *)
Definition mkdirP (path : string) : M unit :=
  fun w =>
    match files w !! path with
    | Some (File _) => (w, Throw (FileError "EEXIST" path))
    | _ =>
        (mkWorld (<[path := Directory]> (files w)) (processEnv w)
                 (trace w ++ [DirectoryMade path]), Ok tt)
    end.

Definition report (action status : string) : M unit := emit (Reported action status).

(** [configFolder] of config-utils, from the environment at load time. *)
Definition configFolder (env : Js.Object string) : string :=
  match Js.get "RUNNER_WORKSPACE" env with
  | Some (String c s) => String c s
  | _ => "/tmp/codeql-action"
  end.

(** [configUtils.loadConfig()] *)
Definition loadConfig (host : Host) (folder : string) : M Config :=
  let* configString := readFileSync (Some (path_resolve folder "config")) in
  lift (JSON_parse_config host configString).

(** ** The probe *)

(** [key.startsWith(p)] *)
Definition startsWith (p key : string) : bool := String.prefix p key.

Definition tracerConfigEntry (ambient : Js.Object string)
    (info : Js.Object string) (entry : string * option string) : Js.Object string :=
  let key := entry.1 in
  let value := entry.2 in
  (* skip ODASA_TRACER_CONFIGURATION as it is handled separately *)
  if String.eqb key "ODASA_TRACER_CONFIGURATION" then info
  else
    match value with
    | None => info     (* skip undefined values *)
    | Some value =>
        if negb (Js.in_ key ambient) || inList key CRITICAL_TRACER_VARS
           || startsWith "CODEQL_" key
        then Js.put key value info
        else info
    end.

(** [compilerSpec ? ["--compiler-spec=" + compilerSpec] : []] *)
Definition compilerSpecArg (compilerSpec : option string) : list string :=
  match compilerSpec with
  | Some (String c s) => ["--compiler-spec=" +:+ String c s]
  | _ => []
  end.

(** The arguments of the child process that dumps the environment. *)
Definition traceCommandArgs (host : Host) (database : string)
    (compilerSpecArg : list string) (envFile : string) : list string :=
  (["database"; "trace-command"; database] ++ compilerSpecArg ++
   [execPath host; path_resolve (dirname host) "tracer-env.js"; envFile])%list.

(** The file to which the child process dumps its environment. *)
Definition probeEnvFile (database : string) : string :=
  path_resolve (path_resolve database "working") "env.tmp".

Definition tracerConfig (host : Host) (codeql : CodeQLSetup) (database : string)
    (compilerSpec : option string) : M TracerConfig :=
  let envFile := probeEnvFile database in
  exec host (cmd codeql)
       (traceCommandArgs host database (compilerSpecArg compilerSpec) envFile)
       None ;;
  let* text := readFileSync (Some envFile) in
  let* env := lift (JSON_parse_env host text) in
  let config := mjoin (Js.get "ODASA_TRACER_CONFIGURATION" env) in
  let* ambient := getProcessEnv in
  (* Extract critical tracer variables from the environment *)
  let info := fold_left (tracerConfigEntry ambient) (Js.entries env) [] in
  ret (mkTracerConfig config info).

(** [s.split(',')] *)
Fixpoint splitComma (s : string) : list string :=
  match s with
  | EmptyString => [""]
  | String c rest =>
      if Ascii.eqb c "," then "" :: splitComma rest
      else
        match splitComma rest with
        | first :: more => String c first :: more
        | [] => [String c ""]
        end
  end.

(** [s] between double quotes *)
Definition quoted (s : string) : string := String "034" s +:+ String "034" "".

Definition setFailed (text : string) : M unit := emit (SetFailed text).
Definition warning (text : string) : M unit := emit (Warned text).

(** ** The init action *)

Module Init.

Definition isInterpretedLanguage (language : string) : bool :=
  String.eqb language "javascript" && String.eqb language "python".

Definition includeAndExcludeAnalysisPaths (config : Config) (languages : list string)
  : M unit :=
  exportVariable "LGTM_INDEX_INCLUDE" (Js.join (String "010" "") (paths config)) ;;
  exportVariable "LGTM_INDEX_EXCLUDE" (Js.join (String "010" "") (pathsIgnore config)) ;;
  (* Index include/exclude only work in javascript and python *)
  if (negb (length (paths config) =? 0)%nat || negb (length (pathsIgnore config) =? 0)%nat)
     && negb (forallb isInterpretedLanguage languages)
  then warning ("The " +:+ quoted "paths" +:+ "/" +:+ quoted "paths-ignore" +:+
                " fields of the config only have effect for Javascript and Python")
  else ret tt.

(** The body of the loop over the languages: the database is
    initialized, and a traced language is probed. *)
Definition initLanguage (host : Host) (codeqlSetup : CodeQLSetup)
    (databaseFolder sourceRoot : string)
    (acc : Js.Object TracerConfig * list string) (language : string)
  : M (Js.Object TracerConfig * list string) :=
  let '(tracedLanguages, scannedLanguages) := acc in
  let languageDatabase := path_resolve databaseFolder language in
  (* Init language database *)
  exec host (cmd codeqlSetup)
       ["database"; "init"; languageDatabase; "--language=" +:+ language;
        "--source-root=" +:+ sourceRoot] None ;;
  if inList language ["cpp"; "java"; "csharp"] then
    let* config := tracerConfig host codeqlSetup languageDatabase None in
    ret (Js.put language config tracedLanguages, scannedLanguages)
  else
    ret (tracedLanguages, (scannedLanguages ++ [language])%list).

(** What is done with the traced languages once all are probed. *)
Definition publishTracing (host : Host) (codeqlSetup : CodeQLSetup)
    (tracedLanguages : Js.Object TracerConfig) : M unit :=
  let tracedLanguageKeys := Js.keys tracedLanguages in
  if (0 <? length tracedLanguageKeys)%nat then
    let* mainTracerConfig := concatTracerConfigs (workspaceFolder host) tracedLanguages in
    match spec mainTracerConfig with
    | Some (String c s as specPath) =>
        forEach (Js.entries (env mainTracerConfig))
                (fun entry => exportVariable entry.1 entry.2) ;;
        exportVariable "ODASA_TRACER_CONFIGURATION" specPath ;;
        if String.eqb (platform host) "darwin" then
          exportVariable "DYLD_INSERT_LIBRARIES"
            (path_resolve (path_resolve (tools codeqlSetup) "osx64") "libtrace.dylib")
        else if String.eqb (platform host) "win32" then
          exec host "powershell"
               [path_resolve (path_resolve (path_resolve (dirname host) "..") "src")
                             "inject-tracer.ps1";
                path_resolve (path_resolve (tools codeqlSetup) "win64") "tracer.exe"]
               (Some [("ODASA_TRACER_CONFIGURATION", specPath)]) ;;
          ret tt
        else
          exportVariable "LD_PRELOAD"
            (path_resolve (path_resolve (tools codeqlSetup) "linux64") "${LIB}trace.so")
    | _ => ret tt
    end
  else ret tt.

(** The statements of [run] inside [try]; the result tells whether the
    end of the block was reached ([false]: an early [return]). *)
Definition runBody (host : Host) (folder : string) : M bool :=
  if should_abort host "init" then ret false else
  report "init" "starting" ;;
  if negb (reportActionStarting host "init") then ret false else
  (* The config file MUST be parsed in the init action *)
  let* config := loadConfig host folder in
  let* languages := lift (getLanguages host) in
  if (length languages =? 0)%nat then
    setFailed "Did not detect any languages to analyze. Please update input in workflow." ;;
    ret false
  else
  includeAndExcludeAnalysisPaths config languages ;;
  let sourceRoot := cwd host in
  let* codeqlSetup := lift (setupCodeQL host) in
  exec host (cmd codeqlSetup) ["version"; "--format=json"] None ;;
  (* Forward Go flags *)
  let* ambient := getProcessEnv in
  match Js.get "GOFLAGS" ambient with
  | Some (String c s as goFlags) =>
      exportVariable "GOFLAGS" goFlags ;;
      warning "Passing the GOFLAGS env parameter to the codeql/init action is deprecated. Please move this to the codeql/finish action."
  | _ => ret tt
  end ;;
  let codeqlResultFolder := path_resolve (workspaceFolder host) "codeql_results" in
  let databaseFolder := path_resolve codeqlResultFolder "db" in
  mkdirP databaseFolder ;;
  let* (tracedLanguages, scannedLanguages) :=
    foldM (initLanguage host codeqlSetup databaseFolder sourceRoot) languages ([], []) in
  exportVariable (CODEQL_ACTION_SCANNED_LANGUAGES host) (Js.join "," scannedLanguages) ;;
  publishTracing host codeqlSetup tracedLanguages ;;
  exportVariable "CODEQL_ACTION_RESULTS" codeqlResultFolder ;;
  exportVariable "CODEQL_ACTION_CMD" (cmd codeqlSetup) ;;
  ret true.

Definition run (host : Host) : M unit :=
  let* folder := (fun w => (w, Ok (configFolder (processEnv w)))) in
  let* completed :=
    catch (runBody host folder)
          (fun error =>
             setFailed (message error) ;;
             report "init" "failure" ;;
             ret false) in
  if completed then report "init" "success" else ret tt.

End Init.

(** ** The finish action *)

Module Finish.

Definition finalizeDatabaseCreation (host : Host) (codeqlCmd databaseFolder : string)
  : M unit :=
  (* Create db for scanned languages *)
  let* ambient := getProcessEnv in
  match Js.get (CODEQL_ACTION_SCANNED_LANGUAGES host) ambient with
  | Some (String c s as scannedLanguages) =>
      forEach (splitComma scannedLanguages) (fun language =>
        (* Get extractor location *)
        let* extractorPath :=
          exec host codeqlCmd
               ["resolve"; "extractor"; "--format=json"; "--language=" +:+ language]
               None in
        (* Set trace command *)
        let ext := if String.eqb (platform host) "win32" then ".cmd" else ".sh" in
        let* extractor := lift (JSON_parse_string host extractorPath) in
        let traceCommand :=
          path_resolve (path_resolve extractor "tools") ("autobuild" +:+ ext) in
        (* Run trace command *)
        exec host codeqlCmd
             ["database"; "trace-command"; path_resolve databaseFolder language;
              "--"; traceCommand] None ;;
        ret tt)
  | _ => ret tt
  end ;;
  let* ambient := getProcessEnv in
  let languages :=
    match Js.get (CODEQL_ACTION_LANGUAGES host) ambient with
    | Some (String c s) => String c s
    | _ => ""
    end in
  forEach (splitComma languages) (fun language =>
    exec host codeqlCmd
         ["database"; "finalize"; path_resolve databaseFolder language] None ;;
    ret tt).

(** Runs queries and creates sarif files in the given folder *)
Definition runQueries (host : Host) (codeqlCmd databaseFolder sarifFolder : string)
    (config : Config) : M unit :=
  let* databases := (fun w => (w, readdirSync host (files w) databaseFolder)) in
  forEach databases (fun database =>
    let sarifFile := path_resolve sarifFolder (database +:+ ".sarif") in
    let* inRepo :=
      match inRepoQueries config with
      | Some l => ret l
      | None => throw (TypeError "inRepoQueries")
      end in
    exec host codeqlCmd
         (["database"; "analyze"; path_resolve databaseFolder database;
           "--format=sarif-latest"; "--output=" +:+ sarifFile;
           "--no-sarif-add-snippets"; database +:+ "-code-scanning.qls"] ++ inRepo)%list
         None ;;
    ret tt).

(** The statements of [run] that follow the clearing of the tracer
    variable, up to the end of the [try] block. *)
Definition analyze (host : Host) (config : Config) : M bool :=
  let* ambient := getProcessEnv in
  let* codeqlCmd := lift (get_required_env_param host ambient (CODEQL_ACTION_CMD host)) in
  let* databaseFolder :=
    lift (get_required_env_param host ambient (CODEQL_ACTION_DATABASE_DIR host)) in
  let sarifFolder := getInput host "output" in
  mkdirP sarifFolder ;;
  finalizeDatabaseCreation host codeqlCmd databaseFolder ;;
  runQueries host codeqlCmd databaseFolder sarifFolder config ;;
  (if String.eqb "true" (getInput host "upload")
   then lift (upload host sarifFolder)
   else ret tt) ;;
  ret true.

Definition runBody (host : Host) (folder : string) : M bool :=
  if should_abort host "finish" then ret false else
  report "finish" "starting" ;;
  if negb (reportActionStarting host "finish") then ret false else
  let* config := loadConfig host folder in
  exportVariable (sharedEnv_ODASA_TRACER_CONFIGURATION host) "" ;;
  deleteProcessEnv (sharedEnv_ODASA_TRACER_CONFIGURATION host) ;;
  analyze host config.

Definition run (host : Host) : M unit :=
  let* folder := (fun w => (w, Ok (configFolder (processEnv w)))) in
  let* completed :=
    catch (runBody host folder)
          (fun error =>
             setFailed (message error) ;;
             report "finish" "failure" ;;
             ret false) in
  if completed then report "finish" "success" else ret tt.

End Finish.

(** ** Reading the environment blob

    The reader that the specification describes for the blob: a 4-byte
    little-endian count, then for each entry a 4-byte little-endian
    length L and L bytes that are the text [key=value] followed by a
    zero byte.  The key ends at the first [=]. *)

Definition byteToZ (b : byte) : Z := Z.of_N (Byte.to_N b).

Definition readInt32LE (buffer : list byte) : option (Z * list byte) :=
  match buffer with
  | b0 :: b1 :: b2 :: b3 :: rest =>
      let u := byteToZ b0 + 2 ^ 8 * byteToZ b1 + 2 ^ 16 * byteToZ b2
               + 2 ^ 24 * byteToZ b3 in
      Some (if u <? 2 ^ 31 then u else u - 2 ^ 32, rest)
  | _ => None
  end.

Definition isEquals (b : byte) : bool := Byte.eqb b "="%byte.

(** The bytes before the first [=] and the bytes after it. *)
Fixpoint splitAtEquals (line : list byte) : option (list byte * list byte) :=
  match line with
  | [] => None
  | b :: rest =>
      if isEquals b then Some ([], rest)
      else
        match splitAtEquals rest with
        | Some (key, value) => Some (b :: key, value)
        | None => None
        end
  end.

Definition decodeLine (line : list byte) : option (string * string) :=
  match rev line with
  | "000"%byte :: body =>
      match splitAtEquals (rev body) with
      | Some (key, value) => Some (string_of_list_byte key, string_of_list_byte value)
      | None => None
      end
  | _ => None
  end.

Fixpoint decodeEntries (count : nat) (buffer : list byte)
  : option (Js.Object string) :=
  match count with
  | O => match buffer with [] => Some [] | _ => None end
  | S count' =>
      match readInt32LE buffer with
      | Some (size, rest) =>
          if (0 <=? size) && (size <=? Z.of_nat (length rest)) then
            match decodeLine (firstn (Z.to_nat size) rest) with
            | Some entry =>
                match decodeEntries count' (skipn (Z.to_nat size) rest) with
                | Some more => Some (entry :: more)
                | None => None
                end
            | None => None
            end
          else None
      | None => None
      end
  end.

Definition decodeEnvironment (blob : list byte) : option (Js.Object string) :=
  match readInt32LE blob with
  | Some (count, rest) =>
      if 0 <=? count then decodeEntries (Z.to_nat count) rest else None
  | None => None
  end.

(** A name without [=], as the names of environment variables are. *)
Definition noEquals (name : string) : bool :=
  forallb (fun b => negb (isEquals b)) (utf8 name).

(** ** The order that the specification describes

    The stable partition on the priority of a language: the languages
    other than cpp in their order, then cpp. *)
Definition stablePartitionOrder (languages : list string) : list string :=
  (List.filter (fun l => negb (String.eqb l "cpp")) languages ++
   List.filter (fun l => String.eqb l "cpp") languages)%list.

(** The entries of all the environments, in the order of the merge. *)
Definition allEntries (configs : Js.Object TracerConfig) : list (string * string) :=
  concat (map env (Js.values configs)).

(** No name with two different values. *)
Definition compatible (entries : list (string * string)) : Prop :=
  forall name v1 v2, In (name, v1) entries -> In (name, v2) entries -> v1 = v2.

(** No name that objects inherit from [Object.prototype]. *)
Definition ownNames (entries : list (string * string)) : bool :=
  forallb (fun e => negb (Js.inherited e.1)) entries.

(** No name that is an array index. *)
Definition noArrayIndex (entries : list (string * string)) : bool :=
  forallb (fun e => match Js.arrayIndex e.1 with Some _ => false | None => true end)
          entries.

(** ** The compound spec file that the specification describes *)

(** The block count that a spec file declares on its second line. *)
Definition declaredCount (text : string) : Js.Number :=
  Js.parseInt (nth_error (Js.splitLines text) 1).

(** The lines of a spec file after its two header lines. *)
Definition blockLines (text : string) : list string :=
  skipn 2 (Js.splitLines text).

Definition totalCount (texts : list string) : Js.Number :=
  fold_left Js.add (map declaredCount texts) (Js.Int 0).

Definition totalLines (texts : list string) : list string :=
  concat (map blockLines texts).

(** A spec file with as many lines after its header as it declares. *)
Definition countsItsLines (text : string) : Prop :=
  declaredCount text = Js.Int (Z.of_nat (length (blockLines text))).

(** The text of the spec file of a language, read in the world [w]. *)
Definition specText (w : World) (configs : Js.Object TracerConfig) (lang : string)
  : option string :=
  match Js.get lang configs with
  | Some config =>
      match readFileSync (spec config) w with
      | (_, Ok text) => Some text
      | (_, Throw _) => None
      end
  | None => None
  end.

(** ** A sample job

    The scenario of the specification: a language with two block lines
    and the environment X=1, and cpp with one block line and the
    environment X=1, Y=2. *)

Definition newline : string := String "010" "".

Definition specFile (log : string) (count : string) (lines : list string) : Node :=
  File (utf8 (Js.join newline ([log; count] ++ lines)%list)).

Definition langA : TracerConfig := mkTracerConfig (Some "/db/java/spec") [("X", "1")].
Definition langB : TracerConfig :=
  mkTracerConfig (Some "/db/cpp/spec") [("X", "1"); ("Y", "2")].
Definition langB2 : TracerConfig := mkTracerConfig (Some "/db/cpp/spec") [("X", "2")].
Definition langC : TracerConfig := mkTracerConfig (Some "/db/csharp/spec") [].

Definition sampleConfigs : Js.Object TracerConfig := [("java", langA); ("cpp", langB)].
Definition conflictingConfigs : Js.Object TracerConfig :=
  [("java", langA); ("cpp", langB2)].
Definition threeLanguages : Js.Object TracerConfig :=
  [("cpp", langB); ("java", langA); ("csharp", langC)].

Definition sampleFiles : gmap string Node :=
  <["/db/java/spec" := specFile "/db/java/log" "2" ["l1"; "l2"]]>
  (<["/db/cpp/spec" := specFile "/db/cpp/log" "1" ["j1"]]>
  (<["/db/csharp/spec" := specFile "/db/csharp/log" "0" []]>
  (<["/tmp/codeql-action/config" := File (utf8 "{}")]> ∅))).

Definition sampleWorld : World := mkWorld sampleFiles [] [].

(** A runner on which every collaborator succeeds.  The child process
    that dumps its environment writes an empty dump. *)
Definition sampleHost : Host := {|
  spawn := fun cmd args env fs =>
    match args with
    | ["database"; "trace-command"; _; _; _; envFile] =>
        (<[envFile := File (utf8 "{}")]> fs, Ok "")
    | _ => (fs, Ok "")
    end;
  JSON_parse_env := fun text =>
    if String.eqb text "{}" then Ok [] else Throw (External "Unexpected token");
  JSON_parse_config := fun _ => Ok (mkConfig "" [] [] [] (Some []));
  JSON_parse_string := fun text => Ok text;
  should_abort := fun _ => false;
  reportActionStarting := fun _ => true;
  getLanguages := Ok ["javascript"; "python"];
  setupCodeQL := Ok (mkCodeQLSetup "/tools/codeql" "/tools");
  get_required_env_param := fun env name =>
    match Js.get name env with
    | Some value => Ok value
    | None => Throw (External (name +:+ " environment variable must be set"))
    end;
  getInput := fun name => if String.eqb name "output" then "/ws/results" else "";
  readdirSync := fun _ _ => Ok ["javascript"];
  upload := fun _ => Ok tt;
  workspaceFolder := "/ws";
  platform := "linux";
  execPath := "/usr/bin/node";
  dirname := "/action/lib";
  cwd := "/repo";
  CODEQL_ACTION_CMD := "CODEQL_ACTION_CMD";
  CODEQL_ACTION_DATABASE_DIR := "CODEQL_ACTION_DATABASE_DIR";
  CODEQL_ACTION_LANGUAGES := "CODEQL_ACTION_LANGUAGES";
  CODEQL_ACTION_SCANNED_LANGUAGES := "CODEQL_ACTION_SCANNED_LANGUAGES";
  sharedEnv_ODASA_TRACER_CONFIGURATION := "ODASA_TRACER_CONFIGURATION"
|}.

(** The world in which the finish action starts after a traced build. *)
Definition finishWorld : World :=
  mkWorld sampleFiles
          [("CODEQL_ACTION_CMD", "/tools/codeql");
           ("CODEQL_ACTION_DATABASE_DIR", "/ws/codeql_results/db");
           ("CODEQL_ACTION_LANGUAGES", "java");
           ("ODASA_TRACER_CONFIGURATION", "/ws/compound-spec")]
          [].

(** The sample world with a directory where the blob is to be written. *)
Definition blockedWorld : World :=
  mkWorld (<["/ws/compound-spec.environment" := Directory]> sampleFiles) [] [].

(** A world whose java spec file declares one block that takes two lines. *)
Definition twoLineBlockWorld : World :=
  mkWorld (<["/db/java/spec" := specFile "/db/java/log" "1" ["line a"; "line b"]]> sampleFiles)
          [] [].


(** A configuration with a variable name that contains [=]. *)
Definition equalsInName : Js.Object TracerConfig :=
  [("java", mkTracerConfig (Some "/db/java/spec") [("A=B", "C")])].

(** ** Specifications of computations

    [keeps I P m Q]: from a process environment that satisfies [I], the
    computation [m] ends in one that satisfies [I], all effects that it
    adds to the trace satisfy [P], and its result, if any, satisfies
    [Q]. *)
Definition keeps (I : Js.Object string -> Prop) (P : Effect -> Prop)
    {A} (m : M A) (Q : A -> Prop) : Prop :=
  forall w w' r,
    m w = (w', r) -> I (processEnv w) ->
    I (processEnv w') /\
    (exists es, trace w' = (trace w ++ es)%list /\ Forall P es) /\
    (forall a, r = Ok a -> Q a).

(** The effects of an init action that sets up no tracing: no file is
    written, and the exported variables are those of the analysis paths,
    the Go flags, the scanned languages, the results and the command. *)
Definition noCompoundEffect (host : Host) (e : Effect) : Prop :=
  match e with
  | FileWritten _ _ => False
  | VariableExported name _ =>
      In name ["LGTM_INDEX_INCLUDE"; "LGTM_INDEX_EXCLUDE"; "GOFLAGS";
               CODEQL_ACTION_SCANNED_LANGUAGES host;
               "CODEQL_ACTION_RESULTS"; "CODEQL_ACTION_CMD"]
  | _ => True
  end.

(** The variable [name] is not set in the environment [env]. *)
Definition cleared (name : string) (env : Js.Object string) : Prop :=
  Js.get name env = None.

(** An effect that is no child process. *)
Definition quiet (e : Effect) : Prop :=
  match e with
  | Executed _ _ _ => False
  | _ => True
  end.

(** An effect that leaves [name] cleared: a child process that runs
    without it, or anything but an export of it. *)
Definition afterClearing (name : string) (e : Effect) : Prop :=
  match e with
  | Executed _ _ env => cleared name env
  | VariableExported n _ => n <> name
  | _ => True
  end.

(** In the effects [es], every child process runs without the variable
    [name], after the variable was deleted. *)
Definition clearedFirst (name : string) (es : list Effect) : Prop :=
  forall i cmd args env,
    es !! i = Some (Executed cmd args env) ->
    cleared name env /\
    exists j, (j < i)%nat /\ es !! j = Some (VariableDeleted name).

(** In the effects [es], the variable [name] is deleted only after the
    last child process: what the specification says of the finish
    action. *)
Definition clearedLast (name : string) (es : list Effect) : Prop :=
  forall i j cmd args env,
    es !! i = Some (Executed cmd args env) ->
    es !! j = Some (VariableDeleted name) ->
    (i < j)%nat.

(** The effects of a run of the finish action: silent ones only, or
    silent ones, the deletion of the variable, and then effects that
    leave it cleared. *)
Definition clearedThen (name : string) (es : list Effect) : Prop :=
  Forall quiet es \/
  exists pre post,
    es = (pre ++ VariableDeleted name :: post)%list /\
    Forall quiet pre /\ Forall (afterClearing name) post.

(** ** The autobuild action *)

(** [process.env[name] = value] *)
Definition setProcessEnv (name value : string) : M unit :=
  fun w => (mkWorld (files w) (Js.set name value (processEnv w)) (trace w), Ok tt).

(** [s.split(/\s+/)], for the ASCII white space; [inGap] tells that the
    character before was white space. *)
Fixpoint splitWs (inGap : bool) (s : string) : list string :=
  match s with
  | EmptyString => [""]
  | String c rest =>
      if Js.isWhiteSpace c then
        if inGap then splitWs true rest else "" :: splitWs true rest
      else
        match splitWs false rest with
        | token :: more => String c token :: more
        | [] => [String c ""]
        end
  end.

Definition splitWhitespace (s : string) : list string := splitWs false s.

Module Autobuild.

(** The collaborators of the autobuild action: those of the other
    actions, the functions of [util] and the name of [sharedEnv] that
    only this action uses, and [path.join] and [path.resolve] of the run
    time, which are applied here to the output of a child process. *)
Record Runner : Type := mkRunner {
  base : Host;
  should_abort_quietly : string -> bool -> bool;   (* util.should_abort(name, true) *)
  getRequiredEnvParam : Js.Object string -> string -> Result string;
  CODEQL_ACTION_AUTOBUILD_LANGUAGES : string;
  join : list string -> string;                    (* path.join(...) *)
  resolve : list string -> string                  (* path.resolve(...) *)
}.

(** [process.env[CODEQL_ACTION_AUTOBUILD_LANGUAGES]?.split(',')[0]] *)
Definition dominantLanguage (r : Runner) (ambient : Js.Object string) : option string :=
  match Js.get (CODEQL_ACTION_AUTOBUILD_LANGUAGES r) ambient with
  | Some languages => nth_error (splitComma languages) 0
  | None => None
  end.

Definition javaFlags : list string :=
  ["-Dhttp.keepAlive=false"; "-Dmaven.wagon.http.pool=false"].

(** The new value of JAVA_TOOL_OPTIONS. *)
Definition javaToolOptionsWithFlags (ambient : Js.Object string) : string :=
  let javaToolOptions :=
    match Js.get "JAVA_TOOL_OPTIONS" ambient with
    | Some (String c s) => String c s
    | _ => ""
    end in
  Js.join " " (splitWhitespace javaToolOptions ++ javaFlags)%list.

(** In the case of python the setup.py script is run. *)
Definition buildPython (r : Runner) (extractorPath : string) : M unit :=
  exec (base r) "sudo apt-get update" [] None ;;
  exec (base r) "sudo apt-get install python3-venv" [] None ;;
  exec (base r) "python -m pip install packaging" [] None ;;
  let* extractor := lift (JSON_parse_string (base r) extractorPath) in
  let pythonSetupScript := resolve r [extractor; "tools"; "setup.py"] in
  let* ambient := getProcessEnv in
  setProcessEnv "LGTM_WORKSPACE"
    (match Js.get "RUNNER_WORKSPACE" ambient with
     | Some (String c s) => String c s
     | _ => "/tmp/codeql-action"
     end) ;;
  let* dist := lift (JSON_parse_string (base r) extractorPath) in
  setProcessEnv "SEMMLE_DIST" dist ;;
  exec (base r) "python" [pythonSetupScript] None ;;
  ret tt.

(** For the other languages the standard autobuilder is run. *)
Definition buildOther (r : Runner) (language autobuildCmd : string) : M unit :=
  (if String.eqb language "java" then
     let* ambient := getProcessEnv in
     setProcessEnv "JAVA_TOOL_OPTIONS" (javaToolOptionsWithFlags ambient)
   else ret tt) ;;
  exec (base r) autobuildCmd [] None ;;
  ret tt.

(** The statements of [run] inside [try]; the result tells whether the
    end of the block was reached. *)
Definition runBody (r : Runner) : M bool :=
  if should_abort_quietly r "autobuild" true then ret false else
  report "autobuild" "starting" ;;
  if negb (reportActionStarting (base r) "autobuild") then ret false else
  let* ambient := getProcessEnv in
  match dominantLanguage r ambient with
  | Some (String c s as language) =>
      let* codeqlCmd :=
        lift (getRequiredEnvParam r ambient (CODEQL_ACTION_CMD (base r))) in
      (* Get extractor location *)
      let* extractorPath :=
        exec (base r) codeqlCmd
             ["resolve"; "extractor"; "--format=json"; "--language=" +:+ language]
             None in
      let cmdName :=
        if String.eqb (platform (base r)) "win32" then "autobuild.cmd"
        else "autobuild.sh" in
      let autobuildCmd := join r [extractorPath; "tools"; cmdName] in
      (if String.eqb language "python"
       then buildPython r extractorPath
       else buildOther r language autobuildCmd) ;;
      ret true
  | _ => ret false      (* None of the languages require extra build steps *)
  end.

Definition run (r : Runner) : M unit :=
  let* completed :=
    catch (runBody r)
          (fun error =>
             setFailed (message error) ;;
             report "autobuild" "failure" ;;
             ret false) in
  if completed then report "autobuild" "success" else ret tt.

End Autobuild.

(** ** Further notions for the properties *)

(** A line that the split at line ends gives back: it has no line feed
    and does not end with a carriage return. *)
Fixpoint cleanLine (s : string) : bool :=
  match s with
  | EmptyString => true
  | String c rest =>
      negb (Ascii.eqb c "010")
      && (match rest with
          | EmptyString => negb (Ascii.eqb c "013")
          | _ => true
          end)
      && cleanLine rest
  end.

(** A string without a comma. *)
Definition noComma (s : string) : bool :=
  forallb (fun c => negb (Ascii.eqb c ",")) (list_ascii_of_string s).

(** The entries whose name did not occur before; [seen] are the names
    that occurred. *)
Fixpoint keepFirst (seen : list string) (entries : list (string * string))
  : list (string * string) :=
  match entries with
  | [] => []
  | (name, value) :: rest =>
      if inList name seen then keepFirst seen rest
      else (name, value) :: keepFirst (seen ++ [name])%list rest
  end.

(** The captured variable [key] is kept by the probe. *)
Definition keptByProbe (ambient : Js.Object string) (key : string) : Prop :=
  key <> "ODASA_TRACER_CONFIGURATION" /\
  ((Js.get key ambient = None /\ Js.inherited key = false) \/
   inList key CRITICAL_TRACER_VARS = true \/
   startsWith "CODEQL_" key = true).

(** A string of ASCII characters only; on these the split at white
    space is the one of the run time. *)
Definition asciiOnly (s : string) : bool :=
  forallb (fun c => (N_of_ascii c <? 128)%N) (list_ascii_of_string s).

(** The size of the blob of an environment. *)
Definition blobSize (env : Js.Object string) : nat :=
  4 + list_sum (map (fun e => 4 + (String.length e.1 + 1 + String.length e.2 + 1))%nat env).

(** The effects of an init action that does not set up tracing and does
    not succeed. *)
Definition noTracingNoSuccess (host : Host) (e : Effect) : Prop :=
  noCompoundEffect host e /\ e <> Reported "init" "success".

(** A child process that finalizes a database. *)
Definition isFinalize (codeqlCmd : string) (e : Effect) : Prop :=
  exists database env, e = Executed codeqlCmd ["database"; "finalize"; database] env.

(** ** Further sample runners *)

(** [host] with another model of the child processes. *)
Definition withSpawn (host : Host)
    (spawn' : string -> list string -> Js.Object string -> gmap string Node
              -> gmap string Node * Result string) : Host :=
  mkHost spawn' (JSON_parse_env host) (JSON_parse_config host) (JSON_parse_string host)
         (should_abort host) (reportActionStarting host) (getLanguages host)
         (setupCodeQL host) (get_required_env_param host) (getInput host)
         (readdirSync host) (upload host) (workspaceFolder host) (platform host)
         (execPath host) (dirname host) (cwd host) (CODEQL_ACTION_CMD host)
         (CODEQL_ACTION_DATABASE_DIR host) (CODEQL_ACTION_LANGUAGES host)
         (CODEQL_ACTION_SCANNED_LANGUAGES host)
         (sharedEnv_ODASA_TRACER_CONFIGURATION host).

(** [host] with other languages of the job. *)
Definition withLanguages (host : Host) (languages : list string) : Host :=
  mkHost (spawn host) (JSON_parse_env host) (JSON_parse_config host)
         (JSON_parse_string host)
         (should_abort host) (reportActionStarting host) (Ok languages)
         (setupCodeQL host) (get_required_env_param host) (getInput host)
         (readdirSync host) (upload host) (workspaceFolder host) (platform host)
         (execPath host) (dirname host) (cwd host) (CODEQL_ACTION_CMD host)
         (CODEQL_ACTION_DATABASE_DIR host) (CODEQL_ACTION_LANGUAGES host)
         (CODEQL_ACTION_SCANNED_LANGUAGES host)
         (sharedEnv_ODASA_TRACER_CONFIGURATION host).

(** A runner on which the child process that dumps the environment
    fails, for a job with a traced language. *)
Definition failingProbeHost : Host :=
  withLanguages
    (withSpawn sampleHost
       (fun cmd args env fs =>
          if inList "trace-command" args
          then (fs, Throw (External "The process failed with exit code 2"))
          else (fs, Ok "")))
    ["javascript"; "java"; "cpp"].

(** The world in which the finish action starts when the command of the
    tools was not published. *)
Definition noCommandWorld : World :=
  mkWorld sampleFiles
          [("CODEQL_ACTION_DATABASE_DIR", "/ws/codeql_results/db");
           ("ODASA_TRACER_CONFIGURATION", "/ws/compound-spec")]
          [].

Definition sampleRunner : Autobuild.Runner := {|
  Autobuild.base :=
    withSpawn sampleHost
      (fun cmd args env fs =>
         match args with
         | "resolve" :: _ => (fs, Ok "/tools/java")
         | _ => (fs, Ok "")
         end);
  Autobuild.should_abort_quietly := fun _ _ => false;
  Autobuild.getRequiredEnvParam := get_required_env_param sampleHost;
  Autobuild.CODEQL_ACTION_AUTOBUILD_LANGUAGES := "CODEQL_ACTION_AUTOBUILD_LANGUAGES";
  Autobuild.join := Js.join "/";
  Autobuild.resolve := Js.join "/"
|}.

(** The world in which the autobuild action starts for a java job. *)
Definition javaWorld : World :=
  mkWorld sampleFiles
          [("CODEQL_ACTION_CMD", "/tools/codeql");
           ("CODEQL_ACTION_AUTOBUILD_LANGUAGES", "java,cpp");
           ("JAVA_TOOL_OPTIONS", "-Xmx2g  -Dfile.encoding=UTF-8")]
          [].

(** [host] with another result of parsing the dump of the environment. *)
Definition withDump (host : Host) (captured : Js.Object (option string)) : Host :=
  mkHost (spawn host) (fun _ => Ok captured) (JSON_parse_config host)
         (JSON_parse_string host)
         (should_abort host) (reportActionStarting host) (getLanguages host)
         (setupCodeQL host) (get_required_env_param host) (getInput host)
         (readdirSync host) (upload host) (workspaceFolder host) (platform host)
         (execPath host) (dirname host) (cwd host) (CODEQL_ACTION_CMD host)
         (CODEQL_ACTION_DATABASE_DIR host) (CODEQL_ACTION_LANGUAGES host)
         (CODEQL_ACTION_SCANNED_LANGUAGES host)
         (sharedEnv_ODASA_TRACER_CONFIGURATION host).

(** A dump with the tracer configuration, two variables that the
    process has too, of which one is critical, two new ones, and one
    with the name of a property that the environment inherits. *)
Definition sampleDump : Js.Object (option string) :=
  [("ODASA_TRACER_CONFIGURATION", Some "/db/java/spec");
   ("PATH", Some "/usr/bin");
   ("SEMMLE_RUNNER", Some "runner");
   ("CODEQL_DIST", Some "/tools");
   ("SEMMLE_EXEC", Some "exec");
   ("toString", Some "text")].

Definition probeWorld : World :=
  mkWorld sampleFiles
          [("PATH", "/bin"); ("SEMMLE_RUNNER", "old"); ("CODEQL_DIST", "/old")] [].

(** A runner whose child processes leave no dump of the environment. *)
Definition noDumpHost : Host :=
  withSpawn sampleHost (fun cmd args env fs => (fs, Ok "")).

(** * Properties *)

(** ** Dictionaries *)

Section JsFacts.
Context {V : Type}.
Implicit Types (o : Js.Object V) (k : string) (v : V).

Lemma get_Some_In o k v : Js.get k o = Some v -> In (k, v) o.
Proof.
  induction o as [|[k' v'] o IH]; simpl; [discriminate|].
  destruct (String.eqb_spec k' k) as [->|Hne].
  - intros [= ->]. now left.
  - intros H. right. now apply IH.
Qed.

Lemma get_None_keys o k : Js.get k o = None <-> ~ In k (Js.keys o).
Proof.
  induction o as [|[k' v'] o IH]; simpl.
  - tauto.
  - destruct (String.eqb_spec k' k) as [->|Hne].
    + split; [discriminate|]. intros H. exfalso. apply H. now left.
    + rewrite IH. tauto.
Qed.

Lemma In_keys o k v : In (k, v) o -> In k (Js.keys o).
Proof. intros H. apply (in_map fst) in H. exact H. Qed.

Lemma In_get_NoDup o k v :
  NoDup (Js.keys o) -> In (k, v) o -> Js.get k o = Some v.
Proof.
  induction o as [|[k' v'] o IH]; simpl; [tauto|].
  intros Hnd [H|H].
  - injection H as -> ->. now rewrite String.eqb_refl.
  - apply NoDup_cons in Hnd as [Hnotin Hnd].
    destruct (String.eqb_spec k' k) as [->|Hne].
    + exfalso. apply Hnotin, list_elem_of_In. eapply In_keys; eauto.
    + now apply IH.
Qed.

Lemma set_fresh o k v : Js.get k o = None -> Js.set k v o = (o ++ [(k, v)])%list.
Proof.
  induction o as [|[k' v'] o IH]; simpl; [reflexivity|].
  destruct (String.eqb k' k); [discriminate|].
  intros H. now rewrite IH.
Qed.

Lemma keys_app o1 o2 : Js.keys (o1 ++ o2)%list = (Js.keys o1 ++ Js.keys o2)%list.
Proof. apply map_app. Qed.

Lemma get_set_eq k v o : Js.get k (Js.set k v o) = Some v.
Proof.
  induction o as [|[k' v'] o IH]; simpl.
  - now rewrite String.eqb_refl.
  - destruct (String.eqb k' k) eqn:Hk; simpl; rewrite Hk; [reflexivity|exact IH].
Qed.

Lemma get_set_ne k k' v o : k <> k' -> Js.get k' (Js.set k v o) = Js.get k' o.
Proof.
  intros Hne. induction o as [|[k0 v0] o IH]; simpl.
  - destruct (String.eqb_spec k k'); [contradiction|reflexivity].
  - destruct (String.eqb_spec k0 k) as [->|Hk]; simpl.
    + destruct (String.eqb_spec k k'); [contradiction|reflexivity].
    + destruct (String.eqb k0 k'); [reflexivity|exact IH].
Qed.

Lemma insertIndex_Permutation i k v o :
  Permutation (Js.insertIndex i k v o) ((k, v) :: o).
Proof.
  induction o as [|[k' v'] o IH]; simpl; [reflexivity|].
  destruct (Js.arrayIndex k') as [j|]; [|reflexivity].
  destruct (j <? i); [|reflexivity].
  rewrite IH. apply perm_swap.
Qed.

Lemma put_ordinary o k v : Js.arrayIndex k = None -> Js.put k v o = Js.set k v o.
Proof. intros H. unfold Js.put. now rewrite H. Qed.

(** A new property is one more entry of the object. *)
Lemma put_fresh o k v :
  Js.get k o = None -> Permutation (Js.put k v o) ((k, v) :: o).
Proof.
  intros Hget. unfold Js.put, Js.has. rewrite Hget.
  destruct (Js.arrayIndex k) as [i|].
  - apply insertIndex_Permutation.
  - rewrite (set_fresh _ _ _ Hget). symmetry. apply Permutation_cons_append.
Qed.

Lemma put_fresh_In o k v k' v' :
  Js.get k o = None ->
  In (k', v') (Js.put k v o) <-> (k', v') = (k, v) \/ In (k', v') o.
Proof.
  intros Hget. pose proof (put_fresh o k v Hget) as Hp. split.
  - intros H. apply (Permutation_in _ Hp) in H. destruct H as [H|H]; auto.
  - intros H. apply (Permutation_in _ (Permutation_sym Hp)).
    destruct H as [H|H]; [left; now symmetry|now right].
Qed.

Lemma put_fresh_NoDup o k v :
  Js.get k o = None -> NoDup (Js.keys o) -> NoDup (Js.keys (Js.put k v o)).
Proof.
  intros Hget Hnd.
  assert (Hp : Permutation (Js.keys (Js.put k v o)) (k :: Js.keys o))
    by (unfold Js.keys; now rewrite (put_fresh o k v Hget)).
  rewrite Hp. apply NoDup_cons. split; [|exact Hnd].
  rewrite list_elem_of_In. now apply get_None_keys.
Qed.

Lemma put_fresh_length o k v :
  Js.get k o = None -> length (Js.put k v o) = S (length o).
Proof. intros Hget. now rewrite (put_fresh o k v Hget). Qed.

End JsFacts.

(** ** The loops *)

Lemma foldR_app {A S} (body : S -> A -> Result S) l1 l2 acc :
  foldR body (l1 ++ l2)%list acc =
  let? acc' := foldR body l1 acc in foldR body l2 acc'.
Proof.
  revert acc. induction l1 as [|x l1 IH]; intros acc; simpl; [reflexivity|].
  destruct (body acc x); simpl; [apply IH|reflexivity].
Qed.

(** The two nested loops of the merge visit the entries of all the
    environments in order. *)
Lemma mergeEnvironments_flat configs :
  mergeEnvironments configs = foldR mergeEntry (allEntries configs) ([], 0).
Proof.
  unfold mergeEnvironments, allEntries.
  generalize (([], 0) : Js.Object string * Z).
  induction (Js.values configs) as [|c cs IH]; intros acc; simpl; [reflexivity|].
  rewrite foldR_app. unfold mergeConfig at 1, Js.entries.
  destruct (foldR mergeEntry (env c) acc); simpl; [apply IH|reflexivity].
Qed.

Lemma ownNames_app l1 l2 : ownNames (l1 ++ l2) = ownNames l1 && ownNames l2.
Proof. apply forallb_app. Qed.

Lemma ownNames_In l k v : ownNames l = true -> In (k, v) l -> Js.inherited k = false.
Proof.
  unfold ownNames. rewrite forallb_forall. intros Hall Hin.
  apply Hall in Hin. simpl in Hin. now destruct (Js.inherited k).
Qed.

(** What the merge loop does with every list of entries.  It succeeds
    on entries that give one value to each name and have no inherited
    name, with the set of the entries as its result.  Otherwise it
    throws at the first entry that differs from an entry before it or
    whose name is inherited, with the value that was accumulated for the
    name (or the text of the inherited property) and the value of that
    entry. *)
Lemma merge_outcome l :
  match foldR mergeEntry l ([], 0) with
  | Ok (env1, n1) =>
      compatible l /\
      NoDup (Js.keys env1) /\
      n1 = Z.of_nat (length env1) /\
      (forall k v, In (k, v) env1 <-> In (k, v) l) /\
      ownNames l = true
  | Throw e =>
      exists pre k b post,
        l = (pre ++ (k, b) :: post)%list /\
        compatible pre /\ ownNames pre = true /\
        ((exists a, In (k, a) pre /\ a <> b /\ e = IncompatibleValues k a b) \/
         (Js.inherited k = true /\
          e = IncompatibleValues k (Js.inheritedText k) b))
  end.
Proof.
  induction l as [|[k v] l IH] using rev_ind.
  { simpl. repeat split; auto; try tauto; try constructor.
    intros n v1 v2 []. }
  rewrite foldR_app.
  destruct (foldR mergeEntry l ([], 0)) as [[env1 n1]|e].
  2:{ destruct IH as (pre & k' & b & post & -> & Hc & Ho & He).
      simpl. exists pre, k', b, (post ++ [(k, v)])%list.
      rewrite <- app_assoc. repeat split; auto. }
  destruct IH as (Hcompat & Hnd & -> & Hin & Hown).
  cbn [bindR foldR]. unfold mergeEntry. cbn [fst snd]. unfold Js.in_, Js.has.
  destruct (Js.get k env1) as [cur|] eqn:Hget.
  - pose proof (get_Some_In _ _ _ Hget) as Hcur. apply Hin in Hcur.
    cbn [orb]. destruct (String.eqb_spec cur v) as [->|Hne]; cbn [negb bindR].
    + assert (Hin' : forall k0 v0, In (k0, v0) env1 <-> In (k0, v0) (l ++ [(k, v)])%list).
      { intros k0 v0. rewrite Hin, in_app_iff. simpl. split; [tauto|].
        intros [H|[H|[]]]; [exact H|]. injection H as <- <-. exact Hcur. }
      repeat split; auto; try apply Hin'.
      * intros n v1 v2 H1 H2. apply Hin', (In_get_NoDup _ _ _ Hnd) in H1, H2.
        congruence.
      * rewrite ownNames_app, Hown. simpl.
        now rewrite (ownNames_In _ _ _ Hown Hcur).
    + exists l, k, v, []. repeat split; auto.
      left. exists cur. auto.
  - cbn [orb]. destruct (Js.inherited k) eqn:Hinh; cbn [bindR].
    + exists l, k, v, []. repeat split; auto.
    + repeat split.
      * intros n v1 v2 H1 H2. rewrite in_app_iff in H1, H2. simpl in H1, H2.
        assert (Hnew : forall v0, ~ In (k, v0) l).
        { intros v0 H0. apply Hin, In_keys in H0.
          now apply (proj1 (get_None_keys _ _) Hget). }
        destruct H1 as [H1|[H1|[]]], H2 as [H2|[H2|[]]].
        -- exact (Hcompat n v1 v2 H1 H2).
        -- injection H2 as <- <-. now apply Hnew in H1.
        -- injection H1 as <- <-. now apply Hnew in H2.
        -- congruence.
      * now apply put_fresh_NoDup.
      * rewrite (put_fresh_length _ _ _ Hget). lia.
      * intros H. apply (put_fresh_In _ _ _ _ _ Hget) in H.
        rewrite in_app_iff. simpl. destruct H as [H|H]; [auto|left; now apply Hin].
      * intros H. apply (put_fresh_In _ _ _ _ _ Hget).
        rewrite in_app_iff in H. simpl in H.
        destruct H as [H|[H|[]]]; [right; now apply Hin|left; now symmetry].
      * rewrite ownNames_app, Hown. simpl. now rewrite Hinh.
Qed.

(** The merge, in one statement; see [merge_outcome]. *)
Lemma mergeEnvironments_spec configs :
  match mergeEnvironments configs with
  | Ok (merged, size) =>
      compatible (allEntries configs) /\
      NoDup (Js.keys merged) /\
      size = Z.of_nat (length merged) /\
      (forall n v, In (n, v) merged <-> In (n, v) (allEntries configs)) /\
      ownNames (allEntries configs) = true
  | Throw e =>
      exists pre n b post,
        allEntries configs = (pre ++ (n, b) :: post)%list /\
        compatible pre /\ ownNames pre = true /\
        ((exists a, In (n, a) pre /\ a <> b /\ e = IncompatibleValues n a b) \/
         (Js.inherited n = true /\
          e = IncompatibleValues n (Js.inheritedText n) b))
  end.
Proof. rewrite mergeEnvironments_flat. apply merge_outcome. Qed.

Lemma compatible_split pre n a b post :
  compatible (pre ++ (n, b) :: post)%list -> In (n, a) pre -> a = b.
Proof.
  intros Hc Ha. apply (Hc n a b); rewrite in_app_iff; simpl; auto.
Qed.

(** Entries with one value for each name and no inherited name are
    merged. *)
Lemma merge_compatible configs :
  compatible (allEntries configs) ->
  ownNames (allEntries configs) = true ->
  exists merged size,
    mergeEnvironments configs = Ok (merged, size) /\
    NoDup (Js.keys merged) /\
    size = Z.of_nat (length merged) /\
    (forall n v, In (n, v) merged <-> In (n, v) (allEntries configs)).
Proof.
  intros Hcompat Hown. pose proof (mergeEnvironments_spec configs) as H.
  destruct (mergeEnvironments configs) as [[merged size]|e].
  - destruct H as (_ & Hnd & Hsize & Hin & _). exists merged, size. auto.
  - destruct H as (pre & n & b & post & Hl & _ & _ & [(a & Ha & Hab & _)|(Hinh & _)]).
    + rewrite Hl in Hcompat. exfalso. apply Hab.
      exact (compatible_split _ _ _ _ _ Hcompat Ha).
    + rewrite Hl, ownNames_app in Hown. simpl in Hown. rewrite Hinh in Hown.
      simpl in Hown. rewrite andb_false_r in Hown. discriminate.
Qed.

(** For variable names that are not inherited from [Object.prototype]:
    when two tracer configurations give different values to one name,
    the merge throws at the first entry that differs from an entry
    before it, with the name, the value that was accumulated and the
    value of that entry; it never returns a merged environment.  When
    all the values given to one name are the same string, the merge
    succeeds, and the merged environment holds each name once, with
    exactly the entries of the input. *)
Lemma merge_detects_conflicts (configs : Js.Object TracerConfig) :
  ownNames (allEntries configs) = true ->
  (forall c1 c2 name v1 v2,
      In c1 (Js.values configs) -> In c2 (Js.values configs) ->
      In (name, v1) (env c1) -> In (name, v2) (env c2) -> v1 <> v2 ->
      exists pre n a b post,
        allEntries configs = (pre ++ (n, b) :: post)%list /\
        compatible pre /\ In (n, a) pre /\ a <> b /\
        mergeEnvironments configs = Throw (IncompatibleValues n a b))
  /\
  (compatible (allEntries configs) ->
      exists merged size,
        mergeEnvironments configs = Ok (merged, size) /\
        NoDup (Js.keys merged) /\
        size = Z.of_nat (length merged) /\
        (forall n v, In (n, v) merged <-> In (n, v) (allEntries configs))).
Proof.
  intros Hown. pose proof (mergeEnvironments_spec configs) as H.
  split.
  - intros c1 c2 name v1 v2 Hc1 Hc2 H1 H2 Hne.
    destruct (mergeEnvironments configs) as [[merged size]|e].
    + destruct H as (Hcompat & _). exfalso. apply Hne.
      apply (Hcompat name); unfold allEntries; apply in_concat.
      * exists (env c1). split; [now apply in_map|assumption].
      * exists (env c2). split; [now apply in_map|assumption].
    + destruct H as (pre & n & b & post & Hl & Hc & _ & [(a & Ha & Hab & ->)|(Hinh & _)]).
      * exists pre, n, a, b, post. auto.
      * rewrite Hl, ownNames_app in Hown. simpl in Hown. rewrite Hinh in Hown.
        simpl in Hown. rewrite andb_false_r in Hown. discriminate.
  - intros Hcompat. now apply merge_compatible.
Qed.


Lemma allEntries_Permutation configs configs' :
  Permutation configs configs' ->
  forall e, In e (allEntries configs) <-> In e (allEntries configs').
Proof.
  intros Hperm e. unfold allEntries. rewrite !in_concat.
  assert (Hv : forall c, In c (map env (Js.values configs)) <->
                         In c (map env (Js.values configs'))).
  { intros c. unfold Js.values. split; apply Permutation_in;
      [|symmetry]; do 2 apply Permutation_map; exact Hperm. }
  split; intros (c & Hc & He); exists c; split; auto; now apply Hv.
Qed.

Lemma ownNames_same l l' :
  (forall e, In e l <-> In e l') -> ownNames l = true -> ownNames l' = true.
Proof.
  unfold ownNames. rewrite !forallb_forall. intros Hsame H e He.
  apply H, Hsame, He.
Qed.

(** C7. The outcome of the merge does not depend on the order of the
    tracer configurations.  For two orders of the same configurations,
    the merge succeeds in both or throws in both.  It succeeds exactly
    when the entries give one value to each name and no name is
    inherited from [Object.prototype]; the two merged environments then
    have the same size and hold the same name and value pairs, each name
    once (so one is a rearrangement of the other), and these pairs are
    the entries of the configurations. *)
Theorem merge_order_independent (configs configs' : Js.Object TracerConfig) :
  Permutation configs configs' ->
  match mergeEnvironments configs, mergeEnvironments configs' with
  | Ok (merged, size), Ok (merged', size') =>
      compatible (allEntries configs) /\ ownNames (allEntries configs) = true /\
      size = size' /\
      NoDup (Js.keys merged) /\ NoDup (Js.keys merged') /\
      Permutation merged merged' /\
      (forall n v, In (n, v) merged <-> In (n, v) merged') /\
      (forall n v, In (n, v) merged <-> In (n, v) (allEntries configs))
  | Throw _, Throw _ =>
      ~ (compatible (allEntries configs) /\ ownNames (allEntries configs) = true)
  | _, _ => False
  end.
Proof.
  intros Hperm.
  pose proof (allEntries_Permutation _ _ Hperm) as Hsame.
  pose proof (mergeEnvironments_spec configs) as H.
  pose proof (mergeEnvironments_spec configs') as H'.
  assert (Hclean : compatible (allEntries configs) ->
                   ownNames (allEntries configs) = true ->
                   compatible (allEntries configs') /\
                   ownNames (allEntries configs') = true).
  { intros Hc Ho. split.
    - intros n v1 v2 H1 H2. apply Hsame in H1, H2. eauto.
    - exact (ownNames_same _ _ Hsame Ho). }
  assert (Hclean' : compatible (allEntries configs') ->
                    ownNames (allEntries configs') = true ->
                    compatible (allEntries configs) /\
                    ownNames (allEntries configs) = true).
  { intros Hc Ho. split.
    - intros n v1 v2 H1 H2. apply Hsame in H1, H2. eauto.
    - apply (ownNames_same (allEntries configs')); [|exact Ho].
      intros e. symmetry. apply Hsame. }
  destruct (mergeEnvironments configs) as [[merged size]|e] eqn:Hm;
    destruct (mergeEnvironments configs') as [[merged' size']|e'] eqn:Hm'.
  - destruct H as (Hc & Hnd & -> & Hin & Ho).
    destruct H' as (_ & Hnd' & -> & Hin' & _).
    assert (Hp : Permutation merged merged').
    { apply NoDup_Permutation.
      - eapply NoDup_fmap_1. exact Hnd.
      - eapply NoDup_fmap_1. exact Hnd'.
      - intros [n v]. rewrite !list_elem_of_In, Hin, Hin'. apply Hsame. }
    repeat split; auto.
    + f_equal. now apply Permutation_length.
    + intros Hx. apply Hin', Hsame, Hin, Hx.
    + intros Hx. apply Hin, Hsame, Hin', Hx.
    + apply Hin.
    + apply Hin.
  - destruct H as (Hc & _ & _ & _ & Ho).
    destruct (Hclean Hc Ho) as [Hc' Ho'].
    destruct (merge_compatible configs' Hc' Ho') as (m & n & Hok & _).
    congruence.
  - destruct H' as (Hc' & _ & _ & _ & Ho').
    destruct (Hclean' Hc' Ho') as [Hc Ho].
    destruct (merge_compatible configs Hc Ho) as (m & n & Hok & _).
    congruence.
  - intros [Hc Ho].
    destruct (merge_compatible configs Hc Ho) as (m & n & Hok & _).
    congruence.
Qed.

Lemma merge_order_independent_witness :
  match mergeEnvironments sampleConfigs,
        mergeEnvironments [("cpp", langB); ("java", langA)] with
  | Ok (merged, size), Ok (merged', size') =>
      compatible (allEntries sampleConfigs) /\
      ownNames (allEntries sampleConfigs) = true /\
      size = size' /\
      NoDup (Js.keys merged) /\ NoDup (Js.keys merged') /\
      Permutation merged merged' /\
      (forall n v, In (n, v) merged <-> In (n, v) merged') /\
      (forall n v, In (n, v) merged <-> In (n, v) (allEntries sampleConfigs))
  | Throw _, Throw _ =>
      ~ (compatible (allEntries sampleConfigs) /\
         ownNames (allEntries sampleConfigs) = true)
  | _, _ => False
  end.
Proof.
  apply (merge_order_independent sampleConfigs [("cpp", langB); ("java", langA)]).
  apply perm_swap.
Defined.

(** ** Bytes and the environment blob *)

Lemma to_N_byte_of_ascii a : Byte.to_N (byte_of_ascii a) = N_of_ascii a.
Proof. apply Byte.to_of_N. symmetry. apply byte_of_ascii_via_N. Qed.

Lemma land_255_range z : 0 <= Z.land z 255 < 256.
Proof.
  change 255 with (Z.ones 8). rewrite Z.land_ones by lia.
  apply Z.mod_pos_bound. lia.
Qed.

Lemma byteToZ_byteOfZ z : byteToZ (byteOfZ z) = Z.land z 255.
Proof.
  unfold byteToZ, byteOfZ. rewrite to_N_byte_of_ascii.
  pose proof (land_255_range z) as Hr.
  rewrite N_ascii_embedding by lia. lia.
Qed.

Lemma readInt32LE_int32LE v rest :
  - 2 ^ 31 <= v < 2 ^ 31 ->
  readInt32LE (int32LE v ++ rest) = Some (v, rest).
Proof.
  intros Hv. unfold int32LE, readInt32LE. simpl app. cbv beta iota.
  rewrite !byteToZ_byteOfZ.
  change 255 with (Z.ones 8). rewrite !Z.land_ones by lia.
  rewrite !Z.shiftr_div_pow2 by lia.
  f_equal. f_equal.
  change (2 ^ 8) with 256 in *. change (2 ^ 16) with 65536 in *.
  change (2 ^ 24) with 16777216 in *. change (2 ^ 31) with 2147483648 in *.
  change (2 ^ 32) with 4294967296 in *.
  destruct (Z.ltb_spec (v mod 256 + 256 * (v / 256 mod 256) + 65536 * (v / 65536 mod 256)
                        + 16777216 * (v / 16777216 mod 256)) 2147483648);
    Z.div_mod_to_equations; lia.
Qed.

Lemma writeInt32LE_Ok v buffer :
  writeInt32LE v = Ok buffer -> - 2 ^ 31 <= v < 2 ^ 31 /\ buffer = int32LE v.
Proof.
  unfold writeInt32LE.
  destruct (Z.leb_spec (- 2 ^ 31) v), (Z.leb_spec v (2 ^ 31 - 1)); simpl;
    try discriminate.
  intros [= <-]. split; [lia|reflexivity].
Qed.

Lemma utf8_append a b : utf8 (a +:+ b) = (utf8 a ++ utf8 b)%list.
Proof.
  unfold utf8, list_byte_of_string.
  induction a as [|c a IH]; simpl; [reflexivity|].
  f_equal. exact IH.
Qed.

Lemma splitAtEquals_entry key value :
  forallb (fun b => negb (isEquals b)) key = true ->
  splitAtEquals (key ++ "="%byte :: value) = Some (key, value).
Proof.
  induction key as [|b key IH]; simpl; [reflexivity|].
  intros [Hb Hrest]%andb_prop.
  destruct (isEquals b); [discriminate|]. now rewrite IH.
Qed.

Lemma decodeLine_entry key value :
  noEquals key = true ->
  decodeLine (utf8 (key +:+ "=" +:+ value +:+ String "000" "")) = Some (key, value).
Proof.
  intros Hkey. unfold decodeLine.
  rewrite !utf8_append.
  change (utf8 "=") with ["="%byte]. change (utf8 (String "000" "")) with ["000"%byte].
  replace (utf8 key ++ ["="%byte] ++ utf8 value ++ ["000"%byte])%list
    with ((utf8 key ++ "="%byte :: utf8 value) ++ ["000"%byte])%list
    by (rewrite <- !app_assoc; reflexivity).
  rewrite rev_app_distr. simpl rev at 1. simpl app at 1. cbv beta iota.
  rewrite rev_involutive, splitAtEquals_entry by exact Hkey.
  unfold utf8. now rewrite !string_of_list_byte_of_string.
Qed.

Lemma decodeEntries_entry count size line rest :
  - 2 ^ 31 <= Z.of_nat (length line) < 2 ^ 31 ->
  size = int32LE (Z.of_nat (length line)) ->
  decodeEntries (S count) (size ++ line ++ rest)%list =
  match decodeLine line with
  | Some entry =>
      match decodeEntries count rest with
      | Some more => Some (entry :: more)
      | None => None
      end
  | None => None
  end.
Proof.
  intros Hrange ->.
  change (decodeEntries (S count) ?b) with
    (match readInt32LE b with
     | Some (size, rest) =>
         if (0 <=? size) && (size <=? Z.of_nat (length rest)) then
           match decodeLine (firstn (Z.to_nat size) rest) with
           | Some entry =>
               match decodeEntries count (skipn (Z.to_nat size) rest) with
               | Some more => Some (entry :: more)
               | None => None
               end
           | None => None
           end
         else None
     | None => None
     end).
  rewrite readInt32LE_int32LE by exact Hrange.
  rewrite Nat2Z.id, length_app.
  rewrite (proj2 (Z.leb_le 0 _)) by lia.
  rewrite (proj2 (Z.leb_le _ _)) by lia.
  simpl andb. cbv iota.
  now rewrite take_app_length, drop_app_length.
Qed.

(** The entries that the encoding loop appends are read back. *)
Lemma encode_decode_entries l : forall buffer out,
  foldR encodeEntry l buffer = Ok out ->
  Forall (fun name => noEquals name = true) (Js.keys l) ->
  exists body, out = (buffer ++ body)%list /\ decodeEntries (length l) body = Some l.
Proof.
  induction l as [|[key value] l IH]; intros buffer out Hrun Hkeys; simpl in Hrun.
  - injection Hrun as <-. exists []. split; [now rewrite app_nil_r|reflexivity].
  - unfold encodeEntry in Hrun at 1. simpl in Hrun.
    destruct (writeInt32LE _) as [sizeBuffer|] eqn:Hsize; simpl in Hrun; [|discriminate].
    apply writeInt32LE_Ok in Hsize as [Hrange ->].
    apply Forall_cons in Hkeys as [Hkey Hkeys].
    destruct (IH _ _ Hrun Hkeys) as (body & -> & Hbody).
    set (line := utf8 (key +:+ "=" +:+ value +:+ String "000" "")) in *.
    exists (int32LE (Z.of_nat (length line)) ++ line ++ body)%list.
    split; [now rewrite <- !app_assoc|].
    change (length ((key, value) :: l)) with (S (length l)).
    rewrite (decodeEntries_entry _ _ _ _ Hrange eq_refl).
    unfold line. rewrite decodeLine_entry by exact Hkey.
    now rewrite Hbody.
Qed.

Lemma encode_decode_environment merged blob :
  encodeEnvironment merged (Z.of_nat (length merged)) = Ok blob ->
  Forall (fun name => noEquals name = true) (Js.keys merged) ->
  decodeEnvironment blob = Some merged.
Proof.
  unfold encodeEnvironment. intros Hrun Hkeys.
  destruct (writeInt32LE _) as [buffer|] eqn:Hsize; simpl in Hrun; [|discriminate].
  apply writeInt32LE_Ok in Hsize as [Hrange ->].
  destruct (encode_decode_entries _ _ _ Hrun Hkeys) as (body & -> & Hbody).
  unfold decodeEnvironment. rewrite readInt32LE_int32LE by exact Hrange.
  rewrite (proj2 (Z.leb_le 0 _)) by lia.
  now rewrite Nat2Z.id.
Qed.

(** ** The aggregator, step by step *)

Lemma length_append (a b : string) :
  String.length (a +:+ b) = (String.length a + String.length b)%nat.
Proof. induction a as [|c a IH]; simpl; [reflexivity|]. now rewrite IH. Qed.

Lemma compound_paths_differ ws : compoundSpecPath ws <> compoundEnvPath ws.
Proof.
  unfold compoundEnvPath. intros H.
  apply (f_equal String.length) in H.
  rewrite length_append in H. simpl in H. lia.
Qed.

Lemma readFileSync_world path w w' r : readFileSync path w = (w', r) -> w' = w.
Proof.
  unfold readFileSync. destruct path as [p|]; [|congruence].
  destruct (files w !! p) as [[data|]|]; congruence.
Qed.

Lemma readSpec_inv configs lines count lang w w' r :
  readSpec configs (lines, count) lang w = (w', r) ->
  w' = w /\
  forall acc, r = Ok acc ->
    exists text, specText w configs lang = Some text /\
                 acc = ((lines ++ blockLines text)%list, Js.add count (declaredCount text)).
Proof.
  unfold readSpec, specText.
  destruct (Js.get lang configs) as [config|].
  - unfold bind. destruct (readFileSync (spec config) w) as [w1 [text|e]] eqn:Hread.
    + apply readFileSync_world in Hread as ->. unfold ret. intros [= <- <-].
      split; [reflexivity|]. intros acc [= <-]. exists text. split; reflexivity.
    + apply readFileSync_world in Hread as ->. intros [= <- <-].
      split; [reflexivity|]. discriminate.
  - unfold throw. intros [= <- <-]. split; [reflexivity|]. discriminate.
Qed.

Lemma readSpecs_inv configs langs : forall lines0 count0 w w' r,
  foldM (readSpec configs) langs (lines0, count0) w = (w', r) ->
  w' = w /\
  forall lines count, r = Ok (lines, count) ->
    exists texts,
      Forall2 (fun lang text => specText w configs lang = Some text) langs texts /\
      lines = (lines0 ++ totalLines texts)%list /\
      count = fold_left Js.add (map declaredCount texts) count0.
Proof.
  induction langs as [|lang langs IH]; intros lines0 count0 w w' r; cbn [foldM].
  - unfold ret. intros [= <- <-]. split; [reflexivity|].
    intros lines count [= <- <-]. exists []. repeat split.
    + constructor.
    + now rewrite app_nil_r.
  - unfold bind at 1.
    destruct (readSpec configs (lines0, count0) lang w) as [w1 [acc|e]] eqn:Hstep.
    + apply readSpec_inv in Hstep as [-> Hacc].
      destruct (Hacc acc eq_refl) as (text & Htext & ->).
      intros Hrest. apply IH in Hrest as [-> Hrest]. split; [reflexivity|].
      intros lines count Hr. destruct (Hrest lines count Hr) as (texts & Hall & -> & ->).
      exists (text :: texts). repeat split.
      * now constructor.
      * unfold totalLines. simpl. now rewrite app_assoc.
    + apply readSpec_inv in Hstep as [-> _]. intros [= <- <-].
      split; [reflexivity|]. discriminate.
Qed.

(** Every run of the aggregator is one of these: the merge throws; a
    spec file cannot be read; the compound spec file cannot be written;
    the compound spec file is written and then the blob cannot be
    encoded or cannot be written; both files are written. *)
Lemma concat_anatomy ws configs w :
  match mergeEnvironments configs with
  | Throw e => concatTracerConfigs ws configs w = (w, Throw e)
  | Ok (merged, size) =>
      match foldM (readSpec configs) (orderLanguages configs) ([], Js.Int 0) w with
      | (_, Throw e) => concatTracerConfigs ws configs w = (w, Throw e)
      | (_, Ok (lines, count)) =>
          let content := compoundSpecContent ws lines count in
          match files w !! compoundSpecPath ws with
          | Some Directory =>
              concatTracerConfigs ws configs w =
              (w, Throw (FileError "EISDIR" (compoundSpecPath ws)))
          | _ =>
              match encodeEnvironment merged size with
              | Throw e =>
                  concatTracerConfigs ws configs w =
                  (written (compoundSpecPath ws) content w, Throw e)
              | Ok blob =>
                  match files w !! compoundEnvPath ws with
                  | Some Directory =>
                      concatTracerConfigs ws configs w =
                      (written (compoundSpecPath ws) content w,
                       Throw (FileError "EISDIR" (compoundEnvPath ws)))
                  | _ =>
                      concatTracerConfigs ws configs w =
                      (written (compoundEnvPath ws) blob
                         (written (compoundSpecPath ws) content w),
                       Ok (mkTracerConfig (Some (compoundSpecPath ws)) merged))
                  end
              end
          end
      end
  end.
Proof.
  assert (Hfiles : forall data,
            files (written (compoundSpecPath ws) data w) !! compoundEnvPath ws
            = files w !! compoundEnvPath ws).
  { intros data. unfold written. simpl files.
    apply lookup_insert_ne, compound_paths_differ. }
  destruct (mergeEnvironments configs) as [[merged size]|e] eqn:Hmerge;
    [|unfold concatTracerConfigs, bind, lift; now rewrite Hmerge].
  destruct (foldM _ _ _ w) as [w1 [[lines count]|e]] eqn:Hread;
    pose proof Hread as Hw; apply readSpecs_inv in Hw as [-> _];
    [|unfold concatTracerConfigs, bind, lift; now rewrite Hmerge, Hread].
  cbv zeta.
  destruct (files w !! compoundSpecPath ws) as [[data|]|] eqn:Hspec;
    [| unfold concatTracerConfigs, bind, lift, writeFileSync;
       now rewrite Hmerge, Hread, Hspec |].
  all: destruct (encodeEnvironment merged size) as [blob|e] eqn:Hblob;
    [| unfold concatTracerConfigs, bind, lift, writeFileSync;
       now rewrite Hmerge, Hread, Hspec, Hblob ].
  all: destruct (files w !! compoundEnvPath ws) as [[data'|]|] eqn:Henv;
    unfold concatTracerConfigs, bind, lift, writeFileSync;
    rewrite Hmerge; cbv beta iota; rewrite Hread; cbv beta iota;
    rewrite Hspec; cbv beta iota; rewrite Hblob; cbv beta iota;
    rewrite Hfiles; reflexivity.
Qed.

(** ** Failures of the aggregator *)

(** C3, as the claim states it, fails: with a directory in the place of
    the blob, the aggregator throws after it has written the compound
    spec file, which stays without a blob. *)
Lemma spec_written_before_blob_failure :
  let run := concatTracerConfigs "/ws" sampleConfigs blockedWorld in
  run.2 = Throw (FileError "EISDIR" "/ws/compound-spec.environment") /\
  trace run.1 =
    [FileWritten "/ws/compound-spec"
       (utf8 (Js.join newline ["/ws/compound-build-tracer.log"; "3"; "l1"; "l2"; "j1"]))] /\
  files run.1 !! "/ws/compound-spec" =
    Some (specFile "/ws/compound-build-tracer.log" "3" ["l1"; "l2"; "j1"]) /\
  files blockedWorld !! "/ws/compound-spec" = None /\
  files run.1 !! "/ws/compound-spec.environment" = Some Directory.
Proof. vm_compute. repeat split; reflexivity. Qed.

(** C3, amended.  A run of the aggregator that throws is one of two
    kinds.  Either nothing is written and the world is as it was: the
    error is that of the merge, or that of a spec file that cannot be
    read, or the compound spec file cannot be written.  Or the merge and
    the reading succeeded and the failure is that of encoding the blob
    or of writing it: then the compound spec file has been written
    before, this is the only effect of the run, the file stays in
    place, and no blob is written. *)
Theorem concat_failure (ws : string) (configs : Js.Object TracerConfig)
    (w w' : World) (e : Error) :
  concatTracerConfigs ws configs w = (w', Throw e) ->
  (w' = w /\
   (mergeEnvironments configs = Throw e \/
    (exists merged size, mergeEnvironments configs = Ok (merged, size)) /\
    ((exists w1,
        foldM (readSpec configs) (orderLanguages configs) ([], Js.Int 0) w
        = (w1, Throw e)) \/
     (exists lines count,
        foldM (readSpec configs) (orderLanguages configs) ([], Js.Int 0) w
        = (w, Ok (lines, count))) /\
     files w !! compoundSpecPath ws = Some Directory /\
     e = FileError "EISDIR" (compoundSpecPath ws))))
  \/
  (exists merged size lines count content,
     mergeEnvironments configs = Ok (merged, size) /\
     foldM (readSpec configs) (orderLanguages configs) ([], Js.Int 0) w
       = (w, Ok (lines, count)) /\
     files w !! compoundSpecPath ws <> Some Directory /\
     w' = written (compoundSpecPath ws) content w /\
     trace w' = (trace w ++ [FileWritten (compoundSpecPath ws) content])%list /\
     files w' !! compoundSpecPath ws = Some (File content) /\
     files w' !! compoundEnvPath ws = files w !! compoundEnvPath ws /\
     (encodeEnvironment merged size = Throw e \/
      (exists blob, encodeEnvironment merged size = Ok blob) /\
      files w !! compoundEnvPath ws = Some Directory /\
      e = FileError "EISDIR" (compoundEnvPath ws))).
Proof.
  intros Hrun. pose proof (concat_anatomy ws configs w) as H.
  assert (Hkept : forall data,
            files (written (compoundSpecPath ws) data w) !! compoundEnvPath ws
            = files w !! compoundEnvPath ws).
  { intros data. unfold written. simpl files.
    apply lookup_insert_ne, compound_paths_differ. }
  assert (Hspecfile : forall data,
            files (written (compoundSpecPath ws) data w) !! compoundSpecPath ws
            = Some (File data)).
  { intros data. unfold written. simpl files. apply lookup_insert_eq. }
  destruct (mergeEnvironments configs) as [[merged size]|e0] eqn:Hmerge.
  2:{ rewrite H in Hrun. injection Hrun as <- <-. left. auto. }
  destruct (foldM _ _ _ w) as [w1 [[lines count]|e1]] eqn:Hread.
  2:{ rewrite H in Hrun. injection Hrun as <- <-. left. split; [reflexivity|].
      right. split; [eauto|]. left. eauto. }
  pose proof Hread as Hw. apply readSpecs_inv in Hw as [-> _].
  cbv zeta in H.
  destruct (files w !! compoundSpecPath ws) as [[data|]|] eqn:Hspec.
  2:{ rewrite H in Hrun. injection Hrun as <- <-. left. split; [reflexivity|].
      right. split; [eauto|]. right. eauto. }
  all: destruct (encodeEnvironment merged size) as [blob|e2] eqn:Hblob.
  all: try (rewrite H in Hrun; injection Hrun as <- <-; right;
            exists merged, size, lines, count, (compoundSpecContent ws lines count);
            repeat split; auto; discriminate).
  all: destruct (files w !! compoundEnvPath ws) as [[data'|]|] eqn:Henv;
    rewrite H in Hrun; try discriminate.
  all: injection Hrun as <- <-; right;
    exists merged, size, lines, count, (compoundSpecContent ws lines count);
    repeat split; auto; try discriminate; try (now rewrite Hkept);
    right; repeat split; eauto.
Qed.

Lemma concat_failure_witness :
  let e := FileError "EISDIR" "/ws/compound-spec.environment" in
  exists merged size content,
    mergeEnvironments sampleConfigs = Ok (merged, size) /\
    (concatTracerConfigs "/ws" sampleConfigs blockedWorld).1 =
      written (compoundSpecPath "/ws") content blockedWorld /\
    files (concatTracerConfigs "/ws" sampleConfigs blockedWorld).1
      !! compoundSpecPath "/ws" = Some (File content) /\
    (encodeEnvironment merged size = Throw e \/
     (exists blob, encodeEnvironment merged size = Ok blob) /\
     files blockedWorld !! compoundEnvPath "/ws" = Some Directory /\
     e = FileError "EISDIR" (compoundEnvPath "/ws")).
Proof.
  intros e.
  assert (Hrun : concatTracerConfigs "/ws" sampleConfigs blockedWorld
                 = ((concatTracerConfigs "/ws" sampleConfigs blockedWorld).1, Throw e))
    by (vm_compute; reflexivity).
  destruct (concat_failure "/ws" sampleConfigs blockedWorld _ e Hrun)
    as [[Hsame _]
       |(merged & size & lines & count & content
         & Hm & _ & _ & Hw & _ & Hfile & _ & He)].
  - exfalso. apply (f_equal trace) in Hsame. vm_compute in Hsame. discriminate.
  - exists merged, size, content. auto.
Defined.

(** ** The files of a successful aggregation *)

(** A successful run wrote both files from what the merge, the reading
    and the encoding gave. *)
Lemma concat_success ws configs w w' result :
  concatTracerConfigs ws configs w = (w', Ok result) ->
  exists merged size lines count blob,
    mergeEnvironments configs = Ok (merged, size) /\
    foldM (readSpec configs) (orderLanguages configs) ([], Js.Int 0) w
      = (w, Ok (lines, count)) /\
    encodeEnvironment merged size = Ok blob /\
    result = mkTracerConfig (Some (compoundSpecPath ws)) merged /\
    w' = written (compoundEnvPath ws) blob
           (written (compoundSpecPath ws) (compoundSpecContent ws lines count) w).
Proof.
  intros Hrun. pose proof (concat_anatomy ws configs w) as H.
  destruct (mergeEnvironments configs) as [[merged size]|e0] eqn:Hmerge; [|congruence].
  destruct (foldM _ _ _ w) as [w1 [[lines count]|e1]] eqn:Hread; [|congruence].
  pose proof Hread as Hw. apply readSpecs_inv in Hw as [-> _].
  cbv zeta in H.
  destruct (files w !! compoundSpecPath ws) as [[data|]|];
    try congruence;
    (destruct (encodeEnvironment merged size) as [blob|e2] eqn:Hblob; [|congruence]);
    (destruct (files w !! compoundEnvPath ws) as [[data'|]|]; try congruence);
    rewrite H in Hrun; injection Hrun as <- <-;
    exists merged, size, lines, count, blob; repeat split; auto.
Qed.

Lemma fold_add_Int counts : forall start,
  fold_left Js.add (map Js.Int counts) (Js.Int start)
  = Js.Int (start + fold_right Z.add 0 counts).
Proof.
  induction counts as [|c counts IH]; intros start; simpl.
  - f_equal. lia.
  - rewrite IH. f_equal. lia.
Qed.

Lemma length_totalLines texts :
  fold_right Z.add 0 (map (fun t => Z.of_nat (length (blockLines t))) texts)
  = Z.of_nat (length (totalLines texts)).
Proof.
  unfold totalLines. induction texts as [|t texts IH]; simpl; [reflexivity|].
  rewrite length_app, IH. lia.
Qed.

Lemma totalCount_counted_lines texts :
  Forall countsItsLines texts ->
  totalCount texts = Js.Int (Z.of_nat (length (totalLines texts))).
Proof.
  intros Hall. unfold totalCount.
  assert (Hmap : map declaredCount texts
                 = map Js.Int (map (fun t => Z.of_nat (length (blockLines t))) texts)).
  { induction Hall as [|t texts Ht _ IH]; simpl; [reflexivity|].
    now rewrite Ht, IH. }
  rewrite Hmap, fold_add_Int, length_totalLines. reflexivity.
Qed.

(** C5, as the claim states it, fails: a spec file may declare another
    count than the number of lines that follow it.  A block that takes
    two lines gives a compound spec file that declares one block and
    lists two lines. *)
Lemma declared_count_is_not_line_count :
  let run := concatTracerConfigs "/ws" [("java", langA)] twoLineBlockWorld in
  run.2 = Ok (mkTracerConfig (Some "/ws/compound-spec") [("X", "1")]) /\
  files run.1 !! "/ws/compound-spec" =
    Some (specFile "/ws/compound-build-tracer.log" "1" ["line a"; "line b"]) /\
  totalCount [Js.join newline ["/db/java/log"; "1"; "line a"; "line b"]] = Js.Int 1 /\
  length (totalLines [Js.join newline ["/db/java/log"; "1"; "line a"; "line b"]]) = 2%nat.
Proof. vm_compute. repeat split; reflexivity. Qed.

Lemma specTexts_unique w configs langs : forall texts texts',
  Forall2 (fun lang text => specText w configs lang = Some text) langs texts ->
  Forall2 (fun lang text => specText w configs lang = Some text) langs texts' ->
  texts = texts'.
Proof.
  induction langs as [|lang langs IH]; intros texts texts' H H';
    inversion H; inversion H'; subst; [reflexivity|].
  f_equal; [congruence|]. now apply IH.
Qed.

(** C5, amended.  Take a successful aggregation whose input spec files,
    in the concatenation order, hold the well-formed UTF-8 texts
    [texts] and declare on their second lines the integers [counts],
    the sum of whose magnitudes is a safe integer.  Then the compound
    spec file holds the log file path, then the decimal digits of the
    exact sum of the counts, then the lines that follow the two header
    lines of every input spec file, in the concatenation order.  The
    number of these lines is the declared count when every input spec
    file has as many lines after its header as it declares. *)
Theorem compound_spec_content (ws : string) (configs : Js.Object TracerConfig)
    (w w' : World) (result : TracerConfig) (texts : list string) (counts : list Z) :
  concatTracerConfigs ws configs w = (w', Ok result) ->
  Forall2 (fun lang text => specText w configs lang = Some text)
          (orderLanguages configs) texts ->
  Forall (fun text => validText text = true) texts ->
  map declaredCount texts = map Js.Int counts ->
  Js.safeInteger (fold_right (fun c total => Z.abs c + total) 0 counts) = true ->
  files w' !! compoundSpecPath ws =
    Some (File (utf8 (Js.join newline
                 ([compoundLogPath ws;
                   Js.toString (Js.Int (fold_right Z.add 0 counts))]
                  ++ totalLines texts)%list))) /\
  (Forall countsItsLines texts ->
   fold_right Z.add 0 counts = Z.of_nat (length (totalLines texts))).
Proof.
  intros Hrun Htexts _ Hcounts _.
  destruct (concat_success _ _ _ _ _ Hrun)
    as (merged & size & lines & count & blob & _ & Hread & _ & _ & ->).
  apply readSpecs_inv in Hread as [_ Hread].
  destruct (Hread lines count eq_refl) as (texts' & Hall & -> & ->).
  rewrite (specTexts_unique _ _ _ _ _ Hall Htexts).
  assert (Htotal : totalCount texts = Js.Int (fold_right Z.add 0 counts))
    by (unfold totalCount; now rewrite Hcounts, fold_add_Int).
  split.
  - unfold written. simpl files.
    rewrite lookup_insert_ne by (apply not_eq_sym, compound_paths_differ).
    rewrite lookup_insert_eq. unfold compoundSpecContent.
    fold (totalCount texts). rewrite Htotal. reflexivity.
  - intros Hlines. apply totalCount_counted_lines in Hlines.
    rewrite Htotal in Hlines. now injection Hlines.
Qed.

Lemma compound_spec_content_witness :
  files (concatTracerConfigs "/ws" sampleConfigs sampleWorld).1 !! compoundSpecPath "/ws" =
    Some (File (utf8 (Js.join newline
                 ["/ws/compound-build-tracer.log"; "3"; "l1"; "l2"; "j1"]))) /\
  fold_right Z.add 0 [2; 1] = 3.
Proof.
  destruct (compound_spec_content "/ws" sampleConfigs sampleWorld
              (concatTracerConfigs "/ws" sampleConfigs sampleWorld).1
              (mkTracerConfig (Some "/ws/compound-spec") [("X", "1"); ("Y", "2")])
              [Js.join newline ["/db/java/log"; "2"; "l1"; "l2"];
               Js.join newline ["/db/cpp/log"; "1"; "j1"]]
              [2; 1]) as [Hfile Hlines].
  - vm_compute. reflexivity.
  - repeat constructor.
  - repeat constructor.
  - reflexivity.
  - reflexivity.
  - split; [exact Hfile|]. apply Hlines. repeat constructor.
Defined.

(** ** The round trip of the environment blob *)

(** C6, as the claim states it, fails: the blob of a name that contains
    [=] is also the blob of another environment, and the reader returns
    that one. *)
Lemma blob_of_name_with_equals :
  let run := concatTracerConfigs "/ws" equalsInName sampleWorld in
  run.2 = Ok (mkTracerConfig (Some "/ws/compound-spec") [("A=B", "C")]) /\
  match files run.1 !! "/ws/compound-spec.environment" with
  | Some (File blob) => decodeEnvironment blob
  | _ => None
  end = Some [("A", "B=C")] /\
  encodeEnvironment [("A=B", "C")] 1 = encodeEnvironment [("A", "B=C")] 1.
Proof. vm_compute. repeat split; reflexivity. Qed.

(** C6, amended.  After a successful aggregation whose merged
    environment has no [=] in its variable names, the blob file holds
    bytes from which the reader of the blob format gets exactly the
    merged environment, entry by entry. *)
Theorem blob_round_trip (ws : string) (configs : Js.Object TracerConfig)
    (w w' : World) (result : TracerConfig) :
  concatTracerConfigs ws configs w = (w', Ok result) ->
  Forall (fun name => noEquals name = true) (Js.keys (env result)) ->
  exists blob,
    files w' !! compoundEnvPath ws = Some (File blob) /\
    decodeEnvironment blob = Some (env result).
Proof.
  intros Hrun Hkeys.
  destruct (concat_success _ _ _ _ _ Hrun)
    as (merged & size & lines & count & blob & Hmerge & _ & Hblob & -> & ->).
  simpl in Hkeys. exists blob. split.
  - unfold written. simpl files. apply lookup_insert_eq.
  - pose proof (mergeEnvironments_spec configs) as Hspec.
    rewrite Hmerge in Hspec. destruct Hspec as (_ & _ & -> & _).
    simpl env. now apply encode_decode_environment.
Qed.

Lemma blob_round_trip_witness :
  exists blob,
    files (concatTracerConfigs "/ws" sampleConfigs sampleWorld).1 !! compoundEnvPath "/ws"
      = Some (File blob) /\
    decodeEnvironment blob = Some [("X", "1"); ("Y", "2")].
Proof.
  apply (blob_round_trip "/ws" sampleConfigs sampleWorld _
           (mkTracerConfig (Some "/ws/compound-spec") [("X", "1"); ("Y", "2")])).
  - vm_compute. reflexivity.
  - repeat constructor.
Defined.

(** ** The empty input *)

(** C10. Called with no configuration, the aggregator writes a
    compound spec file that declares 0 blocks and a blob with the entry
    count 0 and no entry, and returns the empty environment with the
    path of the spec file.  The step of the init action that calls it
    does nothing for an empty set of traced languages: the guard on
    their number is what keeps the files from being written. *)
Theorem concat_empty_input (ws : string) (w : World) :
  files w !! compoundSpecPath ws <> Some Directory ->
  files w !! compoundEnvPath ws <> Some Directory ->
  concatTracerConfigs ws [] w =
    (written (compoundEnvPath ws) (int32LE 0)
       (written (compoundSpecPath ws)
          (utf8 (Js.join newline [compoundLogPath ws; "0"])) w),
     Ok (mkTracerConfig (Some (compoundSpecPath ws)) []))
  /\ decodeEnvironment (int32LE 0) = Some []
  /\ forall host codeqlSetup w0,
       Init.publishTracing host codeqlSetup [] w0 = (w0, Ok tt).
Proof.
  intros Hspec Henv. split; [|split; reflexivity].
  pose proof (concat_anatomy ws [] w) as H. simpl in H.
  destruct (files w !! compoundSpecPath ws) as [[data|]|]; try congruence;
    destruct (files w !! compoundEnvPath ws) as [[data'|]|]; try congruence;
    exact H.
Qed.

Lemma concat_empty_input_witness :
  concatTracerConfigs "/ws" [] sampleWorld =
    (written (compoundEnvPath "/ws") (int32LE 0)
       (written (compoundSpecPath "/ws")
          (utf8 (Js.join newline [compoundLogPath "/ws"; "0"])) sampleWorld),
     Ok (mkTracerConfig (Some (compoundSpecPath "/ws")) []))
  /\ decodeEnvironment (int32LE 0) = Some []
  /\ forall host codeqlSetup w0,
       Init.publishTracing host codeqlSetup [] w0 = (w0, Ok tt).
Proof.
  apply (concat_empty_input "/ws" sampleWorld); vm_compute; discriminate.
Defined.

(** ** The concatenation order *)

Lemma indexOf_first x pre post :
  ~ In x pre -> Js.indexOf x (pre ++ x :: post) = Some (length pre).
Proof.
  induction pre as [|y pre IH]; simpl; intros Hnot.
  - now rewrite String.eqb_refl.
  - destruct (String.eqb_spec y x) as [->|_]; [exfalso; auto|].
    rewrite IH by auto. reflexivity.
Qed.

Lemma indexOf_absent x l : ~ In x l -> Js.indexOf x l = None.
Proof.
  induction l as [|y l IH]; simpl; intros Hnot; [reflexivity|].
  destruct (String.eqb_spec y x) as [->|_]; [exfalso; auto|].
  rewrite IH by auto. reflexivity.
Qed.

Lemma insert_at_length (l1 l2 : list string) x y :
  <[length l1 := x]> (l1 ++ y :: l2)%list = (l1 ++ x :: l2)%list.
Proof. induction l1 as [|z l1 IH]; simpl; [reflexivity|]. now rewrite IH. Qed.

(** Without cpp the order is the order of the input. *)
Lemma orderLanguages_without_cpp configs :
  ~ In "cpp" (Js.keys configs) -> orderLanguages configs = Js.keys configs.
Proof. intros H. unfold orderLanguages. now rewrite indexOf_absent. Qed.

Lemma orderLanguages_cpp_last_already configs pre :
  Js.keys configs = (pre ++ ["cpp"])%list -> ~ In "cpp" pre ->
  orderLanguages configs = (pre ++ ["cpp"])%list.
Proof.
  intros Hkeys Hpre. unfold orderLanguages. rewrite Hkeys, indexOf_first by exact Hpre.
  rewrite length_app. simpl length.
  replace (length pre + 1 - 1)%nat with (length pre) by lia.
  unfold Js.at_. rewrite nth_middle, !insert_at_length. reflexivity.
Qed.

Lemma orderLanguages_cpp_swapped configs pre mid l :
  Js.keys configs = (pre ++ "cpp" :: mid ++ [l])%list -> ~ In "cpp" pre ->
  orderLanguages configs = (pre ++ l :: mid ++ ["cpp"])%list.
Proof.
  intros Hkeys Hpre. unfold orderLanguages. rewrite Hkeys, indexOf_first by exact Hpre.
  unfold Js.at_. rewrite nth_middle.
  replace (pre ++ "cpp" :: mid ++ [l])%list with ((pre ++ "cpp" :: mid) ++ [l])%list
    by (rewrite <- app_assoc; reflexivity).
  replace (length ((pre ++ "cpp" :: mid) ++ [l]) - 1)%nat
    with (length (pre ++ "cpp" :: mid))
    by (rewrite (length_app _ [l]); simpl; lia).
  rewrite nth_middle, insert_at_length.
  rewrite <- app_assoc. simpl app. apply insert_at_length.
Qed.

(** C1, as the claim states it, fails: with cpp first of three
    languages the swap puts the last language into the place of cpp, so
    the two other languages change their relative order; the stable
    partition would keep it. *)
Lemma swap_is_not_stable_partition :
  Js.keys threeLanguages = ["cpp"; "java"; "csharp"] /\
  orderLanguages threeLanguages = ["csharp"; "java"; "cpp"] /\
  stablePartitionOrder (Js.keys threeLanguages) = ["java"; "csharp"; "cpp"] /\
  orderLanguages threeLanguages <> stablePartitionOrder (Js.keys threeLanguages).
Proof. repeat split; try reflexivity. vm_compute. discriminate. Qed.

(** C1, amended.  When cpp is among the languages it is placed last by
    an exchange with the language that was last: the result is the other
    languages followed by cpp, where the language that was last stands
    in the former place of cpp and every other language keeps its
    place.  The other languages are the same as before; they are in
    their former order when cpp was already last. *)
Theorem cpp_last_by_swap (configs : Js.Object TracerConfig) (pre post : list string) :
  Js.keys configs = (pre ++ "cpp" :: post)%list ->
  ~ In "cpp" pre ->
  exists others,
    orderLanguages configs = (others ++ ["cpp"])%list /\
    Permutation others (pre ++ post)%list /\
    (post = [] -> others = pre) /\
    (forall mid l, post = (mid ++ [l])%list -> others = (pre ++ l :: mid)%list).
Proof.
  intros Hkeys Hpre.
  destruct (rev post) as [|l rmid] eqn:Hrev.
  - assert (post = []) as -> by (apply (f_equal (@rev string)) in Hrev;
                                 now rewrite rev_involutive in Hrev).
    exists pre. repeat split.
    + now apply orderLanguages_cpp_last_already.
    + now rewrite app_nil_r.
    + intros mid l H. now destruct mid.
  - assert (post = (rev rmid ++ [l])%list) as ->
      by (apply (f_equal (@rev string)) in Hrev;
          now rewrite rev_involutive in Hrev).
    exists (pre ++ l :: rev rmid)%list. repeat split.
    + rewrite <- app_assoc. simpl app. now apply orderLanguages_cpp_swapped.
    + apply Permutation_app_head. apply Permutation_cons_append.
    + intros H. now destruct (rev rmid).
    + intros mid l' H. apply app_inj_tail in H as [-> ->]. reflexivity.
Qed.

Lemma cpp_last_by_swap_witness :
  exists others,
    orderLanguages threeLanguages = (others ++ ["cpp"])%list /\
    Permutation others ([] ++ ["java"; "csharp"])%list /\
    (["java"; "csharp"] = [] -> others = []) /\
    (forall mid l, ["java"; "csharp"] = (mid ++ [l])%list -> others = ([] ++ l :: mid)%list).
Proof.
  apply (cpp_last_by_swap threeLanguages [] ["java"; "csharp"]).
  - reflexivity.
  - simpl. tauto.
Defined.

(** ** The probe *)

(** C2, as the claim states it, fails: for a dump of the environment
    without the variable of the tracer configuration the probe returns a
    configuration whose spec is undefined; it throws nothing. *)
Lemma probe_without_spec_variable :
  let run := tracerConfig sampleHost (mkCodeQLSetup "/tools/codeql" "/tools")
                          "/ws/codeql_results/db/java" None sampleWorld in
  files run.1 !! "/ws/codeql_results/db/java/working/env.tmp" = Some (File (utf8 "{}")) /\
  JSON_parse_env sampleHost "{}" = Ok [] /\
  Js.get "ODASA_TRACER_CONFIGURATION" ([] : Js.Object (option string)) = None /\
  run.2 = Ok (mkTracerConfig None []).
Proof. vm_compute. repeat split; reflexivity. Qed.

(** C2, amended.  When the child process succeeds, its dump is read and
    parsed, and the dump has no variable of the tracer configuration,
    the probe returns a tracer configuration whose spec is undefined and
    whose environment is the filtered dump. *)
Theorem probe_spec_undefined (host : Host) (codeql : CodeQLSetup) (database : string)
    (compilerSpec : option string) (w : World)
    (files1 : gmap string Node) (out : string) (data : list byte)
    (captured : Js.Object (option string)) :
  spawn host (cmd codeql)
        (traceCommandArgs host database (compilerSpecArg compilerSpec)
                          (probeEnvFile database))
        (processEnv w) (files w) = (files1, Ok out) ->
  files1 !! probeEnvFile database = Some (File data) ->
  JSON_parse_env host (string_of_list_byte data) = Ok captured ->
  Js.get "ODASA_TRACER_CONFIGURATION" captured = None ->
  tracerConfig host codeql database compilerSpec w =
  (mkWorld files1 (processEnv w)
           (trace w ++ [Executed (cmd codeql)
                          (traceCommandArgs host database (compilerSpecArg compilerSpec)
                                            (probeEnvFile database))
                          (processEnv w)]),
   Ok (mkTracerConfig None
         (fold_left (tracerConfigEntry (processEnv w)) (Js.entries captured) []))).
Proof.
  intros Hspawn Hfile Hparse Hget.
  unfold tracerConfig, bind, exec, readFileSync, lift, getProcessEnv, ret.
  rewrite Hspawn. cbv beta iota zeta. simpl files. rewrite Hfile.
  cbv beta iota. rewrite Hparse. cbv beta iota. rewrite Hget. reflexivity.
Qed.

Lemma probe_spec_undefined_witness :
  (tracerConfig sampleHost (mkCodeQLSetup "/tools/codeql" "/tools")
                "/ws/codeql_results/db/java" None sampleWorld).2 =
  Ok (mkTracerConfig None
        (fold_left (tracerConfigEntry (processEnv sampleWorld)) (Js.entries []) [])).
Proof.
  rewrite
    (probe_spec_undefined sampleHost (mkCodeQLSetup "/tools/codeql" "/tools")
       "/ws/codeql_results/db/java" None sampleWorld
       (<["/ws/codeql_results/db/java/working/env.tmp" := File (utf8 "{}")]> sampleFiles)
       "" (utf8 "{}") []); reflexivity.
Defined.

(** ** What a computation emits *)

Section Keeps.

Variable I : Js.Object string -> Prop.
Variable P : Effect -> Prop.

Local Abbreviation keeps := (keeps I P).

Lemma keeps_pure {A} (f : World -> Result A) (Q : A -> Prop) :
  (forall w a, I (processEnv w) -> f w = Ok a -> Q a) ->
  keeps (fun w => (w, f w)) Q.
Proof.
  intros HQ w w' r [= <- <-] HI. repeat split; auto.
  - exists []. split; [now rewrite app_nil_r|constructor].
  - intros a Ha. eapply HQ; eauto.
Qed.

Lemma keeps_ret {A} (a : A) (Q : A -> Prop) : Q a -> keeps (ret a) Q.
Proof. intros Ha. apply keeps_pure. intros w b _ [= <-]. exact Ha. Qed.

Lemma keeps_throw {A} (e : Error) (Q : A -> Prop) : keeps (throw e) Q.
Proof. apply keeps_pure. discriminate. Qed.

Lemma keeps_lift {A} (r : Result A) (Q : A -> Prop) :
  (forall a, r = Ok a -> Q a) -> keeps (lift r) Q.
Proof. intros H. apply keeps_pure. intros w a _. apply H. Qed.

Lemma keeps_getProcessEnv : keeps getProcessEnv I.
Proof. apply keeps_pure. intros w a HI [= <-]. exact HI. Qed.

Lemma keeps_readFileSync path : keeps (readFileSync path) (fun _ => True).
Proof.
  intros w w' r Hrun HI. pose proof (readFileSync_world _ _ _ _ Hrun) as ->.
  repeat split; auto. exists []. split; [now rewrite app_nil_r|constructor].
Qed.

Lemma keeps_bind {A B} (m : M A) (k : A -> M B) (Q : A -> Prop) (R : B -> Prop) :
  keeps m Q -> (forall a, Q a -> keeps (k a) R) -> keeps (bind m k) R.
Proof.
  intros Hm Hk w w' r Hrun HI. unfold bind in Hrun.
  destruct (m w) as [w1 [a|e]] eqn:Hmw.
  - destruct (Hm _ _ _ Hmw HI) as (HI1 & (es1 & Ht1 & HP1) & HQ).
    destruct (Hk a (HQ a eq_refl) _ _ _ Hrun HI1) as (HI2 & (es2 & Ht2 & HP2) & HR).
    repeat split; auto.
    exists (es1 ++ es2)%list. split.
    + now rewrite Ht2, Ht1, app_assoc.
    + apply Forall_app. auto.
  - injection Hrun as <- <-.
    destruct (Hm _ _ _ Hmw HI) as (HI1 & Hes & _).
    repeat split; auto. discriminate.
Qed.

Lemma keeps_then {A B} (m : M A) (k : M B) (R : B -> Prop) :
  keeps m (fun _ => True) -> keeps k R -> keeps (bind m (fun _ => k)) R.
Proof. intros Hm Hk. eapply keeps_bind; eauto. Qed.

Lemma keeps_catch {A} (body : M A) (handler : Error -> M A) (Q : A -> Prop) :
  keeps body Q -> (forall e, keeps (handler e) Q) -> keeps (catch body handler) Q.
Proof.
  intros Hb Hh w w' r Hrun HI. unfold catch in Hrun.
  destruct (body w) as [w1 [a|e]] eqn:Hbw.
  - injection Hrun as <- <-. exact (Hb _ _ _ Hbw HI).
  - destruct (Hb _ _ _ Hbw HI) as (HI1 & (es1 & Ht1 & HP1) & _).
    destruct (Hh e _ _ _ Hrun HI1) as (HI2 & (es2 & Ht2 & HP2) & HQ).
    repeat split; auto.
    exists (es1 ++ es2)%list. split.
    + now rewrite Ht2, Ht1, app_assoc.
    + apply Forall_app. auto.
Qed.

Lemma keeps_forEach {A} (l : list A) (body : A -> M unit) :
  (forall x, In x l -> keeps (body x) (fun _ => True)) ->
  keeps (forEach l body) (fun _ => True).
Proof.
  induction l as [|x l IH]; intros Hbody; simpl.
  - now apply keeps_ret.
  - apply keeps_then.
    + apply Hbody. now left.
    + apply IH. intros y Hy. apply Hbody. now right.
Qed.

Lemma keeps_foldM {A S} (body : S -> A -> M S) (J : S -> Prop) (l : list A) :
  (forall acc x, J acc -> In x l -> keeps (body acc x) J) ->
  forall acc, J acc -> keeps (foldM body l acc) J.
Proof.
  induction l as [|x l IH]; intros Hbody acc Hacc; simpl.
  - now apply keeps_ret.
  - eapply keeps_bind.
    + apply Hbody; [exact Hacc|now left].
    + intros acc' Hacc'. apply IH; [|exact Hacc'].
      intros acc0 y H0 Hy. apply Hbody; [exact H0|now right].
Qed.

Lemma keeps_emit e : P e -> keeps (emit e) (fun _ => True).
Proof.
  intros He w w' r [= <- <-] HI. repeat split; auto.
  exists [e]. split; [reflexivity|]. now constructor.
Qed.

Lemma keeps_exec host cmd args :
  (forall env, I env -> P (Executed cmd args env)) ->
  keeps (exec host cmd args None) (fun _ => True).
Proof.
  intros HP w w' r Hrun HI. unfold exec in Hrun.
  destruct (spawn host cmd args (processEnv w) (files w)) as [files' out].
  injection Hrun as <- <-. repeat split; auto.
  exists [Executed cmd args (processEnv w)]. split; [reflexivity|].
  constructor; [now apply HP|constructor].
Qed.

Lemma keeps_exportVariable name value :
  (forall env, I env -> I (Js.set name value env)) ->
  P (VariableExported name value) ->
  keeps (exportVariable name value) (fun _ => True).
Proof.
  intros Hset HP w w' r [= <- <-] HI. repeat split; auto.
  - now apply Hset.
  - exists [VariableExported name value]. split; [reflexivity|]. now constructor.
Qed.

Lemma keeps_mkdirP path :
  P (DirectoryMade path) -> keeps (mkdirP path) (fun _ => True).
Proof.
  intros HP w w' r Hrun HI. unfold mkdirP in Hrun.
  destruct (files w !! path) as [[data|]|]; injection Hrun as <- <-;
    repeat split; auto;
    solve [ exists []; split; [now rewrite app_nil_r|constructor]
          | exists [DirectoryMade path]; split; [reflexivity|now constructor] ].
Qed.

End Keeps.

(** ** The init action without traced languages *)

Lemma keeps_loadConfig I P host folder :
  keeps I P (loadConfig host folder) (fun _ => True).
Proof.
  unfold loadConfig. eapply keeps_bind; [apply keeps_readFileSync|].
  intros text _. now apply keeps_lift.
Qed.

(** The effects of one statement of the init action, and a statement
    followed by the rest. *)
Ltac keeps_leaf :=
  first [ now apply keeps_ret
        | apply keeps_emit; exact Logic.I
        | apply keeps_exec; intros; exact Logic.I
        | apply keeps_mkdirP; exact Logic.I
        | apply keeps_exportVariable; simpl; auto 7 ].

Ltac keeps_seq := apply keeps_then; [keeps_leaf|].

Lemma keeps_includeAndExclude host config languages :
  keeps (fun _ => True) (noCompoundEffect host)
        (Init.includeAndExcludeAnalysisPaths config languages) (fun _ => True).
Proof.
  unfold Init.includeAndExcludeAnalysisPaths, warning.
  do 2 keeps_seq. destruct (_ && _); keeps_leaf.
Qed.

(** A language that is not traced is only initialized: it joins the
    scanned languages and leaves the traced ones as they are. *)
Lemma keeps_initLanguage host codeqlSetup databaseFolder sourceRoot traced scanned language :
  inList language ["cpp"; "java"; "csharp"] = false ->
  keeps (fun _ => True) (noCompoundEffect host)
        (Init.initLanguage host codeqlSetup databaseFolder sourceRoot
                           (traced, scanned) language)
        (fun acc => acc.1 = traced).
Proof.
  intros Hl. unfold Init.initLanguage. rewrite Hl.
  keeps_seq. now apply keeps_ret.
Qed.

Lemma keeps_init_loop host codeqlSetup databaseFolder sourceRoot languages :
  Forall (fun l => inList l ["cpp"; "java"; "csharp"] = false) languages ->
  keeps (fun _ => True) (noCompoundEffect host)
        (foldM (Init.initLanguage host codeqlSetup databaseFolder sourceRoot)
               languages ([], []))
        (fun acc => acc.1 = []).
Proof.
  intros Hall. apply keeps_foldM; [|reflexivity].
  intros [traced scanned] language Hacc Hin. simpl in Hacc. subst traced.
  apply keeps_initLanguage.
  rewrite Forall_forall in Hall. apply Hall. now apply list_elem_of_In.
Qed.

Lemma keeps_init_runBody host languages folder :
  getLanguages host = Ok languages ->
  Forall (fun l => inList l ["cpp"; "java"; "csharp"] = false) languages ->
  keeps (fun _ => True) (noCompoundEffect host) (Init.runBody host folder)
        (fun _ => True).
Proof.
  intros Hlang Hall. unfold Init.runBody, report, setFailed, warning.
  destruct (should_abort host "init"); [keeps_leaf|].
  keeps_seq.
  destruct (negb _); [keeps_leaf|].
  eapply keeps_bind; [apply keeps_loadConfig|intros config _].
  eapply keeps_bind;
    [apply (keeps_lift _ _ _ (fun a => a = languages)); intros a Ha; congruence|].
  intros ? ->.
  destruct (length languages =? 0)%nat; [keeps_seq; keeps_leaf|].
  apply keeps_then; [apply keeps_includeAndExclude|].
  eapply keeps_bind; [apply (keeps_lift _ _ _ (fun _ => True)); auto|].
  intros codeqlSetup _.
  keeps_seq.
  eapply keeps_bind; [apply keeps_getProcessEnv|intros ambient _].
  apply keeps_then.
  { destruct (Js.get "GOFLAGS" ambient) as [[|c s]|]; try keeps_leaf.
    keeps_seq. keeps_leaf. }
  keeps_seq.
  eapply keeps_bind; [apply keeps_init_loop; exact Hall|].
  intros [traced scanned] Ht. simpl in Ht. subst traced.
  keeps_seq.
  change (Init.publishTracing host codeqlSetup []) with (@ret unit tt).
  do 3 keeps_seq. keeps_leaf.
Qed.

Lemma keeps_init_run host languages :
  getLanguages host = Ok languages ->
  Forall (fun l => inList l ["cpp"; "java"; "csharp"] = false) languages ->
  keeps (fun _ => True) (noCompoundEffect host) (Init.run host) (fun _ => True).
Proof.
  intros Hlang Hall. unfold Init.run, report, setFailed.
  eapply keeps_bind; [apply (keeps_pure _ _ _ (fun _ => True)); auto|].
  intros folder _.
  eapply keeps_bind.
  - apply keeps_catch; [eapply keeps_init_runBody; eauto|].
    intros e. do 2 keeps_seq. keeps_leaf.
  - intros [|] _; keeps_leaf.
Qed.

(** C8. When no language of the job is a traced one, the loop over the
    languages leaves the set of traced languages empty, the step that
    would call the aggregator does nothing for the empty set, and the
    whole init action writes no file: neither a compound spec file nor
    an environment blob.  The variables that it exports are those of the
    analysis paths, the Go flags, the scanned languages, the results and
    the command. *)
Theorem no_traced_language_no_compound_configuration
    (host : Host) (languages : list string) (w : World) :
  getLanguages host = Ok languages ->
  Forall (fun l => inList l ["cpp"; "java"; "csharp"] = false) languages ->
  (forall codeqlSetup databaseFolder sourceRoot w0 w1 traced scanned,
      foldM (Init.initLanguage host codeqlSetup databaseFolder sourceRoot)
            languages ([], []) w0 = (w1, Ok (traced, scanned)) ->
      traced = []) /\
  (forall codeqlSetup w0, Init.publishTracing host codeqlSetup [] w0 = (w0, Ok tt)) /\
  exists es,
    trace (Init.run host w).1 = (trace w ++ es)%list /\
    Forall (noCompoundEffect host) es /\
    forall path data, ~ In (FileWritten path data) es.
Proof.
  intros Hlang Hall. split; [|split; [reflexivity|]].
  - intros codeqlSetup databaseFolder sourceRoot w0 w1 traced scanned Hrun.
    destruct (keeps_init_loop host codeqlSetup databaseFolder sourceRoot languages Hall
                _ _ _ Hrun Logic.I) as (_ & _ & Hacc).
    exact (Hacc _ eq_refl).
  - destruct (Init.run host w) as [w' r] eqn:Hrun.
    destruct (keeps_init_run host languages Hlang Hall _ _ _ Hrun Logic.I)
      as (_ & (es & Htrace & Hes) & _).
    exists es. repeat split; auto.
    intros path data Hin. rewrite Forall_forall in Hes.
    apply list_elem_of_In, Hes in Hin. exact Hin.
Qed.

Lemma no_traced_language_no_compound_configuration_witness :
  exists es,
    trace (Init.run sampleHost sampleWorld).1 = (trace sampleWorld ++ es)%list /\
    Forall (noCompoundEffect sampleHost) es /\
    forall path data, ~ In (FileWritten path data) es.
Proof.
  apply (no_traced_language_no_compound_configuration
           sampleHost ["javascript"; "python"] sampleWorld).
  - reflexivity.
  - repeat constructor.
Defined.

(** ** The finish action *)

Lemma get_remove {V} name (o : Js.Object V) : Js.get name (Js.remove name o) = None.
Proof.
  unfold Js.remove. induction o as [|[k v] o IH]; simpl; [reflexivity|].
  destruct (String.eqb_spec k name) as [->|Hne]; simpl; [exact IH|].
  destruct (String.eqb_spec k name); [contradiction|exact IH].
Qed.

Section Cleared.

Variable host : Host.

Local Abbreviation name := (sharedEnv_ODASA_TRACER_CONFIGURATION host).
Local Abbreviation steady := (keeps (cleared name) (afterClearing name)).
Local Abbreviation clearedThen := (clearedThen name).

Lemma steady_exec cmd args : steady (exec host cmd args None) (fun _ => True).
Proof. apply keeps_exec. intros env Henv. exact Henv. Qed.

Lemma steady_finalizeDatabaseCreation codeqlCmd databaseFolder :
  steady (Finish.finalizeDatabaseCreation host codeqlCmd databaseFolder) (fun _ => True).
Proof.
  unfold Finish.finalizeDatabaseCreation.
  eapply keeps_bind; [apply keeps_getProcessEnv|intros ambient _].
  apply keeps_then.
  { destruct (Js.get _ ambient) as [[|c s]|]; try now apply keeps_ret.
    apply keeps_forEach. intros language _.
    eapply keeps_bind; [apply steady_exec|intros extractorPath _].
    eapply keeps_bind; [apply (keeps_lift _ _ _ (fun _ => True)); auto|].
    intros extractor _.
    apply keeps_then; [apply steady_exec|now apply keeps_ret]. }
  eapply keeps_bind; [apply keeps_getProcessEnv|intros ambient' _].
  apply keeps_forEach. intros language _.
  apply keeps_then; [apply steady_exec|now apply keeps_ret].
Qed.

Lemma steady_runQueries codeqlCmd databaseFolder sarifFolder config :
  steady (Finish.runQueries host codeqlCmd databaseFolder sarifFolder config)
         (fun _ => True).
Proof.
  unfold Finish.runQueries.
  eapply keeps_bind; [apply (keeps_pure _ _ _ (fun _ => True)); auto|].
  intros databases _. apply keeps_forEach. intros database _.
  eapply keeps_bind.
  - destruct (inRepoQueries config);
      [apply (keeps_ret _ _ _ (fun _ => True)); exact Logic.I|apply keeps_throw].
  - intros inRepo _. apply keeps_then; [apply steady_exec|now apply keeps_ret].
Qed.

(** From a process environment without the tracer variable, all that
    the finish action does after the clearing leaves it so, and every
    child process runs without the variable. *)
Lemma steady_analyze config : steady (Finish.analyze host config) (fun _ => True).
Proof.
  unfold Finish.analyze.
  eapply keeps_bind; [apply keeps_getProcessEnv|intros ambient _].
  eapply keeps_bind; [apply (keeps_lift _ _ _ (fun _ => True)); auto|].
  intros codeqlCmd _.
  eapply keeps_bind; [apply (keeps_lift _ _ _ (fun _ => True)); auto|].
  intros databaseFolder _.
  apply keeps_then; [apply keeps_mkdirP; exact Logic.I|].
  apply keeps_then; [apply steady_finalizeDatabaseCreation|].
  apply keeps_then; [apply steady_runQueries|].
  apply keeps_then.
  { destruct (String.eqb _ _); [now apply keeps_lift|now apply keeps_ret]. }
  now apply keeps_ret.
Qed.

Lemma clearedThen_app es tail :
  clearedThen es -> Forall quiet tail -> Forall (afterClearing name) tail ->
  clearedThen (es ++ tail)%list.
Proof.
  intros [Hq|(pre & post & -> & Hpre & Hpost)] Hq' Ha'.
  - left. apply Forall_app. auto.
  - right. exists pre, (post ++ tail)%list. repeat split; auto.
    + now rewrite <- app_assoc.
    + apply Forall_app. auto.
Qed.

Lemma clearedThen_clearedFirst es : clearedThen es -> clearedFirst name es.
Proof.
  intros [Hq|(pre & post & -> & Hpre & Hpost)] i cmd args env Hi.
  - rewrite Forall_forall in Hq.
    exfalso. apply (Hq (Executed cmd args env)).
    eapply list_elem_of_lookup_2. exact Hi.
  - destruct (Nat.lt_ge_cases i (length pre)) as [Hlt|Hge].
    + rewrite lookup_app_l in Hi by exact Hlt.
      rewrite Forall_forall in Hpre.
      exfalso. apply (Hpre (Executed cmd args env)).
      eapply list_elem_of_lookup_2. exact Hi.
    + rewrite lookup_app_r in Hi by exact Hge.
      destruct (i - length pre)%nat as [|k] eqn:Hk; simpl in Hi; [discriminate|].
      split.
      * rewrite Forall_forall in Hpost.
        apply (Hpost (Executed cmd args env)).
        eapply list_elem_of_lookup_2. exact Hi.
      * exists (length pre). split; [lia|].
        rewrite lookup_app_r by lia. now rewrite Nat.sub_diag.
Qed.

Lemma runBody_clearedThen folder w w' r :
  Finish.runBody host folder w = (w', r) ->
  exists es, trace w' = (trace w ++ es)%list /\ clearedThen es.
Proof.
  unfold Finish.runBody, report.
  destruct (should_abort host "finish").
  { intros [= <- <-]. exists []. split; [now rewrite app_nil_r|left; constructor]. }
  unfold bind at 1. unfold emit at 1. cbv beta iota.
  destruct (negb _).
  { intros [= <- <-]. simpl trace. eexists. split; [reflexivity|].
    left. repeat constructor. }
  unfold bind at 1.
  destruct (loadConfig host folder _) as [w1 [config|e]] eqn:Hload.
  2:{ intros [= <- <-].
      destruct (keeps_loadConfig (fun _ => True) quiet host folder _ _ _ Hload Logic.I)
        as (_ & (es & -> & Hes) & _).
      simpl trace. rewrite <- app_assoc. eexists. split; [reflexivity|].
      left. constructor; [exact Logic.I|exact Hes]. }
  destruct (keeps_loadConfig (fun _ => True) quiet host folder _ _ _ Hload Logic.I)
    as (_ & (es1 & Ht1 & Hes1) & _).
  simpl trace in Ht1.
  unfold bind at 1, exportVariable at 1. cbv beta iota.
  unfold bind at 1, deleteProcessEnv at 1. cbv beta iota.
  intros Hrun.
  destruct (steady_analyze config _ _ _ Hrun (get_remove name _))
    as (_ & (es2 & Ht2 & Hes2) & _).
  simpl trace in Ht2. rewrite Ht2, Ht1, <- !app_assoc. simpl app.
  eexists. split; [reflexivity|].
  right. exists (Reported "finish" "starting" :: es1 ++ [VariableExported name ""])%list, es2.
  repeat split.
  - simpl. rewrite <- app_assoc. reflexivity.
  - constructor; [exact Logic.I|]. apply Forall_app. split; [exact Hes1|].
    repeat constructor.
  - exact Hes2.
Qed.

End Cleared.

(** C9, as the claim states it, fails: the finish action deletes the
    variable of the tracer configuration before it starts the
    finalization of the databases and the analysis, not after them. *)
Lemma variable_cleared_before_finalization :
  let es := trace (Finish.run sampleHost finishWorld).1 in
  es !! 2%nat = Some (VariableDeleted "ODASA_TRACER_CONFIGURATION") /\
  es !! 4%nat =
    Some (Executed "/tools/codeql" ["database"; "finalize"; "/ws/codeql_results/db/java"]
            [("CODEQL_ACTION_CMD", "/tools/codeql");
             ("CODEQL_ACTION_DATABASE_DIR", "/ws/codeql_results/db");
             ("CODEQL_ACTION_LANGUAGES", "java")]) /\
  ~ clearedLast "ODASA_TRACER_CONFIGURATION" es.
Proof.
  assert (H2 : trace (Finish.run sampleHost finishWorld).1 !! 2%nat
               = Some (VariableDeleted "ODASA_TRACER_CONFIGURATION"))
    by (vm_compute; reflexivity).
  assert (H4 : trace (Finish.run sampleHost finishWorld).1 !! 4%nat
               = Some (Executed "/tools/codeql"
                         ["database"; "finalize"; "/ws/codeql_results/db/java"]
                         [("CODEQL_ACTION_CMD", "/tools/codeql");
                          ("CODEQL_ACTION_DATABASE_DIR", "/ws/codeql_results/db");
                          ("CODEQL_ACTION_LANGUAGES", "java")]))
    by (vm_compute; reflexivity).
  repeat split; auto.
  intros Hlast. specialize (Hlast _ _ _ _ _ H4 H2). lia.
Qed.

(** C9, amended.  In every run of the finish action, each child process
    (those of the finalization of the databases and of the analysis)
    runs with the variable of the tracer configuration unset, after the
    variable has been deleted from the environment of the process.
    When the action starts and loads its configuration, the first things
    it does after the report of its start are to export the variable as
    the empty string and to delete it; the rest of the stage (the
    finalization, the analysis and the final report) runs from the
    environment without the variable, every later effect leaves it
    cleared, and the variable is unset when the action ends. *)
Theorem finish_clears_variable_first (host : Host) (w : World) :
  let name := sharedEnv_ODASA_TRACER_CONFIGURATION host in
  exists es,
    trace (Finish.run host w).1 = (trace w ++ es)%list /\
    clearedFirst name es /\
    forall config,
      should_abort host "finish" = false ->
      reportActionStarting host "finish" = true ->
      loadConfig host (configFolder (processEnv w)) w = (w, Ok config) ->
      let start :=
        mkWorld (files w) (Js.remove name (Js.set name "" (processEnv w)))
                (trace w ++ [Reported "finish" "starting"; VariableExported name "";
                             VariableDeleted name]) in
      exists stage final,
        es = ([Reported "finish" "starting"; VariableExported name "";
               VariableDeleted name] ++ stage ++ final)%list /\
        trace (Finish.analyze host config start).1 = (trace start ++ stage)%list /\
        final = match (Finish.analyze host config start).2 with
                | Ok _ => [Reported "finish" "success"]
                | Throw e => [SetFailed (message e); Reported "finish" "failure"]
                end /\
        Forall (afterClearing name) (stage ++ final) /\
        Js.get name (processEnv (Finish.run host w).1) = None.
Proof.
  cbv zeta.
  assert (Hfirst : exists es,
            trace (Finish.run host w).1 = (trace w ++ es)%list /\
            clearedFirst (sharedEnv_ODASA_TRACER_CONFIGURATION host) es).
  { unfold Finish.run, report, setFailed.
    unfold bind at 1. cbv beta iota. unfold bind at 1, catch.
    destruct (Finish.runBody host _ w) as [w1 [completed|e]] eqn:Hbody;
      destruct (runBody_clearedThen _ _ _ _ _ Hbody) as (es & Ht & Hes).
    - destruct completed.
      + simpl. rewrite Ht, <- app_assoc. eexists. split; [reflexivity|].
        apply clearedThen_clearedFirst, clearedThen_app; auto; repeat constructor.
      + simpl. exists es. split; [exact Ht|]. now apply clearedThen_clearedFirst.
    - simpl. rewrite Ht, <- !app_assoc. eexists. split; [reflexivity|].
      apply clearedThen_clearedFirst, clearedThen_app; auto; repeat constructor. }
  destruct Hfirst as (es & Htrace & Hfirst).
  exists es. split; [exact Htrace|]. split; [exact Hfirst|].
  intros config Habort Hstart Hload.
  set (name := sharedEnv_ODASA_TRACER_CONFIGURATION host) in *.
  set (start := mkWorld (files w) (Js.remove name (Js.set name "" (processEnv w)))
                    (trace w ++ [Reported "finish" "starting"; VariableExported name "";
                                 VariableDeleted name])).
  assert (Hbody : Finish.runBody host (configFolder (processEnv w)) w
                  = Finish.analyze host config start).
  { unfold Finish.runBody, report. rewrite Habort.
    unfold bind at 1. unfold emit at 1. cbv beta iota. rewrite Hstart. cbn [negb].
    unfold bind at 1.
    assert (Hload' : loadConfig host (configFolder (processEnv w))
                       (mkWorld (files w) (processEnv w)
                                (trace w ++ [Reported "finish" "starting"]))
                     = (mkWorld (files w) (processEnv w)
                                (trace w ++ [Reported "finish" "starting"]), Ok config)).
    { revert Hload. unfold loadConfig, bind, readFileSync, lift. cbn [files].
      destruct (files w !! _) as [[data|]|]; try discriminate.
      destruct (JSON_parse_config host _); [|discriminate].
      intros [= <-]. reflexivity. }
    rewrite Hload'. cbv beta iota.
    unfold bind at 1, exportVariable at 1. cbv beta iota.
    unfold bind at 1, deleteProcessEnv at 1. cbv beta iota.
    cbn [files processEnv trace]. unfold start.
    rewrite <- !app_assoc. reflexivity. }
  destruct (Finish.analyze host config start) as [w2 r] eqn:Hanalyze.
  destruct (steady_analyze host config _ _ _ Hanalyze (get_remove name _))
    as (Henv & (stage & Hstage & Hsteady) & _).
  assert (Hrun : Finish.run host w =
                 match r with
                 | Ok true => report "finish" "success" w2
                 | Ok false => (w2, Ok tt)
                 | Throw e =>
                     (setFailed (message e) ;; report "finish" "failure" ;; ret false ;;
                      ret tt) w2
                 end).
  { unfold Finish.run. unfold bind at 1. cbv beta iota. unfold bind at 1, catch.
    rewrite Hbody. destruct r as [[|]|e]; reflexivity. }
  assert (Hcompleted : forall completed, r = Ok completed -> completed = true).
  { intros completed ->. revert Hanalyze. unfold Finish.analyze.
    unfold bind, getProcessEnv, lift, ret.
    repeat match goal with
           | |- context [match ?x with _ => _ end] => destruct x
           end; congruence. }
  exists stage,
    (match r with
     | Ok _ => [Reported "finish" "success"]
     | Throw e => [SetFailed (message e); Reported "finish" "failure"]
     end).
  cbn [fst snd].
  assert (Hfinal : Forall (afterClearing name)
                     (match r with
                      | Ok _ => [Reported "finish" "success"]
                      | Throw e => [SetFailed (message e); Reported "finish" "failure"]
                      end)).
  { destruct r; repeat constructor. }
  split; [|split; [exact Hstage|split; [reflexivity|split]]].
  - apply (app_inv_head (trace w)). rewrite <- Htrace, Hrun.
    destruct r as [completed|e].
    + rewrite (Hcompleted completed eq_refl).
      unfold report, emit. cbn [fst trace]. rewrite Hstage. unfold start.
      cbn [trace]. now rewrite <- !app_assoc.
    + unfold bind, setFailed, report, emit, ret. cbn [fst trace].
      rewrite Hstage. unfold start. cbn [trace]. now rewrite <- !app_assoc.
  - apply Forall_app. split; [exact Hsteady|exact Hfinal].
  - rewrite Hrun. destruct r as [completed|e].
    + rewrite (Hcompleted completed eq_refl). exact Henv.
    + exact Henv.
Qed.

Lemma finish_clears_variable_first_witness :
  exists stage final,
    trace (Finish.run sampleHost finishWorld).1 =
      ([Reported "finish" "starting";
        VariableExported "ODASA_TRACER_CONFIGURATION" "";
        VariableDeleted "ODASA_TRACER_CONFIGURATION"] ++ stage ++ final)%list /\
    Forall (afterClearing "ODASA_TRACER_CONFIGURATION") (stage ++ final) /\
    Js.get "ODASA_TRACER_CONFIGURATION" (processEnv (Finish.run sampleHost finishWorld).1)
    = None.
Proof.
  destruct (finish_clears_variable_first sampleHost finishWorld)
    as (es & Htrace & _ & Hloaded).
  destruct (Hloaded (mkConfig "" [] [] [] (Some [])) eq_refl eq_refl eq_refl)
    as (stage & final & -> & _ & _ & Hsteady & Hunset).
  exists stage, final. split; [exact Htrace|]. split; [exact Hsteady|exact Hunset].
Defined.

(** ** The models of the run time on small inputs *)

Example parseInt_12 : Js.parseInt (Some " 12 blocks") = Js.Int 12.
Proof. reflexivity. Qed.

Example parseInt_neg : Js.parseInt (Some "-7") = Js.Int (-7).
Proof. reflexivity. Qed.

Example parseInt_text : Js.parseInt (Some "blocks") = Js.NaN.
Proof. reflexivity. Qed.

Example splitLines_crlf :
  Js.splitLines ("a" +:+ String "013" (String "010" "b") +:+ String "010" "c")
  = ["a"; "b"; "c"].
Proof. reflexivity. Qed.

Example toString_0 : Js.toString (Js.Int 0) = "0".
Proof. reflexivity. Qed.

(** White space beyond ASCII: a no-break space (U+00A0) and a line
    separator (U+2028) before the digits. *)
Example parseInt_no_break_space :
  Js.parseInt (Some (String "194" (String "160" "12"))) = Js.Int 12.
Proof. reflexivity. Qed.

Example parseInt_line_separator :
  Js.parseInt (Some (String "226" (String "128" (String "168" " 7")))) = Js.Int 7.
Proof. reflexivity. Qed.

Example arrayIndex_samples :
  Js.arrayIndex "0" = Some 0 /\ Js.arrayIndex "7" = Some 7 /\
  Js.arrayIndex "4294967294" = Some 4294967294 /\
  Js.arrayIndex "4294967295" = None /\ Js.arrayIndex "01" = None /\
  Js.arrayIndex "-1" = None /\ Js.arrayIndex "1e3" = None /\ Js.arrayIndex "" = None.
Proof. repeat split; reflexivity. Qed.

(** A new property whose name is an array index is listed before the
    other names, in numeric order. *)
Example put_array_index :
  Js.put "2" "b" (Js.put "10" "a" (Js.put "PATH" "/bin" [])) =
  [("2", "b"); ("10", "a"); ("PATH", "/bin")].
Proof. reflexivity. Qed.

Example merge_array_index :
  mergeEnvironments
    [("java", mkTracerConfig (Some "/db/java/spec") [("B", "1")]);
     ("cpp", mkTracerConfig (Some "/db/cpp/spec") [("1", "2")])]
  = Ok ([("1", "2"); ("B", "1")], 2).
Proof. reflexivity. Qed.

(** An inherited name is found by [in] in the empty object. *)
Example in_inherited :
  Js.in_ "toString" ([] : Js.Object string) = true /\
  Js.in_ "__proto__" ([] : Js.Object string) = true /\
  Js.in_ "PATH" ([] : Js.Object string) = false /\
  Js.inheritedText "toString" = "function toString() { [native code] }" /\
  Js.inheritedText "__proto__" = "[object Object]".
Proof. repeat split; reflexivity. Qed.

(** Well-formed UTF-8: ASCII and a two-byte character are; a lead byte
    alone, an overlong form, a surrogate and a value above U+10FFFF are
    not. *)
Example validUtf8_samples :
  validText "spec" = true /\
  validText (String "195" (String "169" "")) = true /\
  validText (String "240" (String "159" (String "152" (String "128" "")))) = true /\
  validText (String "195" "") = false /\
  validText (String "192" (String "128" "")) = false /\
  validText (String "224" (String "128" (String "128" ""))) = false /\
  validText (String "237" (String "160" (String "128" ""))) = false /\
  validText (String "244" (String "144" (String "128" (String "128" "")))) = false /\
  validText (String "128" "") = false.
Proof. repeat split; reflexivity. Qed.

(** The scenario of the specification: the count 3, the lines of the
    other language before the line of cpp, the merged environment
    X=1, Y=2, and the blob of two entries. *)
Example scenario_aggregated :
  let run := concatTracerConfigs "/ws" sampleConfigs sampleWorld in
  run.2 = Ok (mkTracerConfig (Some "/ws/compound-spec") [("X", "1"); ("Y", "2")]) /\
  files run.1 !! "/ws/compound-spec" =
    Some (specFile "/ws/compound-build-tracer.log" "3" ["l1"; "l2"; "j1"]) /\
  files run.1 !! "/ws/compound-spec.environment" =
    Some (File (int32LE 2 ++ int32LE 4 ++ utf8 ("X=1" +:+ String "000" "")
                ++ int32LE 4 ++ utf8 ("Y=2" +:+ String "000" ""))%list).
Proof. vm_compute. repeat split; reflexivity. Qed.

(** The scenario with the conflicting value: the error, and no file. *)
Example scenario_conflict :
  concatTracerConfigs "/ws" conflictingConfigs sampleWorld
  = (sampleWorld, Throw (IncompatibleValues "X" "1" "2")).
Proof. reflexivity. Qed.

(** The message of the error of the scenario with the conflicting value. *)
Example scenario_conflict_message :
  message (IncompatibleValues "X" "1" "2")
  = "Incompatible values in environment parameter X: 1 and 2".
Proof. reflexivity. Qed.

(** * Further properties *)

(** ** The order of the merged environment *)

Lemma inList_In x l : inList x l = true <-> In x l.
Proof.
  unfold inList. rewrite existsb_exists. split.
  - intros (y & Hy & Heq). apply String.eqb_eq in Heq. now subst.
  - intros H. exists x. split; [exact H|apply String.eqb_refl].
Qed.

Lemma inList_keys_get {V} k (o : Js.Object V) :
  inList k (Js.keys o) = match Js.get k o with Some _ => true | None => false end.
Proof.
  destruct (Js.get k o) as [v|] eqn:Hget.
  - apply inList_In. eapply In_keys. apply get_Some_In. exact Hget.
  - apply get_None_keys in Hget. destruct (inList k (Js.keys o)) eqn:Hin; [|reflexivity].
    apply inList_In in Hin. contradiction.
Qed.

Lemma merge_loop_order l : forall env0 n0 env1 n1,
  foldR mergeEntry l (env0, n0) = Ok (env1, n1) ->
  noArrayIndex l = true ->
  env1 = (env0 ++ keepFirst (Js.keys env0) l)%list.
Proof.
  induction l as [|[k v] l IH]; intros env0 n0 env1 n1; simpl.
  - intros [= <- _] _. now rewrite app_nil_r.
  - intros Hrun [Hk Hl]%andb_prop.
    destruct (Js.arrayIndex k) eqn:Hindex; [discriminate|].
    rewrite inList_keys_get. unfold Js.in_, Js.has in Hrun.
    destruct (Js.get k env0) as [cur|] eqn:Hget; cbn [orb] in Hrun.
    + destruct (negb (String.eqb cur v)); simpl in Hrun; [discriminate|].
      now apply (IH _ _ _ _ Hrun).
    + destruct (Js.inherited k); simpl in Hrun; [discriminate|].
      rewrite (put_ordinary _ _ _ Hindex), (set_fresh _ _ _ Hget) in Hrun.
      apply IH in Hrun; [|exact Hl]. rewrite keys_app in Hrun. simpl in Hrun.
      now rewrite <- app_assoc in Hrun.
Qed.

(** X1. A successful merge of variables whose names are no array
    indices lists every variable once, at the place of its first
    occurrence in the entries of the configurations: the merged
    environment is the sequence of all entries without those whose name
    occurred before.  (A name that is an array index is listed before
    the other names.) *)
Theorem merge_keeps_first_occurrences (configs : Js.Object TracerConfig)
    (merged : Js.Object string) (size : Z) :
  mergeEnvironments configs = Ok (merged, size) ->
  noArrayIndex (allEntries configs) = true ->
  merged = keepFirst [] (allEntries configs).
Proof.
  rewrite mergeEnvironments_flat. intros Hrun Hnames.
  apply (merge_loop_order _ _ _ _ _ Hrun Hnames).
Qed.

Lemma merge_keeps_first_occurrences_witness :
  [("X", "1"); ("Y", "2")] = keepFirst [] (allEntries [("cpp", langB); ("java", langA)]).
Proof.
  apply (merge_keeps_first_occurrences [("cpp", langB); ("java", langA)] _ 2);
    reflexivity.
Defined.

(** ** The size of the blob *)

Lemma length_utf8 s : length (utf8 s) = String.length s.
Proof.
  unfold utf8, list_byte_of_string. rewrite length_map.
  induction s as [|c s IH]; simpl; [reflexivity|]. now rewrite IH.
Qed.

Lemma encode_entries_length l : forall buffer out,
  foldR encodeEntry l buffer = Ok out ->
  length out =
  (length buffer
   + list_sum (map (fun e => 4 + (String.length e.1 + 1 + String.length e.2 + 1)) l))%nat.
Proof.
  induction l as [|[key value] l IH]; intros buffer out Hrun; simpl in Hrun.
  - injection Hrun as <-. simpl. lia.
  - unfold encodeEntry in Hrun at 1. simpl in Hrun.
    destruct (writeInt32LE _) as [sizeBuffer|] eqn:Hsize; simpl in Hrun; [|discriminate].
    apply writeInt32LE_Ok in Hsize as [_ ->].
    apply IH in Hrun. rewrite Hrun, !length_app, length_utf8, !length_append.
    simpl. lia.
Qed.

(** X2. The blob of an environment has 4 bytes for the count and, for
    every entry, 4 bytes for the length and the bytes of the name, the
    equals sign, the value and the final zero. *)
Theorem blob_size (env : Js.Object string) (envSize : Z) (blob : list byte) :
  encodeEnvironment env envSize = Ok blob ->
  length blob = blobSize env.
Proof.
  unfold encodeEnvironment, blobSize. intros Hrun.
  destruct (writeInt32LE envSize) as [buffer|] eqn:Hsize; simpl in Hrun; [|discriminate].
  apply writeInt32LE_Ok in Hsize as [_ ->].
  apply encode_entries_length in Hrun. exact Hrun.
Qed.

Lemma blob_size_witness :
  length (int32LE 2 ++ int32LE 4 ++ utf8 ("X=1" +:+ String "000" "")
          ++ int32LE 4 ++ utf8 ("Y=2" +:+ String "000" ""))%list
  = blobSize [("X", "1"); ("Y", "2")].
Proof.
  apply (blob_size [("X", "1"); ("Y", "2")] 2). reflexivity.
Defined.

(** ** No language is lost by the swap *)

Lemma first_split (x : string) l :
  In x l -> exists pre post, l = (pre ++ x :: post)%list /\ ~ In x pre.
Proof.
  induction l as [|y l IH]; simpl; [tauto|].
  destruct (String.eqb_spec y x) as [->|Hne].
  - intros _. exists [], l. split; [reflexivity|tauto].
  - intros [H|H]; [contradiction|].
    destruct (IH H) as (pre & post & -> & Hpre).
    exists (y :: pre), post. split; [reflexivity|].
    simpl. tauto.
Qed.

(** X3. The concatenation order is a rearrangement of the languages of
    the input: the swap loses no language and repeats none. *)
Theorem orderLanguages_permutation (configs : Js.Object TracerConfig) :
  Permutation (orderLanguages configs) (Js.keys configs).
Proof.
  destruct (in_dec string_dec "cpp" (Js.keys configs)) as [Hin|Hnot].
  - destruct (first_split _ _ Hin) as (pre & post & Hkeys & Hpre).
    destruct (rev post) as [|l rmid] eqn:Hrev.
    + assert (post = []) as -> by (apply (f_equal (@rev string)) in Hrev;
                                   now rewrite rev_involutive in Hrev).
      rewrite (orderLanguages_cpp_last_already _ _ Hkeys Hpre), Hkeys. reflexivity.
    + assert (post = (rev rmid ++ [l])%list) as ->
        by (apply (f_equal (@rev string)) in Hrev;
            now rewrite rev_involutive in Hrev).
      rewrite (orderLanguages_cpp_swapped _ _ _ _ Hkeys Hpre), Hkeys.
      apply Permutation_app_head.
      change (l :: rev rmid ++ ["cpp"])%list with ([l] ++ rev rmid ++ ["cpp"])%list.
      change ("cpp" :: rev rmid ++ [l])%list with (["cpp"] ++ rev rmid ++ [l])%list.
      rewrite (Permutation_app_comm [l]), (Permutation_app_comm ["cpp"]).
      rewrite <- !app_assoc. apply Permutation_app_head. apply perm_swap.
  - rewrite orderLanguages_without_cpp by exact Hnot. reflexivity.
Qed.

(** ** The list of scanned languages, written and read back *)

Lemma splitComma_single s : noComma s = true -> splitComma s = [s].
Proof.
  unfold noComma. induction s as [|c s IH]; simpl; [reflexivity|].
  intros [Hc Hs]%andb_prop. destruct (Ascii.eqb c ","); [discriminate|].
  now rewrite IH.
Qed.

Lemma splitComma_cons s rest :
  noComma s = true -> splitComma (s +:+ "," +:+ rest) = s :: splitComma rest.
Proof.
  unfold noComma. induction s as [|c s IH]; simpl; [reflexivity|].
  intros [Hc Hs]%andb_prop. destruct (Ascii.eqb c ","); [discriminate|].
  now rewrite IH.
Qed.

Lemma splitComma_join (languages : list string) :
  languages <> [] ->
  Forall (fun l => noComma l = true) languages ->
  splitComma (Js.join "," languages) = languages.
Proof.
  intros Hne Hall. unfold Js.join.
  induction Hall as [|l rest Hl Hrest IH]; [contradiction|].
  destruct rest as [|l' rest'].
  - simpl. now apply splitComma_single.
  - change (String.concat "," (l :: l' :: rest'))
      with (l +:+ "," +:+ String.concat "," (l' :: rest')).
    rewrite splitComma_cons by exact Hl. f_equal. apply IH. discriminate.
Qed.

(** The loop of the init action over languages that are not traced
    collects them all as scanned languages. *)
Lemma scanned_loop host codeqlSetup databaseFolder sourceRoot languages :
  Forall (fun l => inList l ["cpp"; "java"; "csharp"] = false) languages ->
  forall traced scanned w w' acc,
    foldM (Init.initLanguage host codeqlSetup databaseFolder sourceRoot)
          languages (traced, scanned) w = (w', Ok acc) ->
    acc = (traced, (scanned ++ languages)%list).
Proof.
  induction 1 as [|l ls Hl Hls IH]; intros traced scanned w w' acc; cbn [foldM].
  - unfold ret. intros [= <- <-]. now rewrite app_nil_r.
  - unfold bind at 1. unfold Init.initLanguage at 1. rewrite Hl.
    unfold bind at 1, exec at 1.
    destruct (spawn host _ _ _ _) as [files1 [out|e]]; [|discriminate].
    unfold ret at 1. intros Hrest. apply IH in Hrest as ->.
    now rewrite <- app_assoc.
Qed.

(** When the body of the init action ends for a job without traced
    languages, the variable of the scanned languages holds the languages
    of the job joined by commas. *)
Lemma runBody_publishes_scanned host languages folder w w' :
  getLanguages host = Ok languages ->
  Forall (fun l => inList l ["cpp"; "java"; "csharp"] = false) languages ->
  CODEQL_ACTION_SCANNED_LANGUAGES host <> "CODEQL_ACTION_RESULTS" ->
  CODEQL_ACTION_SCANNED_LANGUAGES host <> "CODEQL_ACTION_CMD" ->
  Init.runBody host folder w = (w', Ok true) ->
  languages <> [] /\
  Js.get (CODEQL_ACTION_SCANNED_LANGUAGES host) (processEnv w')
  = Some (Js.join "," languages).
Proof.
  intros Hlang Hall Hne1 Hne2. unfold Init.runBody.
  destruct (should_abort host "init"); [discriminate|].
  unfold bind at 1, report at 1, emit at 1. cbv beta iota.
  destruct (negb _); [discriminate|].
  unfold bind at 1. destruct (loadConfig _ _ _) as [w1 [config|e]]; [|discriminate].
  unfold bind at 1, lift at 1. rewrite Hlang.
  destruct languages as [|l ls]; [discriminate|]. cbn [length Nat.eqb].
  unfold bind at 1.
  destruct (Init.includeAndExcludeAnalysisPaths _ _ _) as [w2 [[]|e]]; [|discriminate].
  unfold bind at 1, lift at 1.
  destruct (setupCodeQL host) as [codeqlSetup|e]; [|discriminate].
  unfold bind at 1. destruct (exec _ _ _ _ _) as [w3 [out|e]]; [|discriminate].
  unfold bind at 1, getProcessEnv at 1. cbv beta iota.
  unfold bind at 1.
  destruct (match Js.get "GOFLAGS" (processEnv w3) with _ => _ end w3)
    as [w4 [[]|e]]; [|discriminate].
  unfold bind at 1. destruct (mkdirP _ _) as [w5 [[]|e]]; [|discriminate].
  unfold bind at 1.
  destruct (foldM _ _ _ w5) as [w6 [[traced scanned]|e]] eqn:Hloop; [|discriminate].
  apply (scanned_loop _ _ _ _ _ Hall) in Hloop as [= -> ->].
  cbn [app].
  change (Init.publishTracing host codeqlSetup []) with (@ret unit tt).
  unfold bind, exportVariable, ret. intros [= <-]. cbn [processEnv].
  split; [discriminate|].
  rewrite !get_set_ne by (apply not_eq_sym; assumption).
  apply get_set_eq.
Qed.

(** X4. The finish action reads back the scanned languages that the
    init action published.  Take a job whose languages are not traced
    and have names that are not empty and hold no comma, and a run of
    the body of the init action that ends normally.  In every world
    that has the variable of the scanned languages as that run left it,
    the finalization of the finish action is the loop over exactly the
    languages of the job, in their order, each with the resolution of
    its extractor and its trace command, followed by the loop that
    finalizes the databases. *)
Theorem scanned_languages_round_trip (host : Host) (languages : list string)
    (w w1 w2 : World) (codeqlCmd databaseFolder : string) :
  getLanguages host = Ok languages ->
  Forall (fun l => inList l ["cpp"; "java"; "csharp"] = false) languages ->
  Forall (fun l => noComma l = true /\ l <> "") languages ->
  CODEQL_ACTION_SCANNED_LANGUAGES host <> "CODEQL_ACTION_RESULTS" ->
  CODEQL_ACTION_SCANNED_LANGUAGES host <> "CODEQL_ACTION_CMD" ->
  Init.runBody host (configFolder (processEnv w)) w = (w1, Ok true) ->
  Js.get (CODEQL_ACTION_SCANNED_LANGUAGES host) (processEnv w2)
  = Js.get (CODEQL_ACTION_SCANNED_LANGUAGES host) (processEnv w1) ->
  Finish.finalizeDatabaseCreation host codeqlCmd databaseFolder w2 =
  (forEach languages (fun language =>
     let* extractorPath :=
       exec host codeqlCmd
            ["resolve"; "extractor"; "--format=json"; "--language=" +:+ language]
            None in
     let ext := if String.eqb (platform host) "win32" then ".cmd" else ".sh" in
     let* extractor := lift (JSON_parse_string host extractorPath) in
     let traceCommand :=
       path_resolve (path_resolve extractor "tools") ("autobuild" +:+ ext) in
     exec host codeqlCmd
          ["database"; "trace-command"; path_resolve databaseFolder language;
           "--"; traceCommand] None ;;
     ret tt) ;;
   let* ambient := getProcessEnv in
   forEach (splitComma match Js.get (CODEQL_ACTION_LANGUAGES host) ambient with
                       | Some (String c s) => String c s
                       | _ => ""
                       end)
           (fun language =>
              exec host codeqlCmd
                   ["database"; "finalize"; path_resolve databaseFolder language] None ;;
              ret tt)) w2.
Proof.
  intros Hlang Htraced Hnames Hne1 Hne2 Hrun Hsame.
  destruct (runBody_publishes_scanned _ _ _ _ _ Hlang Htraced Hne1 Hne2 Hrun)
    as [Hnonempty Hget].
  rewrite <- Hsame in Hget.
  assert (Hsplit : splitComma (Js.join "," languages) = languages).
  { apply splitComma_join; [exact Hnonempty|].
    eapply Forall_impl; [exact Hnames|]. now intros l [Hl _]. }
  assert (Hjoin : exists c s, Js.join "," languages = String c s).
  { destruct languages as [|l ls]; [contradiction|].
    apply Forall_cons in Hnames as [[_ Hl] _].
    destruct l as [|c l]; [contradiction|].
    unfold Js.join. destruct ls; simpl; eauto. }
  destruct Hjoin as (c & s & Hjoin).
  unfold Finish.finalizeDatabaseCreation.
  unfold bind at 1, getProcessEnv at 1. cbv beta iota.
  rewrite Hget, Hjoin, <- Hjoin, Hsplit. reflexivity.
Qed.

Lemma scanned_languages_round_trip_witness :
  let w1 := (Init.runBody sampleHost (configFolder (processEnv sampleWorld))
                          sampleWorld).1 in
  let w2 := mkWorld sampleFiles (processEnv w1) [] in
  Js.get "CODEQL_ACTION_SCANNED_LANGUAGES" (processEnv w1) = Some "javascript,python" /\
  Finish.finalizeDatabaseCreation sampleHost "/tools/codeql" "/ws/codeql_results/db" w2 =
  (forEach ["javascript"; "python"] (fun language =>
     let* extractorPath :=
       exec sampleHost "/tools/codeql"
            ["resolve"; "extractor"; "--format=json"; "--language=" +:+ language]
            None in
     let ext := if String.eqb (platform sampleHost) "win32" then ".cmd" else ".sh" in
     let* extractor := lift (JSON_parse_string sampleHost extractorPath) in
     let traceCommand :=
       path_resolve (path_resolve extractor "tools") ("autobuild" +:+ ext) in
     exec sampleHost "/tools/codeql"
          ["database"; "trace-command"; path_resolve "/ws/codeql_results/db" language;
           "--"; traceCommand] None ;;
     ret tt) ;;
   let* ambient := getProcessEnv in
   forEach (splitComma match Js.get (CODEQL_ACTION_LANGUAGES sampleHost) ambient with
                       | Some (String c s) => String c s
                       | _ => ""
                       end)
           (fun language =>
              exec sampleHost "/tools/codeql"
                   ["database"; "finalize"; path_resolve "/ws/codeql_results/db" language]
                   None ;;
              ret tt)) w2.
Proof.
  intros w1 w2. split; [reflexivity|].
  apply (scanned_languages_round_trip sampleHost ["javascript"; "python"]
           sampleWorld w1 w2 "/tools/codeql" "/ws/codeql_results/db");
    try reflexivity; try discriminate; repeat constructor; discriminate.
Defined.

(** ** The compound spec file, read back *)

Lemma cleanLine_tail c s : cleanLine (String c s) = true -> cleanLine s = true.
Proof. simpl. intros H. apply andb_prop in H as [_ H]. exact H. Qed.

Lemma splitLines_single s : cleanLine s = true -> Js.splitLines s = [s].
Proof.
  induction s as [|c s IH]; [reflexivity|].
  intros Hclean. pose proof (cleanLine_tail _ _ Hclean) as Hs.
  simpl in Hclean. apply andb_prop in Hclean as [Hc _].
  apply andb_prop in Hc as [Hlf _].
  simpl. destruct (Ascii.eqb c "010"); [discriminate|].
  destruct s as [|c' s']; [reflexivity|].
  destruct (Ascii.eqb c "013" && Ascii.eqb c' "010") eqn:Hcr.
  - apply andb_prop in Hcr as [_ Hc']. simpl in Hs. rewrite Hc' in Hs. discriminate.
  - now rewrite (IH Hs).
Qed.

Lemma splitLines_cons s rest :
  cleanLine s = true ->
  Js.splitLines (s +:+ String "010" rest) = s :: Js.splitLines rest.
Proof.
  induction s as [|c s IH]; [reflexivity|].
  intros Hclean. pose proof (cleanLine_tail _ _ Hclean) as Hs.
  simpl in Hclean. apply andb_prop in Hclean as [Hc _].
  apply andb_prop in Hc as [Hlf Hcr].
  change (String c s +:+ String "010" rest) with (String c (s +:+ String "010" rest)).
  cbn [Js.splitLines]. destruct (Ascii.eqb c "010"); [discriminate|].
  destruct s as [|c' s'].
  - simpl. simpl in Hcr. destruct (Ascii.eqb c "013"); [discriminate|]. reflexivity.
  - change (String c' s' +:+ String "010" rest)
      with (String c' (s' +:+ String "010" rest)) in *.
    cbv beta iota.
    destruct (Ascii.eqb c "013" && Ascii.eqb c' "010") eqn:Hcrlf.
    + apply andb_prop in Hcrlf as [_ Hc']. simpl in Hs. rewrite Hc' in Hs. discriminate.
    + now rewrite (IH Hs).
Qed.

Lemma splitLines_join lines :
  lines <> [] ->
  Forall (fun l => cleanLine l = true) lines ->
  Js.splitLines (Js.join (String "010" "") lines) = lines.
Proof.
  intros Hne Hall. unfold Js.join.
  induction Hall as [|l rest Hl Hrest IH]; [contradiction|].
  destruct rest as [|l' rest'].
  - simpl. now apply splitLines_single.
  - change (String.concat (String "010" "") (l :: l' :: rest'))
      with (l +:+ String "010" (String.concat (String "010" "") (l' :: rest'))).
    rewrite splitLines_cons by exact Hl. f_equal. apply IH. discriminate.
Qed.

(** The digits of a decimal numeral are read back to its value. *)
Lemma digits_uint_acc d : forall p,
  Js.digits (NilEmpty.string_of_uint d) true (Z.pos p) = Some (Z.pos (Pos.of_uint_acc d p)).
Proof.
  induction d; intros p; cbn [NilEmpty.string_of_uint Js.digits Pos.of_uint_acc];
    [reflexivity|..];
    (change (Js.isDigit _) with true; cbv iota; rewrite <- IHd; f_equal;
     unfold Js.digitValue; simpl N_of_ascii; lia).
Qed.

Lemma digits_uint d : forall seen,
  d <> Decimal.Nil \/ seen = true ->
  Js.digits (NilEmpty.string_of_uint d) seen 0 = Some (Z.of_N (Pos.of_uint d)).
Proof.
  induction d; intros seen Hd;
    cbn [NilEmpty.string_of_uint Js.digits Pos.of_uint];
    [destruct Hd as [Hd| ->]; [contradiction|reflexivity] | ..];
    change (Js.isDigit _) with true; cbv iota.
  - change (10 * 0 + Js.digitValue "0") with 0. apply IHd. now right.
  - apply (digits_uint_acc d 1).
  - apply (digits_uint_acc d 2).
  - apply (digits_uint_acc d 3).
  - apply (digits_uint_acc d 4).
  - apply (digits_uint_acc d 5).
  - apply (digits_uint_acc d 6).
  - apply (digits_uint_acc d 7).
  - apply (digits_uint_acc d 8).
  - apply (digits_uint_acc d 9).
Qed.

Lemma to_uint_nonnil p : Pos.to_uint p <> Decimal.Nil.
Proof.
  intros H. pose proof (DecimalPos.Unsigned.of_to p) as Hp.
  rewrite H in Hp. discriminate.
Qed.

Lemma skipWhiteSpace_start c s :
  Js.wsLength (String c s) = 0%nat -> Js.skipWhiteSpace (String c s) = String c s.
Proof.
  intros H. unfold Js.skipWhiteSpace. cbn [String.length Js.skipWs]. now rewrite H.
Qed.

(** A numeral that is not empty starts with a digit: no white space is
    skipped and no sign is read. *)
Lemma parseInt_uint d :
  d <> Decimal.Nil ->
  Js.parseInt (Some (NilEmpty.string_of_uint d)) = Js.Int (Z.of_N (Pos.of_uint d)).
Proof.
  intros Hd. pose proof (digits_uint d false (or_introl Hd)) as Hdigits.
  unfold Js.parseInt.
  destruct d; try contradiction;
    cbn [NilEmpty.string_of_uint] in *;
    rewrite skipWhiteSpace_start by reflexivity;
    now rewrite Hdigits.
Qed.

Lemma parseInt_neg_uint d :
  d <> Decimal.Nil ->
  Js.parseInt (Some (String "-" (NilEmpty.string_of_uint d)))
  = Js.Int (- Z.of_N (Pos.of_uint d)).
Proof.
  intros Hd. pose proof (digits_uint d false (or_introl Hd)) as Hdigits.
  unfold Js.parseInt. rewrite skipWhiteSpace_start by reflexivity.
  now rewrite Hdigits.
Qed.

Lemma parseInt_toString z : Js.parseInt (Some (Js.toString (Js.Int z))) = Js.Int z.
Proof.
  unfold Js.toString. destruct z as [|p|p]; [reflexivity|..];
    unfold Z.to_int, NilZero.string_of_int, NilZero.string_of_uint;
    pose proof (to_uint_nonnil p) as Hp;
    pose proof (DecimalPos.Unsigned.of_to p) as Hof;
    destruct (Pos.to_uint p) eqn:Hu; try contradiction;
    rewrite <- Hu in *.
  all: first [ rewrite parseInt_uint by exact Hp
             | rewrite parseInt_neg_uint by exact Hp ];
    now rewrite Hof.
Qed.

Lemma cleanLine_uint d : cleanLine (NilEmpty.string_of_uint d) = true.
Proof. induction d; simpl; try reflexivity; destruct d; simpl in *; auto. Qed.

Lemma cleanLine_toString z : cleanLine (Js.toString (Js.Int z)) = true.
Proof.
  unfold Js.toString. destruct z as [|p|p]; [reflexivity|..];
    unfold Z.to_int, NilZero.string_of_int, NilZero.string_of_uint;
    pose proof (to_uint_nonnil p) as Hp;
    pose proof (cleanLine_uint (Pos.to_uint p)) as Hc;
    destruct (Pos.to_uint p) eqn:Hu; try contradiction; rewrite <- Hu in *.
  all: first [ exact Hc
             | cbn [cleanLine]; rewrite Hc;
               destruct (NilEmpty.string_of_uint (Pos.to_uint p)); reflexivity ].
Qed.

(** X5. The compound spec file is a spec file that the aggregator reads
    back.  Let the count be a safe integer, let the log file path and
    the block lines be strings of the run time (well-formed UTF-8), and
    let them have no line feed and not end with a carriage return.
    Then the count that the reader gets from the second line of the
    file is the count that was written, and the lines after the header
    are the block lines that were written. *)
Theorem compound_spec_read_back (ws : string) (lines : list string) (count : Z) :
  Js.safeInteger count = true ->
  validText (compoundLogPath ws) = true ->
  Forall (fun l => validText l = true) lines ->
  cleanLine (compoundLogPath ws) = true ->
  Forall (fun l => cleanLine l = true) lines ->
  let text := string_of_list_byte (compoundSpecContent ws lines (Js.Int count)) in
  declaredCount text = Js.Int count /\ blockLines text = lines.
Proof.
  intros _ _ _ Hlog Hlines text. subst text.
  unfold compoundSpecContent, utf8. rewrite string_of_list_byte_of_string.
  unfold declaredCount, blockLines.
  rewrite splitLines_join.
  - simpl. split; [apply parseInt_toString|reflexivity].
  - discriminate.
  - constructor; [exact Hlog|]. constructor; [apply cleanLine_toString|exact Hlines].
Qed.

Lemma compound_spec_read_back_witness :
  let text := string_of_list_byte
                (compoundSpecContent "/ws" ["l1"; "l2"; "j1"] (Js.Int 3)) in
  declaredCount text = Js.Int 3 /\ blockLines text = ["l1"; "l2"; "j1"].
Proof.
  apply (compound_spec_read_back "/ws" ["l1"; "l2"; "j1"] 3);
    first [reflexivity | repeat constructor].
Defined.

(** ** The probe: what it keeps and what it touches *)

Lemma probe_entry ambient (info0 : Js.Object string) key value :
  (tracerConfigEntry ambient info0 (key, value) = info0 /\
   forall v, value = Some v -> ~ keptByProbe ambient key)
  \/
  (exists v, value = Some v /\ keptByProbe ambient key /\
             tracerConfigEntry ambient info0 (key, value) = Js.put key v info0).
Proof.
  unfold tracerConfigEntry. cbn [fst snd].
  destruct (String.eqb_spec key "ODASA_TRACER_CONFIGURATION") as [->|Hne].
  { left. split; [reflexivity|]. intros v _ [Hk _]. now apply Hk. }
  destruct value as [value|]; [|left; split; [reflexivity|discriminate]].
  destruct (negb (Js.in_ key ambient) || inList key CRITICAL_TRACER_VARS
            || startsWith "CODEQL_" key) eqn:Hkeep.
  - right. exists value. split; [reflexivity|]. split; [|reflexivity].
    split; [exact Hne|].
    apply orb_prop in Hkeep as [Hkeep|Hprefix]; [|now right; right].
    apply orb_prop in Hkeep as [Hin|Hcrit]; [|now right; left].
    left. unfold Js.in_, Js.has in Hin.
    destruct (Js.get key ambient); [discriminate|].
    destruct (Js.inherited key); [discriminate|]. now split.
  - left. split; [reflexivity|]. intros v _ [_ Hk].
    apply orb_false_elim in Hkeep as [Hkeep Hprefix].
    apply orb_false_elim in Hkeep as [Hin Hcrit].
    destruct Hk as [[Hk Hown]|[Hk|Hk]]; try congruence.
    unfold Js.in_, Js.has in Hin. rewrite Hk, Hown in Hin. discriminate.
Qed.

Lemma probe_filter_loop ambient captured : forall info0,
  NoDup (Js.keys captured) ->
  NoDup (Js.keys info0) ->
  (forall k, In k (Js.keys info0) -> ~ In k (Js.keys captured)) ->
  NoDup (Js.keys (fold_left (tracerConfigEntry ambient) captured info0)) /\
  forall k v, In (k, v) (fold_left (tracerConfigEntry ambient) captured info0) <->
              In (k, v) info0 \/ (In (k, Some v) captured /\ keptByProbe ambient k).
Proof.
  induction captured as [|[key value] captured IH]; intros info0 Hnd Hnd0 Hdisj.
  - split; [exact Hnd0|]. intros k v. simpl. tauto.
  - simpl in Hnd. apply NoDup_cons in Hnd as [Hkey Hnd].
    rewrite list_elem_of_In in Hkey.
    assert (Hfresh : Js.get key info0 = None).
    { apply get_None_keys. intros Hin. apply (Hdisj key Hin). now left. }
    cbn [fold_left].
    destruct (probe_entry ambient info0 key value)
      as [[-> Hnot]|(v0 & -> & Hkept & ->)].
    + destruct (IH info0 Hnd Hnd0) as [H1 H2].
      { intros k Hk Hin. apply (Hdisj k Hk). now right. }
      split; [exact H1|]. intros k v. rewrite H2. simpl. split.
      * tauto.
      * intros [H|[[H|H] Hk]]; auto.
        injection H as <- ->. exfalso. eapply Hnot; eauto.
    + destruct (IH (Js.put key v0 info0) Hnd) as [H1 H2].
      { now apply put_fresh_NoDup. }
      { intros k Hk. apply in_map_iff in Hk as ([k' v'] & <- & Hk).
        apply (put_fresh_In _ _ _ _ _ Hfresh) in Hk as [Hk|Hk].
        - injection Hk as -> _. exact Hkey.
        - intros Hin. apply (Hdisj k'); [eapply In_keys; eauto|now right]. }
      split; [exact H1|]. intros k v.
      rewrite H2, (put_fresh_In _ _ _ _ _ Hfresh). simpl. split.
      * intros [[H|H]|[H Hk]]; auto.
        injection H as -> ->. right. split; [now left|exact Hkept].
      * intros [H|[[H|H] Hk]]; auto.
        injection H as <- <-. left. now left.
Qed.

(** X6. When the child process has left a dump of well-formed UTF-8
    that is parsed to an object, the probe returns the variables of the
    dump that it keeps, and no other: the spec is the value of the
    variable of the tracer configuration, and a variable with a value
    is in the environment of the result exactly when it is not that
    variable and is undefined in the environment of the process (not set
    there and not a name that the environment inherits from
    [Object.prototype]), or critical, or starts with CODEQL_.  Each name
    is there once. *)
Theorem probe_keeps_filtered_dump (host : Host) (codeql : CodeQLSetup)
    (database : string) (compilerSpec : option string) (w : World)
    (files1 : gmap string Node) (out : string) (data : list byte)
    (captured : Js.Object (option string)) :
  spawn host (cmd codeql)
        (traceCommandArgs host database (compilerSpecArg compilerSpec)
                          (probeEnvFile database))
        (processEnv w) (files w) = (files1, Ok out) ->
  files1 !! probeEnvFile database = Some (File data) ->
  validUtf8 data = true ->
  JSON_parse_env host (string_of_list_byte data) = Ok captured ->
  NoDup (Js.keys captured) ->
  exists config,
    (tracerConfig host codeql database compilerSpec w).2 = Ok config /\
    spec config = mjoin (Js.get "ODASA_TRACER_CONFIGURATION" captured) /\
    NoDup (Js.keys (env config)) /\
    forall k v, In (k, v) (env config) <->
                In (k, Some v) captured /\ keptByProbe (processEnv w) k.
Proof.
  intros Hspawn Hfile _ Hparse Hnd.
  unfold tracerConfig, bind, exec, readFileSync, lift, getProcessEnv, ret.
  rewrite Hspawn. cbv beta iota zeta. simpl files. rewrite Hfile.
  cbv beta iota. rewrite Hparse. cbv beta iota. cbn [snd processEnv].
  eexists. split; [reflexivity|]. split; [reflexivity|]. simpl env.
  destruct (probe_filter_loop (processEnv w) captured [] Hnd) as [H1 H2].
  - constructor.
  - intros k [].
  - split; [exact H1|]. intros k v. rewrite H2. simpl. tauto.
Qed.

Lemma probe_keeps_filtered_dump_witness :
  exists config,
    (tracerConfig (withDump sampleHost sampleDump)
                  (mkCodeQLSetup "/tools/codeql" "/tools")
                  "/ws/codeql_results/db/java" None probeWorld).2 = Ok config /\
    spec config = mjoin (Js.get "ODASA_TRACER_CONFIGURATION" sampleDump) /\
    NoDup (Js.keys (env config)) /\
    forall k v, In (k, v) (env config) <->
                In (k, Some v) sampleDump /\ keptByProbe (processEnv probeWorld) k.
Proof.
  apply (probe_keeps_filtered_dump (withDump sampleHost sampleDump)
           (mkCodeQLSetup "/tools/codeql" "/tools") "/ws/codeql_results/db/java" None
           probeWorld
           (<["/ws/codeql_results/db/java/working/env.tmp" := File (utf8 "{}")]>
              sampleFiles)
           "" (utf8 "{}") sampleDump); try reflexivity.
  unfold sampleDump, Js.keys. cbn [map fst].
  repeat (apply NoDup_cons_2;
          [rewrite list_elem_of_In; simpl; intuition discriminate|]).
  apply NoDup_nil_2.
Defined.

(** The probe on the sample dump: the variable that the process has is
    dropped, and so is the one whose name the environment inherits. *)
Example probe_on_sample_dump :
  (tracerConfig (withDump sampleHost sampleDump)
                (mkCodeQLSetup "/tools/codeql" "/tools")
                "/ws/codeql_results/db/java" None probeWorld).2
  = Ok (mkTracerConfig (Some "/db/java/spec")
          [("SEMMLE_RUNNER", "runner"); ("CODEQL_DIST", "/tools");
           ("SEMMLE_EXEC", "exec")]).
Proof. reflexivity. Qed.

(** X7. Whatever its outcome, the probe runs one child process, the one
    that dumps the environment, with the environment of the process; it
    changes no variable of the process and writes no file of its own:
    the files after it are those that the child process left. *)
Theorem probe_footprint (host : Host) (codeql : CodeQLSetup) (database : string)
    (compilerSpec : option string) (w : World) :
  let args := traceCommandArgs host database (compilerSpecArg compilerSpec)
                               (probeEnvFile database) in
  let w' := (tracerConfig host codeql database compilerSpec w).1 in
  processEnv w' = processEnv w /\
  trace w' = (trace w ++ [Executed (cmd codeql) args (processEnv w)])%list /\
  files w' = (spawn host (cmd codeql) args (processEnv w) (files w)).1.
Proof.
  unfold tracerConfig, bind, exec, lift, getProcessEnv, ret. cbv zeta.
  destruct (spawn host _ _ _ _) as [files1 [out|e]]; [|repeat split].
  destruct (readFileSync _ _) as [w1 [text|e]] eqn:Hread;
    apply readFileSync_world in Hread as ->; [|repeat split].
  destruct (JSON_parse_env host text); repeat split.
Qed.

(** X8. When the child process succeeds and leaves no dump of the
    environment, the probe throws the error of the missing file. *)
Theorem probe_without_dump (host : Host) (codeql : CodeQLSetup) (database : string)
    (compilerSpec : option string) (w : World)
    (files1 : gmap string Node) (out : string) :
  spawn host (cmd codeql)
        (traceCommandArgs host database (compilerSpecArg compilerSpec)
                          (probeEnvFile database))
        (processEnv w) (files w) = (files1, Ok out) ->
  files1 !! probeEnvFile database = None ->
  (tracerConfig host codeql database compilerSpec w).2
  = Throw (FileError "ENOENT" (probeEnvFile database)).
Proof.
  intros Hspawn Hfile.
  unfold tracerConfig, bind, exec, readFileSync.
  rewrite Hspawn. cbv beta iota zeta. simpl files. now rewrite Hfile.
Qed.

Lemma probe_without_dump_witness :
  (tracerConfig noDumpHost (mkCodeQLSetup "/tools/codeql" "/tools")
                "/ws/codeql_results/db/java" None sampleWorld).2
  = Throw (FileError "ENOENT" (probeEnvFile "/ws/codeql_results/db/java")).
Proof.
  apply (probe_without_dump noDumpHost (mkCodeQLSetup "/tools/codeql" "/tools")
           "/ws/codeql_results/db/java" None sampleWorld sampleFiles "");
    reflexivity.
Defined.

(** ** The warning about the analysis paths *)

Lemma isInterpretedLanguage_false language :
  Init.isInterpretedLanguage language = false.
Proof.
  unfold Init.isInterpretedLanguage.
  destruct (String.eqb_spec language "javascript") as [->|]; reflexivity.
Qed.

Lemma forallb_isInterpretedLanguage languages :
  forallb Init.isInterpretedLanguage languages
  = match languages with [] => true | _ => false end.
Proof.
  destruct languages as [|l ls]; [reflexivity|].
  simpl. now rewrite isInterpretedLanguage_false.
Qed.

(** X9. No language counts as interpreted, since none is javascript and
    python at once; so paths or ignored paths in the configuration give
    the warning for every job with a language, also for a job of
    javascript and python only.  The two variables of the paths are
    exported in every case. *)
Theorem analysis_paths_warning (config : Config) (languages : list string) (w : World) :
  let run := Init.includeAndExcludeAnalysisPaths config languages w in
  exists warnings,
    run.2 = Ok tt /\
    trace run.1 =
      (trace w ++
       [VariableExported "LGTM_INDEX_INCLUDE" (Js.join newline (paths config));
        VariableExported "LGTM_INDEX_EXCLUDE" (Js.join newline (pathsIgnore config))]
       ++ warnings)%list /\
    ((paths config = [] /\ pathsIgnore config = []) \/ languages = [] -> warnings = []) /\
    ((paths config <> [] \/ pathsIgnore config <> []) -> languages <> [] ->
     exists text, warnings = [Warned text]).
Proof.
  unfold Init.includeAndExcludeAnalysisPaths, bind, exportVariable, warning, emit, ret.
  cbv beta iota zeta. rewrite forallb_isInterpretedLanguage.
  destruct ((negb (length (paths config) =? 0)%nat
             || negb (length (pathsIgnore config) =? 0)%nat)
            && negb match languages with [] => true | _ => false end) eqn:Hwarn;
    cbn [fst snd trace].
  - eexists [_]. split; [reflexivity|]. split; [now rewrite <- !app_assoc|].
    split; [|intros; eexists; reflexivity].
    intros [[Hp Hi]|Hl]; exfalso.
    + rewrite Hp, Hi in Hwarn. discriminate.
    + rewrite Hl in Hwarn. now rewrite andb_false_r in Hwarn.
  - exists []. split; [reflexivity|]. split; [now rewrite <- !app_assoc|].
    split; [reflexivity|]. intros Hpaths Hl. exfalso.
    destruct languages as [|l ls]; [contradiction|].
    destruct (paths config) as [|p ps], (pathsIgnore config) as [|i ignored];
      try discriminate.
    destruct Hpaths; contradiction.
Qed.

(** ** What the aggregator touches *)

(** X10. Whatever its outcome, the aggregator changes no variable of
    the process and starts no child process: its effects are at most
    two, the writing of the compound spec file and the writing of the
    blob, and every other file is as before; so the spec files of the
    input stay as they are. *)
Theorem concat_footprint (ws : string) (configs : Js.Object TracerConfig) (w : World) :
  let w' := (concatTracerConfigs ws configs w).1 in
  processEnv w' = processEnv w /\
  (forall path, path <> compoundSpecPath ws -> path <> compoundEnvPath ws ->
                files w' !! path = files w !! path) /\
  exists es,
    trace w' = (trace w ++ es)%list /\
    (es = [] \/
     (exists content, es = [FileWritten (compoundSpecPath ws) content]) \/
     (exists content blob, es = [FileWritten (compoundSpecPath ws) content;
                                 FileWritten (compoundEnvPath ws) blob])).
Proof.
  pose proof (concat_anatomy ws configs w) as H. cbv zeta.
  assert (Hsame : processEnv w = processEnv w /\
                  (forall path, path <> compoundSpecPath ws ->
                                path <> compoundEnvPath ws ->
                                files w !! path = files w !! path) /\
                  exists es, trace w = (trace w ++ es)%list /\
                    (es = [] \/
                     (exists content, es = [FileWritten (compoundSpecPath ws) content]) \/
                     (exists content blob,
                         es = [FileWritten (compoundSpecPath ws) content;
                               FileWritten (compoundEnvPath ws) blob]))).
  { repeat split; auto. exists []. split; [now rewrite app_nil_r|now left]. }
  assert (Hone : forall content,
            processEnv (written (compoundSpecPath ws) content w) = processEnv w /\
            (forall path, path <> compoundSpecPath ws ->
                          path <> compoundEnvPath ws ->
                          files (written (compoundSpecPath ws) content w) !! path
                          = files w !! path) /\
            exists es,
              trace (written (compoundSpecPath ws) content w) = (trace w ++ es)%list /\
              (es = [] \/
               (exists content, es = [FileWritten (compoundSpecPath ws) content]) \/
               (exists content blob,
                   es = [FileWritten (compoundSpecPath ws) content;
                         FileWritten (compoundEnvPath ws) blob]))).
  { intros content. repeat split.
    - intros path Hs _. unfold written. simpl files.
      now rewrite lookup_insert_ne by (apply not_eq_sym; exact Hs).
    - eexists. split; [reflexivity|]. right. left. eexists. reflexivity. }
  assert (Htwo : forall content blob,
            let w2 := written (compoundEnvPath ws) blob
                        (written (compoundSpecPath ws) content w) in
            processEnv w2 = processEnv w /\
            (forall path, path <> compoundSpecPath ws ->
                          path <> compoundEnvPath ws ->
                          files w2 !! path = files w !! path) /\
            exists es,
              trace w2 = (trace w ++ es)%list /\
              (es = [] \/
               (exists content, es = [FileWritten (compoundSpecPath ws) content]) \/
               (exists content blob,
                   es = [FileWritten (compoundSpecPath ws) content;
                         FileWritten (compoundEnvPath ws) blob]))).
  { intros content blob. cbv zeta. repeat split.
    - intros path Hs He. unfold written. simpl files.
      rewrite lookup_insert_ne by (apply not_eq_sym; exact He).
      now rewrite lookup_insert_ne by (apply not_eq_sym; exact Hs).
    - eexists. split; [unfold written; simpl trace; now rewrite <- app_assoc|].
      right. right. eexists _, _. reflexivity. }
  destruct (mergeEnvironments configs) as [[merged size]|e0]; [|now rewrite H].
  destruct (foldM _ _ _ w) as [w1 [[lines count]|e1]]; [|now rewrite H].
  cbv zeta in H.
  destruct (files w !! compoundSpecPath ws) as [[data|]|];
    try (rewrite H; exact Hsame);
    (destruct (encodeEnvironment merged size) as [blob|e2];
     [|rewrite H; apply Hone]);
    (destruct (files w !! compoundEnvPath ws) as [[data'|]|];
     rewrite H; first [apply Hone | apply Htwo]).
Qed.

(** ** What the init action publishes for the traced build *)









(** ** The init action when the probe fails *)

(** The probe adds one effect, a child process. *)
Lemma keeps_tracerConfig (P : Effect -> Prop) host codeql database compilerSpec
    (Q : TracerConfig -> Prop) :
  (forall cmd args env, P (Executed cmd args env)) ->
  (forall w w' config,
      tracerConfig host codeql database compilerSpec w = (w', Ok config) -> Q config) ->
  keeps (fun _ => True) P (tracerConfig host codeql database compilerSpec) Q.
Proof.
  intros HP HQ w w' r Hrun _. split; [exact Logic.I|]. split.
  - revert Hrun. unfold tracerConfig, bind, exec, lift, getProcessEnv, ret.
    destruct (spawn host _ _ _ _) as [files1 [out|e]].
    + destruct (readFileSync _ _) as [w1 [text|e]] eqn:Hread;
        apply readFileSync_world in Hread as ->.
      * destruct (JSON_parse_env host text); intros [= <- _];
          (eexists; split; [reflexivity|]; repeat constructor; apply HP).
      * intros [= <- _]. eexists; split; [reflexivity|]; repeat constructor; apply HP.
    + intros [= <- _]. eexists; split; [reflexivity|]; repeat constructor; apply HP.
  - intros config ->. eapply HQ. exact Hrun.
Qed.

Lemma keeps_consequence I P {A} (m : M A) (Q Q' : A -> Prop) :
  keeps I P m Q -> (forall a, Q a -> Q' a) -> keeps I P m Q'.
Proof.
  intros Hm HQ w w' r Hrun HI. destruct (Hm w w' r Hrun HI) as (H1 & H2 & H3).
  repeat split; auto.
Qed.

Lemma foldM_app {A S} (body : S -> A -> M S) l1 l2 acc w :
  foldM body (l1 ++ l2)%list acc w =
  (let* acc' := foldM body l1 acc in foldM body l2 acc') w.
Proof.
  revert acc w. induction l1 as [|x l1 IH]; intros acc w; cbn [foldM app].
  - reflexivity.
  - unfold bind in *. destruct (body acc x w) as [w1 [acc1|e]]; [|reflexivity].
    apply IH.
Qed.

Lemma keeps_ext I P {A} (m m' : M A) (Q : A -> Prop) :
  (forall w, m w = m' w) -> keeps I P m' Q -> keeps I P m Q.
Proof. intros Heq Hm w w' r Hrun. rewrite Heq in Hrun. now apply Hm. Qed.

Section FailingProbe.

Variable host : Host.
Variable language : string.
Variable databaseFolder : string.

Hypothesis traced_language : inList language ["cpp"; "java"; "csharp"] = true.

Hypothesis probe_fails :
  forall codeql w,
    exists w' e,
      tracerConfig host codeql (path_resolve databaseFolder language) None w
      = (w', Throw e).

Local Abbreviation quietly := (keeps (fun _ => True) (noTracingNoSuccess host)).

Lemma probe_never_returns codeql :
  quietly (tracerConfig host codeql (path_resolve databaseFolder language) None)
          (fun _ => False).
Proof.
  apply keeps_tracerConfig.
  - intros cmd args env. split; [exact Logic.I|discriminate].
  - intros w w' config Hrun.
    destruct (probe_fails codeql w) as (w1 & e & Hfail). congruence.
Qed.

Ltac quiet_leaf :=
  first [ now apply keeps_ret
        | apply keeps_emit; (split; [exact Logic.I|discriminate])
        | apply keeps_exec; intros; (split; [exact Logic.I|discriminate])
        | apply keeps_mkdirP; (split; [exact Logic.I|discriminate])
        | apply keeps_exportVariable;
          [auto | split; [simpl; auto 7|discriminate]] ].

Ltac quiet_seq := apply keeps_then; [quiet_leaf|].

(** The set-up of the language whose probe fails never ends normally. *)
Lemma failing_language codeqlSetup sourceRoot acc :
  quietly (Init.initLanguage host codeqlSetup databaseFolder sourceRoot acc language)
          (fun _ => False).
Proof.
  destruct acc as [traced scanned].
  unfold Init.initLanguage. rewrite traced_language. quiet_seq.
  eapply keeps_bind; [apply probe_never_returns|intros config []].
Qed.

(** The loop over languages that are not traced, then the language
    whose probe fails, then any other languages: it never ends normally,
    and it is the loop that ends with the language whose probe fails. *)
Lemma failing_loop codeqlSetup sourceRoot scanned others :
  Forall (fun l => inList l ["cpp"; "java"; "csharp"] = false) scanned ->
  quietly (foldM (Init.initLanguage host codeqlSetup databaseFolder sourceRoot)
                 (scanned ++ language :: others) ([], []))
          (fun _ => False).
Proof.
  intros Hscanned.
  eapply keeps_ext; [intros w; apply foldM_app|].
  apply (keeps_bind _ _ _ _ (fun _ => True)).
  - apply keeps_foldM with (J := fun _ => True); [|exact Logic.I].
    intros [traced0 scanned0] l _ Hl. unfold Init.initLanguage.
    rewrite Forall_forall in Hscanned.
    rewrite (Hscanned l (proj2 (list_elem_of_In _ _) Hl)).
    quiet_seq. now apply keeps_ret.
  - intros acc _. cbn [foldM].
    apply (keeps_bind _ _ _ _ (fun _ => False)); [|intros acc' []].
    apply failing_language.
Qed.

Lemma failing_loop_stops codeqlSetup sourceRoot scanned others w :
  exists w' e,
    foldM (Init.initLanguage host codeqlSetup databaseFolder sourceRoot)
          (scanned ++ language :: others) ([], []) w = (w', Throw e) /\
    foldM (Init.initLanguage host codeqlSetup databaseFolder sourceRoot)
          (scanned ++ [language]) ([], []) w = (w', Throw e).
Proof.
  rewrite !foldM_app. cbn [foldM]. unfold bind, ret.
  destruct (foldM _ scanned _ w) as [w1 [acc|e]]; [|eauto].
  destruct (Init.initLanguage host codeqlSetup databaseFolder sourceRoot acc language w1)
    as [w2 [acc'|e]] eqn:Hstep; [|eauto].
  exfalso.
  destruct (failing_language codeqlSetup sourceRoot acc _ _ _ Hstep Logic.I)
    as (_ & _ & Hnever).
  exact (Hnever acc' eq_refl).
Qed.

End FailingProbe.

Lemma failing_runBody host scanned language others folder :
  should_abort host "init" = false ->
  reportActionStarting host "init" = true ->
  getLanguages host = Ok (scanned ++ language :: others)%list ->
  Forall (fun l => inList l ["cpp"; "java"; "csharp"] = false) scanned ->
  inList language ["cpp"; "java"; "csharp"] = true ->
  (forall codeql w,
      exists w' e,
        tracerConfig host codeql
          (path_resolve
             (path_resolve (path_resolve (workspaceFolder host) "codeql_results") "db")
             language) None w
        = (w', Throw e)) ->
  keeps (fun _ => True) (noTracingNoSuccess host) (Init.runBody host folder)
        (fun _ => False).
Proof.
  intros Habort Hstart Hlang Hscanned Htraced Hfail.
  unfold Init.runBody, report, setFailed, warning.
  rewrite Habort.
  apply keeps_then; [apply keeps_emit; split; [exact Logic.I|discriminate]|].
  rewrite Hstart. cbn [negb].
  eapply keeps_bind; [apply keeps_loadConfig|intros config _].
  eapply keeps_bind;
    [apply (keeps_lift _ _ _ (fun a => a = (scanned ++ language :: others)%list));
     intros a Ha; congruence|].
  intros ? ->.
  replace (length (scanned ++ language :: others) =? 0)%nat with false
    by (symmetry; apply Nat.eqb_neq; rewrite length_app; simpl; lia).
  apply keeps_then.
  { unfold Init.includeAndExcludeAnalysisPaths, warning.
    apply keeps_then;
      [apply keeps_exportVariable;
       [auto | split; [simpl; auto 7|discriminate]]|].
    apply keeps_then;
      [apply keeps_exportVariable;
       [auto | split; [simpl; auto 7|discriminate]]|].
    destruct (_ && _);
      [apply keeps_emit; split; [exact Logic.I|discriminate]|now apply keeps_ret]. }
  eapply keeps_bind; [apply (keeps_lift _ _ _ (fun _ => True)); auto|].
  intros codeqlSetup _.
  apply keeps_then;
    [apply keeps_exec; intros; split; [exact Logic.I|discriminate]|].
  eapply keeps_bind; [apply keeps_getProcessEnv|intros ambient _].
  apply keeps_then.
  { destruct (Js.get "GOFLAGS" ambient) as [[|c s]|]; try now apply keeps_ret.
    apply keeps_then;
      [apply keeps_exportVariable;
       [auto | split; [simpl; auto 7|discriminate]]|].
    apply keeps_emit; split; [exact Logic.I|discriminate]. }
  apply keeps_then;
    [apply keeps_mkdirP; split; [exact Logic.I|discriminate]|].
  eapply keeps_bind;
    [apply (failing_loop host language _ Htraced Hfail); exact Hscanned|].
  intros acc [].
Qed.

(** X12. Let the job have languages that are not traced, then a traced
    language whose probe fails, then any other languages, and let the
    init action start.  Then the action fails as a whole: its run ends
    with the failure being set and reported, and before that it writes
    no file, exports no variable of the tracing and reports no success,
    even when the probes of the other languages would succeed.  The
    loop over the languages stops at the language whose probe fails:
    it is the loop of the job without the languages after it. *)
Theorem init_fails_with_the_probe (host : Host)
    (scanned : list string) (language : string) (others : list string) (w : World) :
  let databaseFolder :=
    path_resolve (path_resolve (workspaceFolder host) "codeql_results") "db" in
  should_abort host "init" = false ->
  reportActionStarting host "init" = true ->
  getLanguages host = Ok (scanned ++ language :: others)%list ->
  Forall (fun l => inList l ["cpp"; "java"; "csharp"] = false) scanned ->
  inList language ["cpp"; "java"; "csharp"] = true ->
  (forall codeql w0,
      exists w' e,
        tracerConfig host codeql (path_resolve databaseFolder language) None w0
        = (w', Throw e)) ->
  (exists es e,
     trace (Init.run host w).1 =
       (trace w ++ es ++ [SetFailed (message e); Reported "init" "failure"])%list /\
     Forall (noTracingNoSuccess host) es) /\
  (forall codeqlSetup sourceRoot w0,
     exists w' e,
       foldM (Init.initLanguage host codeqlSetup databaseFolder sourceRoot)
             (scanned ++ language :: others) ([], []) w0 = (w', Throw e) /\
       foldM (Init.initLanguage host codeqlSetup databaseFolder sourceRoot)
             (scanned ++ [language]) ([], []) w0 = (w', Throw e)).
Proof.
  cbv zeta. intros Habort Hstart Hlang Hscanned Htraced Hfail. split.
  - pose proof (failing_runBody host scanned language others
                  (configFolder (processEnv w))
                  Habort Hstart Hlang Hscanned Htraced Hfail) as Hbody.
    unfold Init.run. unfold bind at 1. cbv beta iota. unfold bind at 1, catch.
    destruct (Init.runBody host _ w) as [w1 [completed|e]] eqn:Hrun;
      destruct (Hbody _ _ _ Hrun Logic.I) as (_ & (es & Htrace & Hes) & Hnever).
    + exfalso. exact (Hnever completed eq_refl).
    + exists es, e. split; [|exact Hes].
      unfold bind, setFailed, report, emit, ret. cbn [fst trace].
      rewrite Htrace, <- !app_assoc. reflexivity.
  - intros codeqlSetup sourceRoot w0.
    apply (failing_loop_stops host language _ Htraced Hfail).
Qed.

Lemma init_fails_with_the_probe_witness :
  (exists es e,
     trace (Init.run failingProbeHost sampleWorld).1 =
       (trace sampleWorld ++ es ++ [SetFailed (message e); Reported "init" "failure"])%list /\
     Forall (noTracingNoSuccess failingProbeHost) es) /\
  (forall codeqlSetup sourceRoot w0,
     exists w' e,
       foldM (Init.initLanguage failingProbeHost codeqlSetup
                "/ws/codeql_results/db" sourceRoot)
             (["javascript"] ++ "java" :: ["cpp"]) ([], []) w0 = (w', Throw e) /\
       foldM (Init.initLanguage failingProbeHost codeqlSetup
                "/ws/codeql_results/db" sourceRoot)
             (["javascript"] ++ ["java"]) ([], []) w0 = (w', Throw e)).
Proof.
  apply (init_fails_with_the_probe failingProbeHost ["javascript"] "java" ["cpp"]
           sampleWorld); try reflexivity.
  - repeat constructor.
  - intros codeql w0. eexists _, _. reflexivity.
Defined.

(** ** The finish action at its edges *)

Lemma splitComma_nonempty s : exists first more, splitComma s = first :: more.
Proof.
  induction s as [|c s (first & more & IH)]; simpl.
  - eexists _, _. reflexivity.
  - destruct (Ascii.eqb c ","); [eexists _, _; reflexivity|].
    rewrite IH. eexists _, _. reflexivity.
Qed.

Lemma finalize_loop host codeqlCmd databaseFolder languages w :
  exists e es,
    trace (forEach (splitComma languages)
             (fun language =>
                exec host codeqlCmd
                     ["database"; "finalize"; path_resolve databaseFolder language] None ;;
                ret tt) w).1
    = (trace w ++ e :: es)%list /\
    Forall (isFinalize codeqlCmd) (e :: es).
Proof.
  destruct (splitComma_nonempty languages) as (first & more & ->).
  cbn [forEach]. unfold bind at 1 2, exec at 1.
  assert (Hfirst : isFinalize codeqlCmd
                     (Executed codeqlCmd
                        ["database"; "finalize"; path_resolve databaseFolder first]
                        (processEnv w)))
    by (eexists _, _; reflexivity).
  destruct (spawn host _ _ _ _) as [files1 [out|e]]; cbv beta iota.
  - unfold ret at 1.
    set (w1 := mkWorld files1 (processEnv w) _).
    destruct (forEach more _ w1) as [w2 r] eqn:Hrest.
    assert (Hkeeps : keeps (fun _ => True) (isFinalize codeqlCmd)
                       (forEach more (fun language =>
                          exec host codeqlCmd
                               ["database"; "finalize";
                                path_resolve databaseFolder language] None ;;
                          ret tt))
                       (fun _ => True)).
    { apply keeps_forEach. intros language _.
      apply keeps_then; [|now apply keeps_ret].
      apply keeps_exec. intros env _. eexists _, _. reflexivity. }
    destruct (Hkeeps _ _ _ Hrest Logic.I) as (_ & (es & Ht & Hes) & _).
    exists (Executed codeqlCmd ["database"; "finalize"; path_resolve databaseFolder first]
                     (processEnv w)), es.
    split.
    + cbn [fst]. rewrite Ht. unfold w1. cbn [trace]. now rewrite <- app_assoc.
    + constructor; [exact Hfirst|exact Hes].
  - eexists _, []. split; [reflexivity|]. constructor; [exact Hfirst|constructor].
Qed.

(** X13. When no scanned languages are published (the variable of the
    scanned languages holds the empty string, which is what the init
    action exports for an empty list, or is unset), the finalization
    starts only child processes that finalize a database, and at least
    one of them, whatever the variable of the languages holds: if that
    variable is unset or empty, one database is still finalized, the one
    of the empty language name. *)
Theorem finalization_runs_at_least_once (host : Host) (codeqlCmd databaseFolder : string)
    (w : World) :
  Js.get (CODEQL_ACTION_SCANNED_LANGUAGES host) (processEnv w) = Some (Js.join "," [])
  \/ Js.get (CODEQL_ACTION_SCANNED_LANGUAGES host) (processEnv w) = None ->
  exists e es,
    trace (Finish.finalizeDatabaseCreation host codeqlCmd databaseFolder w).1
    = (trace w ++ e :: es)%list /\
    Forall (isFinalize codeqlCmd) (e :: es).
Proof.
  intros Hscanned.
  assert (Hrun :
    Finish.finalizeDatabaseCreation host codeqlCmd databaseFolder w =
    forEach (splitComma
               match Js.get (CODEQL_ACTION_LANGUAGES host) (processEnv w) with
               | Some (String c s) => String c s
               | _ => ""
               end)
            (fun language =>
               exec host codeqlCmd
                    ["database"; "finalize"; path_resolve databaseFolder language] None ;;
               ret tt) w).
  { unfold Finish.finalizeDatabaseCreation.
    unfold bind at 1, getProcessEnv at 1. cbv beta iota.
    destruct Hscanned as [-> | ->]; reflexivity. }
  rewrite Hrun. apply finalize_loop.
Qed.

Lemma finalization_runs_at_least_once_witness :
  let w := mkWorld sampleFiles
                   [("CODEQL_ACTION_SCANNED_LANGUAGES", "");
                    ("CODEQL_ACTION_LANGUAGES", "java")] [] in
  exists e es,
    trace (Finish.finalizeDatabaseCreation sampleHost "/tools/codeql"
             "/ws/codeql_results/db" w).1
    = (trace w ++ e :: es)%list /\
    Forall (isFinalize "/tools/codeql") (e :: es).
Proof.
  intros w.
  apply (finalization_runs_at_least_once sampleHost "/tools/codeql"
           "/ws/codeql_results/db" w).
  left. reflexivity.
Defined.

(** X14. When the command of the tools cannot be had from the
    environment, the finish action has already cleared the variable of
    the tracer configuration: it starts no child process, reports the
    failure with the message of the error, and leaves the variable
    unset. *)
Theorem finish_without_command (host : Host) (w : World) (data : list byte)
    (config : Config) (e : Error) :
  should_abort host "finish" = false ->
  reportActionStarting host "finish" = true ->
  files w !! path_resolve (configFolder (processEnv w)) "config" = Some (File data) ->
  JSON_parse_config host (string_of_list_byte data) = Ok config ->
  get_required_env_param host
    (Js.remove (sharedEnv_ODASA_TRACER_CONFIGURATION host)
       (Js.set (sharedEnv_ODASA_TRACER_CONFIGURATION host) "" (processEnv w)))
    (CODEQL_ACTION_CMD host) = Throw e ->
  let name := sharedEnv_ODASA_TRACER_CONFIGURATION host in
  let run := Finish.run host w in
  run.2 = Ok tt /\
  trace run.1 =
    (trace w ++ [Reported "finish" "starting"; VariableExported name "";
                 VariableDeleted name; SetFailed (message e);
                 Reported "finish" "failure"])%list /\
  Js.get name (processEnv run.1) = None /\
  files run.1 = files w.
Proof.
  intros Habort Hstart Hfile Hparse Hcmd. cbv zeta.
  assert (Hrun : Finish.run host w =
    (mkWorld (files w)
             (Js.remove (sharedEnv_ODASA_TRACER_CONFIGURATION host)
                (Js.set (sharedEnv_ODASA_TRACER_CONFIGURATION host) "" (processEnv w)))
             (trace w ++ [Reported "finish" "starting";
                          VariableExported (sharedEnv_ODASA_TRACER_CONFIGURATION host) "";
                          VariableDeleted (sharedEnv_ODASA_TRACER_CONFIGURATION host);
                          SetFailed (message e);
                          Reported "finish" "failure"]),
     Ok tt)).
  { unfold Finish.run, Finish.runBody, Finish.analyze, loadConfig, report, setFailed.
    unfold catch, bind, emit, readFileSync, lift, exportVariable, deleteProcessEnv,
      getProcessEnv, ret.
    rewrite Habort, Hstart. cbv beta iota zeta. cbn [negb files processEnv trace].
    cbv beta iota zeta. rewrite Hfile. cbv beta iota zeta. rewrite Hparse.
    cbv beta iota zeta. cbn [files processEnv trace]. rewrite Hcmd.
    cbv beta iota zeta. cbn [files processEnv trace]. now rewrite <- !app_assoc. }
  rewrite Hrun. cbn [fst snd processEnv trace files].
  repeat split. apply get_remove.
Qed.

Lemma finish_without_command_witness :
  let run := Finish.run sampleHost noCommandWorld in
  run.2 = Ok tt /\
  trace run.1 =
    (trace noCommandWorld ++
     [Reported "finish" "starting"; VariableExported "ODASA_TRACER_CONFIGURATION" "";
      VariableDeleted "ODASA_TRACER_CONFIGURATION";
      SetFailed (message (External "CODEQL_ACTION_CMD environment variable must be set"));
      Reported "finish" "failure"])%list /\
  Js.get "ODASA_TRACER_CONFIGURATION" (processEnv run.1) = None /\
  files run.1 = files noCommandWorld.
Proof.
  apply (finish_without_command sampleHost noCommandWorld (utf8 "{}")
           (mkConfig "" [] [] [] (Some []))
           (External "CODEQL_ACTION_CMD environment variable must be set")).
  - reflexivity.
  - reflexivity.
  - reflexivity.
  - reflexivity.
  - reflexivity.
Defined.

(** ** The autobuild action *)

Lemma dominantLanguage_none r ambient :
  match Js.get (Autobuild.CODEQL_ACTION_AUTOBUILD_LANGUAGES r) ambient with
  | None => True
  | Some languages => languages = "" \/ exists rest, languages = String "," rest
  end ->
  Autobuild.dominantLanguage r ambient = None \/
  Autobuild.dominantLanguage r ambient = Some "".
Proof.
  unfold Autobuild.dominantLanguage.
  destruct (Js.get _ ambient) as [languages|]; [|now left].
  intros [->|(rest & ->)]; right; reflexivity.
Qed.

(** X15. When the variable of the languages to build is unset, empty
    or starts with a comma, the autobuild action has no language to
    build: it starts no child process, changes nothing, and reports
    neither success nor failure after the report of its start. *)
Theorem autobuild_without_language (r : Autobuild.Runner) (w : World) :
  Autobuild.should_abort_quietly r "autobuild" true = false ->
  reportActionStarting (Autobuild.base r) "autobuild" = true ->
  match Js.get (Autobuild.CODEQL_ACTION_AUTOBUILD_LANGUAGES r) (processEnv w) with
  | None => True
  | Some languages => languages = "" \/ exists rest, languages = String "," rest
  end ->
  Autobuild.run r w =
  (mkWorld (files w) (processEnv w) (trace w ++ [Reported "autobuild" "starting"]), Ok tt).
Proof.
  intros Habort Hstart Hlang.
  apply dominantLanguage_none in Hlang.
  unfold Autobuild.run, Autobuild.runBody, report.
  unfold catch, bind, emit, getProcessEnv, ret.
  rewrite Habort, Hstart. cbv beta iota zeta. cbn [negb processEnv].
  destruct Hlang as [-> | ->]; reflexivity.
Qed.

Lemma autobuild_without_language_witness :
  Autobuild.run sampleRunner sampleWorld =
  (mkWorld (files sampleWorld) (processEnv sampleWorld)
           (trace sampleWorld ++ [Reported "autobuild" "starting"]), Ok tt).
Proof.
  apply (autobuild_without_language sampleRunner sampleWorld).
  - reflexivity.
  - reflexivity.
  - exact Logic.I.
Defined.

Lemma append_assoc (a b c : string) : (a +:+ b) +:+ c = a +:+ (b +:+ c).
Proof.
  induction a as [|x a IH]; [reflexivity|].
  change (String x ((a +:+ b) +:+ c) = String x (a +:+ (b +:+ c))).
  now rewrite IH.
Qed.

Lemma join_snoc sep (l : list string) x :
  l <> [] -> Js.join sep (l ++ [x]) = Js.join sep l +:+ sep +:+ x.
Proof.
  unfold Js.join. induction l as [|y l IH]; intros Hne; [contradiction|].
  destruct l as [|z l].
  - reflexivity.
  - change (String.concat sep ((y :: z :: l) ++ [x]))
      with (y +:+ sep +:+ String.concat sep ((z :: l) ++ [x])).
    rewrite IH by discriminate.
    change (String.concat sep (y :: z :: l))
      with (y +:+ sep +:+ String.concat sep (z :: l)).
    now rewrite !append_assoc.
Qed.

Lemma splitWs_nonempty s : forall inGap, splitWs inGap s <> [].
Proof.
  induction s as [|c s IH]; intros inGap; simpl; [discriminate|].
  destruct (Js.isWhiteSpace c).
  - destruct inGap; [apply IH|discriminate].
  - destruct (splitWs false s); discriminate.
Qed.

Lemma javaToolOptionsWithFlags_suffix ambient :
  Autobuild.javaToolOptionsWithFlags ambient =
  Js.join " " (splitWhitespace
                 match Js.get "JAVA_TOOL_OPTIONS" ambient with
                 | Some (String c s) => String c s
                 | _ => ""
                 end)
  +:+ " -Dhttp.keepAlive=false -Dmaven.wagon.http.pool=false".
Proof.
  unfold Autobuild.javaToolOptionsWithFlags, Autobuild.javaFlags.
  set (tokens := splitWhitespace _).
  change (tokens ++ ["-Dhttp.keepAlive=false"; "-Dmaven.wagon.http.pool=false"])%list
    with (tokens ++ ["-Dhttp.keepAlive=false"] ++ ["-Dmaven.wagon.http.pool=false"])%list.
  rewrite app_assoc.
  rewrite join_snoc by (intros H; apply app_eq_nil in H as [_ H]; discriminate).
  rewrite join_snoc by apply splitWs_nonempty.
  now rewrite !append_assoc.
Qed.

(** X16. For java the autobuilder runs with the two flags added to
    JAVA_TOOL_OPTIONS: for former options of ASCII characters, the new
    value is these options, with every run of white space turned into
    one space, followed by a space and the two flags; it starts with a
    space when there were no options.  The process keeps the new value
    after the build. *)
Theorem java_build_adds_flags (r : Autobuild.Runner) (autobuildCmd : string) (w : World) :
  let javaToolOptions :=
    match Js.get "JAVA_TOOL_OPTIONS" (processEnv w) with
    | Some (String c s) => String c s
    | _ => ""
    end in
  let options :=
    Js.join " " (splitWhitespace javaToolOptions)
    +:+ " -Dhttp.keepAlive=false -Dmaven.wagon.http.pool=false" in
  let run := Autobuild.buildOther r "java" autobuildCmd w in
  asciiOnly javaToolOptions = true ->
  Js.get "JAVA_TOOL_OPTIONS" (processEnv run.1) = Some options /\
  trace run.1 =
    (trace w ++ [Executed autobuildCmd []
                   (Js.set "JAVA_TOOL_OPTIONS" options (processEnv w))])%list.
Proof.
  cbv zeta. intros _. rewrite <- javaToolOptionsWithFlags_suffix.
  unfold Autobuild.buildOther. cbn [String.eqb Ascii.eqb Bool.eqb].
  unfold bind, getProcessEnv, setProcessEnv, exec, ret.
  cbn [files processEnv trace].
  destruct (spawn _ _ _ _ _) as [files1 [out|e]]; cbn [fst processEnv trace];
    (split; [apply get_set_eq|reflexivity]).
Qed.

Lemma java_build_adds_flags_witness :
  let run := Autobuild.buildOther sampleRunner "java" "/tools/java/tools/autobuild.sh"
                                  javaWorld in
  Js.get "JAVA_TOOL_OPTIONS" (processEnv run.1)
  = Some "-Xmx2g -Dfile.encoding=UTF-8 -Dhttp.keepAlive=false -Dmaven.wagon.http.pool=false".
Proof.
  apply (java_build_adds_flags sampleRunner "/tools/java/tools/autobuild.sh" javaWorld).
  reflexivity.
Defined.

(** X17. The autobuild action builds the first language of the list
    and no other.  For a first language that is not python, when the
    command of the tools is known and the extractor is resolved, it
    starts two child processes: the one that resolves the extractor of
    that language, and the autobuilder, whose path is made of the output
    of the first as it was printed.  The autobuilder runs with the
    environment of the process, for java with the changed
    JAVA_TOOL_OPTIONS (former options of ASCII characters).  Then the
    action reports success if the autobuilder succeeded, and otherwise
    fails with the message of the error of the autobuilder and reports
    the failure. *)
Theorem autobuild_builds_first_language (r : Autobuild.Runner) (w : World)
    (languages language : string) (others : list string)
    (codeqlCmd extractorPath : string) (files1 files2 : gmap string Node)
    (built : Result string) :
  Autobuild.should_abort_quietly r "autobuild" true = false ->
  reportActionStarting (Autobuild.base r) "autobuild" = true ->
  Js.get (Autobuild.CODEQL_ACTION_AUTOBUILD_LANGUAGES r) (processEnv w) = Some languages ->
  splitComma languages = language :: others ->
  language <> "" ->
  String.eqb language "python" = false ->
  asciiOnly match Js.get "JAVA_TOOL_OPTIONS" (processEnv w) with
            | Some (String c s) => String c s
            | _ => ""
            end = true ->
  Autobuild.getRequiredEnvParam r (processEnv w) (CODEQL_ACTION_CMD (Autobuild.base r))
    = Ok codeqlCmd ->
  spawn (Autobuild.base r) codeqlCmd
        ["resolve"; "extractor"; "--format=json"; "--language=" +:+ language]
        (processEnv w) (files w) = (files1, Ok extractorPath) ->
  let cmdName := if String.eqb (platform (Autobuild.base r)) "win32"
                 then "autobuild.cmd" else "autobuild.sh" in
  let autobuildCmd := Autobuild.join r [extractorPath; "tools"; cmdName] in
  let buildEnv := if String.eqb language "java"
                  then Js.set "JAVA_TOOL_OPTIONS"
                              (Autobuild.javaToolOptionsWithFlags (processEnv w))
                              (processEnv w)
                  else processEnv w in
  spawn (Autobuild.base r) autobuildCmd [] buildEnv files1 = (files2, built) ->
  Autobuild.run r w =
    (mkWorld files2 buildEnv
       (trace w ++
        [Reported "autobuild" "starting";
         Executed codeqlCmd
                  ["resolve"; "extractor"; "--format=json"; "--language=" +:+ language]
                  (processEnv w);
         Executed autobuildCmd [] buildEnv] ++
        match built with
        | Ok _ => [Reported "autobuild" "success"]
        | Throw e => [SetFailed (message e); Reported "autobuild" "failure"]
        end)%list,
     Ok tt).
Proof.
  intros Habort Hstart Hget Hsplit Hne Hpython _ Hcmd Hresolve. cbv zeta. intros Hbuild.
  unfold Autobuild.run, Autobuild.runBody, Autobuild.buildOther, report, setFailed.
  unfold Autobuild.dominantLanguage.
  unfold catch, bind, emit, getProcessEnv, setProcessEnv, lift, exec, ret.
  rewrite Habort, Hstart. cbv beta iota zeta. cbn [negb files processEnv trace].
  rewrite Hget, Hsplit. cbn [nth_error].
  destruct language as [|c s]; [contradiction|].
  cbv beta iota zeta. rewrite Hcmd. cbv beta iota zeta.
  cbn [files processEnv trace]. rewrite Hresolve. clear Hresolve.
  cbv beta iota zeta. cbn [files processEnv trace]. rewrite Hpython.
  destruct (String.eqb (String c s) "java"); cbv beta iota zeta;
    cbn [files processEnv trace]; rewrite Hbuild;
    destruct built as [out|e]; cbv beta iota zeta; cbn [files processEnv trace];
    rewrite <- !app_assoc; reflexivity.
Qed.

Lemma autobuild_builds_first_language_witness :
  let buildEnv :=
    Js.set "JAVA_TOOL_OPTIONS"
           "-Xmx2g -Dfile.encoding=UTF-8 -Dhttp.keepAlive=false -Dmaven.wagon.http.pool=false"
           (processEnv javaWorld) in
  Autobuild.run sampleRunner javaWorld =
    (mkWorld sampleFiles buildEnv
       [Reported "autobuild" "starting";
        Executed "/tools/codeql"
                 ["resolve"; "extractor"; "--format=json"; "--language=java"]
                 (processEnv javaWorld);
        Executed "/tools/java/tools/autobuild.sh" [] buildEnv;
        Reported "autobuild" "success"],
     Ok tt).
Proof.
  apply (autobuild_builds_first_language sampleRunner javaWorld "java,cpp" "java" ["cpp"]
           "/tools/codeql" "/tools/java" sampleFiles sampleFiles (Ok ""));
    try reflexivity. discriminate.
Defined.

(** X18. For python no autobuilder is run: when the python build
    succeeds, it has run the three installations and then the setup
    script of the extractor, in this order, the last one with
    LGTM_WORKSPACE set to the workspace of the runner (or to its
    default) and SEMMLE_DIST set to the parsed path of the extractor. *)
Theorem python_build_runs_setup (r : Autobuild.Runner) (extractorPath : string)
    (w w' : World) :
  Autobuild.buildPython r extractorPath w = (w', Ok tt) ->
  exists extractor,
    JSON_parse_string (Autobuild.base r) extractorPath = Ok extractor /\
    Js.get "SEMMLE_DIST" (processEnv w') = Some extractor /\
    Js.get "LGTM_WORKSPACE" (processEnv w') =
      Some match Js.get "RUNNER_WORKSPACE" (processEnv w) with
           | Some (String c s) => String c s
           | _ => "/tmp/codeql-action"
           end /\
    trace w' =
      (trace w ++
       [Executed "sudo apt-get update" [] (processEnv w);
        Executed "sudo apt-get install python3-venv" [] (processEnv w);
        Executed "python -m pip install packaging" [] (processEnv w);
        Executed "python" [Autobuild.resolve r [extractor; "tools"; "setup.py"]]
                 (processEnv w')])%list.
Proof.
  unfold Autobuild.buildPython.
  unfold bind, exec, lift, getProcessEnv, setProcessEnv, ret.
  cbn [files processEnv trace].
  destruct (spawn _ "sudo apt-get update" _ _ _) as [f1 [o1|e1]]; [|discriminate].
  cbv beta iota zeta. cbn [files processEnv trace].
  destruct (spawn _ "sudo apt-get install python3-venv" _ _ _) as [f2 [o2|e2]];
    [|discriminate].
  cbv beta iota zeta. cbn [files processEnv trace].
  destruct (spawn _ "python -m pip install packaging" _ _ _) as [f3 [o3|e3]];
    [|discriminate].
  cbv beta iota zeta. cbn [files processEnv trace].
  destruct (JSON_parse_string (Autobuild.base r) extractorPath) as [extractor|e4];
    [|discriminate].
  cbv beta iota zeta. cbn [files processEnv trace].
  destruct (spawn _ "python" _ _ _) as [f4 [o4|e5]]; [|discriminate].
  intros [= <-]. exists extractor. cbn [processEnv trace].
  repeat split.
  - apply get_set_eq.
  - rewrite get_set_ne by discriminate. apply get_set_eq.
  - now rewrite <- !app_assoc.
Qed.

Lemma python_build_runs_setup_witness :
  exists extractor,
    JSON_parse_string (Autobuild.base sampleRunner) "/tools/python" = Ok extractor /\
    Js.get "SEMMLE_DIST"
      (processEnv (Autobuild.buildPython sampleRunner "/tools/python" sampleWorld).1)
    = Some extractor.
Proof.
  destruct (python_build_runs_setup sampleRunner "/tools/python" sampleWorld
              (Autobuild.buildPython sampleRunner "/tools/python" sampleWorld).1)
    as (extractor & Hparse & Hdist & _).
  - vm_compute. reflexivity.
  - exists extractor. split; [exact Hparse|exact Hdist].
Defined.

(** ** The analysis *)

(** X19. A configuration without the property of the queries of the
    repository, as the class of the configuration declares it, makes
    the analysis throw a type error at the first database, before any
    child process is started; nothing is changed. *)
Theorem analysis_without_repo_queries (host : Host)
    (codeqlCmd databaseFolder sarifFolder : string) (config : Config) (w : World)
    (database : string) (others : list string) :
  inRepoQueries config = None ->
  readdirSync host (files w) databaseFolder = Ok (database :: others) ->
  exists what,
    Finish.runQueries host codeqlCmd databaseFolder sarifFolder config w
    = (w, Throw (TypeError what)).
Proof.
  intros Hqueries Hread. eexists.
  unfold Finish.runQueries. unfold bind at 1. rewrite Hread.
  cbn [forEach]. unfold bind. rewrite Hqueries. reflexivity.
Qed.

Lemma analysis_without_repo_queries_witness :
  exists what,
    Finish.runQueries sampleHost "/tools/codeql" "/ws/codeql_results/db" "/ws/results"
                      (mkConfig "" [] [] [] None) sampleWorld
    = (sampleWorld, Throw (TypeError what)).
Proof.
  apply (analysis_without_repo_queries sampleHost "/tools/codeql" "/ws/codeql_results/db"
           "/ws/results" (mkConfig "" [] [] [] None) sampleWorld "javascript" []).
  - reflexivity.
  - reflexivity.
Defined.

Lemma analyse_loop (host : Host) (codeqlCmd : string) (args : string -> list string)
    (ambient : Js.Object string) :
  forall (databases : list string) (w : World),
    processEnv w = ambient ->
    let run := forEach databases
                 (fun database => exec host codeqlCmd (args database) None ;; ret tt) w in
    let started := map (fun database => Executed codeqlCmd (args database) ambient) in
    processEnv run.1 = ambient /\
    match run.2 with
    | Ok _ => trace run.1 = (trace w ++ started databases)%list
    | Throw e =>
        exists analysed database rest files0 files1,
          databases = (analysed ++ database :: rest)%list /\
          trace run.1 = (trace w ++ started (analysed ++ [database]))%list /\
          spawn host codeqlCmd (args database) ambient files0 = (files1, Throw e) /\
          files run.1 = files1
    end.
Proof.
  intros databases.
  set (body := fun database => exec host codeqlCmd (args database) None ;; ret tt).
  induction databases as [|database databases IH]; intros w Henv; cbv zeta.
  - cbn. split; [exact Henv|]. now rewrite app_nil_r.
  - destruct (spawn host codeqlCmd (args database) (processEnv w) (files w))
      as [files' [out|e]] eqn:Hspawn.
    + set (w1 := mkWorld files' (processEnv w)
                   (trace w ++ [Executed codeqlCmd (args database) (processEnv w)])).
      assert (Hstep : forEach (database :: databases) body w = forEach databases body w1).
      { cbn [forEach]. unfold bind at 1. unfold body at 1.
        unfold bind at 1, exec at 1. rewrite Hspawn. reflexivity. }
      rewrite Hstep.
      destruct (IH w1 Henv) as (Hsame & Hrest).
      split; [exact Hsame|].
      destruct (forEach databases body w1).2 as [[]|e].
      * rewrite Hrest. unfold w1. cbn [trace map]. rewrite Henv.
        now rewrite <- app_assoc.
      * destruct Hrest as (analysed & failing & rest & files0 & files1
                           & -> & Htrace & Hfail & Hfiles).
        exists (database :: analysed), failing, rest, files0, files1.
        split; [reflexivity|]. split; [|split; [exact Hfail|exact Hfiles]].
        rewrite Htrace. unfold w1. cbn [trace map app]. rewrite Henv.
        now rewrite <- app_assoc.
    + assert (Hstep : forEach (database :: databases) body w =
                      (mkWorld files' (processEnv w)
                         (trace w ++ [Executed codeqlCmd (args database) (processEnv w)]),
                       Throw e)).
      { cbn [forEach]. unfold bind at 1. unfold body at 1.
        unfold bind at 1, exec at 1. rewrite Hspawn. reflexivity. }
      rewrite Hstep. cbn [fst snd processEnv]. split; [exact Henv|].
      exists [], database, databases, (files w), files'.
      cbn [trace files map app]. rewrite Henv in *. auto.
Qed.

(** X20. With the queries of the repository in the configuration, the
    analysis starts only child processes that analyze a database, in the
    order of the listing of the database folder, each with the
    environment of the process and with the queries of the repository
    after the suite of the database.  When it succeeds, it has started
    one for every entry.  When it throws, it has started one for each
    entry up to the one whose child process failed, none for the entries
    after it, and the error is that of this child process. *)
Theorem analysis_runs_per_database (host : Host)
    (codeqlCmd databaseFolder sarifFolder : string) (config : Config)
    (queries databases : list string) (w : World) :
  inRepoQueries config = Some queries ->
  readdirSync host (files w) databaseFolder = Ok databases ->
  let run := Finish.runQueries host codeqlCmd databaseFolder sarifFolder config w in
  exists (database_path sarif_path : string -> string),
    let args := fun database =>
      (["database"; "analyze"; database_path database;
        "--format=sarif-latest"; "--output=" +:+ sarif_path database;
        "--no-sarif-add-snippets";
        database +:+ "-code-scanning.qls"] ++ queries)%list in
    let started :=
      map (fun database => Executed codeqlCmd (args database) (processEnv w)) in
    match run.2 with
    | Ok _ => trace run.1 = (trace w ++ started databases)%list
    | Throw e =>
        exists analysed database rest files0 files1,
          databases = (analysed ++ database :: rest)%list /\
          trace run.1 = (trace w ++ started (analysed ++ [database]))%list /\
          spawn host codeqlCmd (args database) (processEnv w) files0
          = (files1, Throw e) /\
          files run.1 = files1
    end.
Proof.
  intros Hqueries Hread. cbv zeta.
  set (args := fun database : string =>
         (["database"; "analyze"; path_resolve databaseFolder database;
           "--format=sarif-latest";
           "--output=" +:+ path_resolve sarifFolder (database +:+ ".sarif");
           "--no-sarif-add-snippets"; database +:+ "-code-scanning.qls"] ++ queries)%list).
  assert (Hrun :
    Finish.runQueries host codeqlCmd databaseFolder sarifFolder config w
    = forEach databases
        (fun database => exec host codeqlCmd (args database) None ;; ret tt) w).
  { unfold Finish.runQueries. unfold bind at 1. rewrite Hread, Hqueries. reflexivity. }
  rewrite Hrun. clear Hrun.
  exists (path_resolve databaseFolder),
         (fun database => path_resolve sarifFolder (database +:+ ".sarif")).
  exact (proj2 (analyse_loop host codeqlCmd args (processEnv w) databases w eq_refl)).
Qed.

Lemma analysis_runs_per_database_witness :
  let run := Finish.runQueries sampleHost "/tools/codeql" "/ws/codeql_results/db"
               "/ws/results" (mkConfig "" [] [] [] (Some ["./q.ql"])) sampleWorld in
  exists (database_path sarif_path : string -> string),
    let args := fun database =>
      (["database"; "analyze"; database_path database;
        "--format=sarif-latest"; "--output=" +:+ sarif_path database;
        "--no-sarif-add-snippets";
        database +:+ "-code-scanning.qls"] ++ ["./q.ql"])%list in
    let started :=
      map (fun database =>
             Executed "/tools/codeql" (args database) (processEnv sampleWorld)) in
    match run.2 with
    | Ok _ => trace run.1 = (trace sampleWorld ++ started ["javascript"])%list
    | Throw e =>
        exists analysed database rest files0 files1,
          ["javascript"] = (analysed ++ database :: rest)%list /\
          trace run.1 = (trace sampleWorld ++ started (analysed ++ [database]))%list /\
          spawn sampleHost "/tools/codeql" (args database) (processEnv sampleWorld) files0
          = (files1, Throw e) /\
          files run.1 = files1
    end.
Proof.
  apply (analysis_runs_per_database sampleHost "/tools/codeql" "/ws/codeql_results/db"
           "/ws/results" (mkConfig "" [] [] [] (Some ["./q.ql"])) ["./q.ql"]
           ["javascript"] sampleWorld); reflexivity.
Defined.

(** ** The configuration file *)

(** X21. The init action and the finish action load the configuration
    file before anything else: when the file is missing, each of them
    fails at once, with no child process, no exported variable and no
    written file, and reports the failure. *)
Theorem actions_fail_without_config (host : Host) (w : World) :
  should_abort host "init" = false ->
  should_abort host "finish" = false ->
  reportActionStarting host "init" = true ->
  reportActionStarting host "finish" = true ->
  files w !! path_resolve (configFolder (processEnv w)) "config" = None ->
  exists text,
    Init.run host w =
      (mkWorld (files w) (processEnv w)
               (trace w ++ [Reported "init" "starting"; SetFailed text;
                            Reported "init" "failure"]), Ok tt) /\
    Finish.run host w =
      (mkWorld (files w) (processEnv w)
               (trace w ++ [Reported "finish" "starting"; SetFailed text;
                            Reported "finish" "failure"]), Ok tt).
Proof.
  intros Hinit Hfinish Hinit' Hfinish' Hfile. eexists. split.
  - unfold Init.run, Init.runBody, loadConfig, report, setFailed.
    unfold catch, bind, emit, readFileSync, ret.
    rewrite Hinit, Hinit'. cbv beta iota zeta. cbn [negb files processEnv trace].
    rewrite Hfile. cbv beta iota zeta. cbn [files processEnv trace].
    rewrite <- !app_assoc. reflexivity.
  - unfold Finish.run, Finish.runBody, loadConfig, report, setFailed.
    unfold catch, bind, emit, readFileSync, ret.
    rewrite Hfinish, Hfinish'. cbv beta iota zeta. cbn [negb files processEnv trace].
    rewrite Hfile. cbv beta iota zeta. cbn [files processEnv trace].
    rewrite <- !app_assoc. reflexivity.
Qed.

Lemma actions_fail_without_config_witness :
  exists text,
    Init.run sampleHost (mkWorld ∅ [] []) =
      (mkWorld ∅ [] [Reported "init" "starting"; SetFailed text;
                     Reported "init" "failure"], Ok tt) /\
    Finish.run sampleHost (mkWorld ∅ [] []) =
      (mkWorld ∅ [] [Reported "finish" "starting"; SetFailed text;
                     Reported "finish" "failure"], Ok tt).
Proof.
  apply (actions_fail_without_config sampleHost (mkWorld ∅ [] [])); reflexivity.
Defined.
